(** * shoer-scanner: the AI-output contract layer

    A shallow embedding of [backend/src/services/openai.ts] (geometry
    normaliser, payload patch, zod schemas, model-response parser, vision and
    ranking stages) and of [backend/src/services/overlay.ts] (the SVG overlay
    builder), together with the properties the specification states of them.

    Conventions of the embedding.
    - A JavaScript [number] is an exact rational ([Q]).  The carrier holds the
      finite numbers only: the values that reach the geometry code have passed
      [z.number().min(0).max(1)], which rejects NaN and the infinities.
      Arithmetic is exact; [Math.round] rounds the exact product.  The one
      exception is the percentage of a candidate label, whose digits depend
      on how the double product [confidence * 100] is rounded: there the
      product is the platform's, a parameter [times].
    - A JavaScript string is a [string] of bytes; [length] counts bytes.
    - A JavaScript value produced by [JSON.parse] is a [JSON] tree whose
      objects are association lists in insertion order with unique keys.
    - A computation that may throw returns an [Outcome]; an [async] function
      that awaits the upstream model is an [Async] tree with one node per
      upstream call. *)

From Stdlib Require Import ZArith QArith Qminmax Qround Lia Lqa Bool List.
From Stdlib Require Import Ascii String DecimalString.
Import ListNotations.

Local Open Scope Q_scope.
Local Open Scope string_scope.
Local Open Scope list_scope.

(* ------------------------------------------------------------------ *)
(** ** Platform: numbers *)

Module Js.

Definition Math_max (a b : Q) : Q := Qmax a b.
Definition Math_min (a b : Q) : Q := Qmin a b.

(** [Math.round]: the nearest integer, halves towards +infinity. *)
Definition Math_round (a : Q) : Z := Qfloor (a + (1 # 2)).

(** [Math.floor]. *)
Definition Math_floor (a : Q) : Z := Qfloor a.

(** [Number.isInteger]. *)
Definition Number_isInteger (a : Q) : bool :=
  Qeq_bool a (inject_Z (Qfloor a)).

(** [`${n}`] for an integer-valued number. *)
Definition String_of_Z (n : Z) : string :=
  NilZero.string_of_int (Z.to_int n).

Definition String_of_nat (n : nat) : string :=
  NilZero.string_of_uint (Nat.to_uint n).

(* String building.  [+++] is JavaScript's string [+] and template
   interpolation; [dq] is the double-quote character. *)
Infix "+++" := String.append (right associativity, at level 60).

Definition dq : string := String "034"%char EmptyString.

(** [s.length]. *)
Definition str_length (s : string) : Z := Z.of_nat (String.length s).

(** [s.indexOf(c)] for a one-character needle: [-1] when absent. *)
Fixpoint indexOf_from (c : ascii) (s : string) (i : Z) : Z :=
  match s with
  | EmptyString => (-1)%Z
  | String a r => if Ascii.eqb a c then i else indexOf_from c r (i + 1)%Z
  end.

Definition indexOf (s : string) (c : ascii) : Z := indexOf_from c s 0%Z.

(** [s.lastIndexOf(c)] for a one-character needle: [-1] when absent. *)
Fixpoint lastIndexOf_from (c : ascii) (s : string) (i : Z) (found : Z) : Z :=
  match s with
  | EmptyString => found
  | String a r =>
      lastIndexOf_from c r (i + 1)%Z (if Ascii.eqb a c then i else found)
  end.

Definition lastIndexOf (s : string) (c : ascii) : Z :=
  lastIndexOf_from c s 0%Z (-1)%Z.

(** [s.slice(i, j)], negative indices counted from the end. *)
Definition slice (s : string) (i j : Z) : string :=
  let len := str_length s in
  let norm k := if (k <? 0)%Z then Z.max (len + k) 0 else Z.min k len in
  let from := norm i in
  let to := norm j in
  if (from <? to)%Z
  then String.substring (Z.to_nat from) (Z.to_nat (to - from)) s
  else EmptyString.

(** [s.replaceAll(c, rep)] for a one-character pattern. *)
Fixpoint replaceAll (s : string) (c : ascii) (rep : string) : string :=
  match s with
  | EmptyString => EmptyString
  | String a r =>
      if Ascii.eqb a c then rep +++ replaceAll r c rep
      else String a (replaceAll r c rep)
  end.

(** The truth value of a [string | null]. *)
Definition truthy (s : option string) : bool :=
  match s with
  | Some s => negb (String.eqb s "")
  | None => false
  end.

(** [`${s}`] for a [string | null]. *)
Definition interpolate (s : option string) : string :=
  match s with
  | Some s => s
  | None => "null"
  end.

(** [array.map((c, i) => ...)] and [array.forEach((c, i) => ...)]. *)
Fixpoint mapi_from {A B} (i : nat) (f : A -> nat -> B) (l : list A)
  : list B :=
  match l with
  | [] => []
  | a :: rest => f a i :: mapi_from (S i) f rest
  end.

Definition mapi {A B} (f : A -> nat -> B) (l : list A) : list B :=
  mapi_from 0 f l.

(** [array.slice(0, n)]. *)
Definition slice0 {A} (n : nat) (l : list A) : list A := firstn n l.


(** A thrown value, as the [catch] clause of [runVision] reads it:
    [e?.status], [e?.response?.status] and the text of
    [String(e?.message || e)]. *)
Record Exn := {
  exn_status : option Z;
  exn_response_status : option Z;
  exn_message : string
}.

(** [new Error(msg)], [SyntaxError] and the like: no status. *)
Definition Error (msg : string) : Exn :=
  {| exn_status := None; exn_response_status := None; exn_message := msg |}.

(** The result of evaluating code that may throw. *)
Inductive Outcome (A : Type) : Type :=
| Returned (a : A)
| Thrown (e : Exn).
Arguments Returned {A} a.
Arguments Thrown {A} e.

(** [try { body } catch (e) { handler }]. *)
Definition try_catch {A} (body : Outcome A) (handler : Exn -> Outcome A)
  : Outcome A :=
  match body with
  | Returned a => Returned a
  | Thrown e => handler e
  end.

Definition bind {A B} (m : Outcome A) (k : A -> Outcome B) : Outcome B :=
  match m with
  | Returned a => k a
  | Thrown e => Thrown e
  end.

End Js.

(* ------------------------------------------------------------------ *)
(** ** types/contracts.ts *)

Module Contracts.

Inductive ArchType := flat | normal | high | unknown.
Inductive Usage := road | trail | treadmill | casual | racing.

Record BBox := { x : Q; y : Q; w : Q; h : Q }.

Record VisionCandidate := {
  raw_label : string;
  brand : option string;
  model : option string;
  confidence : Q;
  bbox : option BBox;
  (** [notes?: string | null]: [None] when the key is absent. *)
  notes : option (option string)
}.

Inductive Lighting := lighting_good | lighting_ok | lighting_bad.
Inductive Blur := blur_none | blur_mild | blur_high.
Inductive Occlusion := occlusion_none | occlusion_some | occlusion_heavy.

Record ImageQuality := {
  lighting : Lighting;
  blur : Blur;
  occlusion : Occlusion
}.

Record ErrorEntry := { code : string; message : string }.

Record VisionResult := {
  request_id : string;
  candidates : list VisionCandidate;
  image_quality : ImageQuality;
  errors : list ErrorEntry
}.

Record ShoeSpecs := {
  terrain : option string;
  stability : option string;
  drop_mm : option Q;
  weight_g : option Q;
  cushion : option string
}.

Record RankedRecommendation := {
  rec_model : string;
  match_score : Q;
  why : list string;
  specs : ShoeSpecs;
  tradeoffs : list string;
  rec_confidence : Q
}.

Record AvoidEntry := {
  avoid_model : string;
  reason : string;
  avoid_confidence : Q
}.

Record Profile := {
  arch_type : ArchType;
  usage : Usage;
  weekly_mileage : Q
}.

Record RecommendationsResult := {
  rr_request_id : string;
  profile_used : Profile;
  ranked : list RankedRecommendation;
  avoid : list AvoidEntry;
  fallback_needed : bool;
  rr_errors : list ErrorEntry
}.

End Contracts.

(* ------------------------------------------------------------------ *)
(** ** Platform: JSON values *)

Module Json.
Import Js.

(** A value [JSON.parse] can produce. *)
#[warnings="-register-all"]
Inductive JSON : Type :=
| JNull
| JBool (b : bool)
| JNum (n : Q)
| JStr (s : string)
| JArr (items : list JSON)
| JObj (props : list (string * JSON)).

(** [obj[key]] on own properties: [None] is [undefined]. *)
Fixpoint get (props : list (string * JSON)) (key : string) : option JSON :=
  match props with
  | [] => None
  | (k, v) :: rest => if String.eqb k key then Some v else get rest key
  end.

(** [obj[key] = v]: an existing key keeps its place, a new key goes last. *)
Fixpoint set (props : list (string * JSON)) (key : string) (v : JSON)
  : list (string * JSON) :=
  match props with
  | [] => [(key, v)]
  | (k, v0) :: rest =>
      if String.eqb k key then (k, v) :: rest else (k, v0) :: set rest key v
  end.

(** The own enumerable properties of an array: its indices. *)
Fixpoint indexed (i : nat) (items : list JSON) : list (string * JSON) :=
  match items with
  | [] => []
  | v :: rest => (String_of_nat i, v) :: indexed (S i) rest
  end.

(** [{ ...v }]: the own enumerable properties of [v] (none for [null] and
    the primitives other than strings; strings never reach a spread here). *)
Definition spread (v : JSON) : list (string * JSON) :=
  match v with
  | JObj props => props
  | JArr items => indexed 0 items
  | _ => []
  end.

(** [!v]. *)
Definition falsy (v : JSON) : bool :=
  match v with
  | JNull => true
  | JBool b => negb b
  | JNum n => Qeq_bool n 0
  | JStr s => String.eqb s EmptyString
  | JArr _ | JObj _ => false
  end.

(** [typeof v === 'object']. *)
Definition typeof_object (v : JSON) : bool :=
  match v with
  | JNull | JArr _ | JObj _ => true
  | _ => false
  end.

(** *** A reference [JSON.parse] (ECMA-404 grammar)

    The service takes [JSON.parse] from the platform.  This executable
    parser follows the JSON grammar; it instantiates the platform parser
    wherever a concrete run is evaluated. *)

Definition is_ws (c : ascii) : bool :=
  match nat_of_ascii c with
  | 32%nat | 9%nat | 10%nat | 13%nat => true
  | _ => false
  end.

Fixpoint skip_ws (s : list ascii) : list ascii :=
  match s with
  | c :: r => if is_ws c then skip_ws r else s
  | [] => []
  end.

Definition digit_of (c : ascii) : option Z :=
  let n := Z.of_nat (nat_of_ascii c) in
  if ((48 <=? n) && (n <=? 57))%Z then Some (n - 48)%Z else None.

Definition hex_of (c : ascii) : option Z :=
  let n := Z.of_nat (nat_of_ascii c) in
  if ((48 <=? n) && (n <=? 57))%Z then Some (n - 48)%Z
  else if ((97 <=? n) && (n <=? 102))%Z then Some (n - 87)%Z
  else if ((65 <=? n) && (n <=? 70))%Z then Some (n - 55)%Z
  else None.

(** The digits at the head of [s]: their value, how many, and the rest. *)
Fixpoint digits (s : list ascii) (acc : Z) (count : nat)
  : Z * nat * list ascii :=
  match s with
  | c :: r =>
      match digit_of c with
      | Some d => digits r (acc * 10 + d)%Z (S count)
      | None => (acc, count, s)
      end
  | [] => (acc, count, [])
  end.

(** [m * 10^e]. *)
Definition scale10 (m : Q) (e : Z) : Q :=
  match e with
  | Z0 => m
  | Zpos p => m * inject_Z (Zpos (Pos.pow 10 p))
  | Zneg p => m / inject_Z (Zpos (Pos.pow 10 p))
  end.

(** [int frac? exp?] after the optional sign. *)
Definition parse_unsigned (s : list ascii) : option (Q * list ascii) :=
  let '(ip, icount, r1) := digits s 0%Z 0%nat in
  let leading_zero :=
    match s with
    | c :: _ => Ascii.eqb c "0"%char
    | [] => false
    end in
  if (icount =? 0)%nat then None
  else if leading_zero && (1 <? icount)%nat then None
  else
    let frac :=
      match r1 with
      | "."%char :: r2 =>
          let '(fp, fcount, r3) := digits r2 0%Z 0%nat in
          if (fcount =? 0)%nat then None
          else Some (inject_Z ip + (fp # Pos.pow 10 (Pos.of_nat fcount)), r3)
      | _ => Some (inject_Z ip, r1)
      end in
    match frac with
    | None => None
    | Some (m, r3) =>
        let exponent sign r :=
          let '(e, ecount, r4) := digits r 0%Z 0%nat in
          if (ecount =? 0)%nat then None
          else Some (scale10 m (sign * e)%Z, r4) in
        match r3 with
        | ("e" | "E")%char :: "+"%char :: r => exponent 1%Z r
        | ("e" | "E")%char :: "-"%char :: r => exponent (-1)%Z r
        | ("e" | "E")%char :: r => exponent 1%Z r
        | _ => Some (m, r3)
        end
    end.

Definition parse_number (s : list ascii) : option (Q * list ascii) :=
  match s with
  | "-"%char :: r =>
      match parse_unsigned r with
      | Some (q, r') => Some (- q, r')
      | None => None
      end
  | _ => parse_unsigned s
  end.

(** The UTF-8 bytes of a code unit of the Basic Multilingual Plane. *)
Definition utf8 (n : Z) : list ascii :=
  let byte k := ascii_of_nat (Z.to_nat k) in
  if (n <? 128)%Z then [byte n]
  else if (n <? 2048)%Z then [byte (192 + n / 64); byte (128 + n mod 64)]%Z
  else [byte (224 + n / 4096); byte (128 + (n / 64) mod 64);
        byte (128 + n mod 64)]%Z.

(** The characters of a string literal after its opening quote. *)
Fixpoint parse_chars (s : list ascii) (acc : list ascii)
  : option (string * list ascii) :=
  match s with
  | [] => None
  | "034"%char :: r => Some (string_of_list_ascii (rev acc), r)
  | "\"%char :: r =>
      match r with
      | "034"%char :: r' => parse_chars r' ("034"%char :: acc)
      | "\"%char :: r' => parse_chars r' ("\"%char :: acc)
      | "/"%char :: r' => parse_chars r' ("/"%char :: acc)
      | "b"%char :: r' => parse_chars r' ("008"%char :: acc)
      | "f"%char :: r' => parse_chars r' ("012"%char :: acc)
      | "n"%char :: r' => parse_chars r' ("010"%char :: acc)
      | "r"%char :: r' => parse_chars r' ("013"%char :: acc)
      | "t"%char :: r' => parse_chars r' ("009"%char :: acc)
      | "u"%char :: a :: b :: c :: d :: r' =>
          match hex_of a, hex_of b, hex_of c, hex_of d with
          | Some a, Some b, Some c, Some d =>
              parse_chars r'
                (rev (utf8 (((a * 16 + b) * 16 + c) * 16 + d)%Z) ++ acc)
          | _, _, _, _ => None
          end
      | _ => None
      end
  | c :: r =>
      if (nat_of_ascii c <? 32)%nat then None else parse_chars r (c :: acc)
  end.

(** Values, array elements and object members, by recursive descent.
    [fuel] bounds the number of nested calls; [2 * length + 1] is enough
    for any input, a call consuming a character every second step. *)
Fixpoint parse_value (fuel : nat) (s : list ascii)
  : option (JSON * list ascii) :=
  match fuel with
  | O => None
  | S fuel =>
      match skip_ws s with
      | "{"%char :: r =>
          match skip_ws r with
          | "}"%char :: r' => Some (JObj [], r')
          | r' =>
              match parse_members fuel [] r' with
              | Some (props, r'') => Some (JObj props, r'')
              | None => None
              end
          end
      | "["%char :: r =>
          match skip_ws r with
          | "]"%char :: r' => Some (JArr [], r')
          | r' =>
              match parse_elements fuel [] r' with
              | Some (items, r'') => Some (JArr items, r'')
              | None => None
              end
          end
      | "034"%char :: r =>
          match parse_chars r [] with
          | Some (str, r') => Some (JStr str, r')
          | None => None
          end
      | "t"%char :: "r"%char :: "u"%char :: "e"%char :: r =>
          Some (JBool true, r)
      | "f"%char :: "a"%char :: "l"%char :: "s"%char :: "e"%char :: r =>
          Some (JBool false, r)
      | "n"%char :: "u"%char :: "l"%char :: "l"%char :: r =>
          Some (JNull, r)
      | s' =>
          match parse_number s' with
          | Some (q, r) => Some (JNum q, r)
          | None => None
          end
      end
  end

with parse_elements (fuel : nat) (acc : list JSON) (s : list ascii)
  : option (list JSON * list ascii) :=
  match fuel with
  | O => None
  | S fuel =>
      match parse_value fuel s with
      | Some (v, r) =>
          match skip_ws r with
          | ","%char :: r' => parse_elements fuel (v :: acc) r'
          | "]"%char :: r' => Some (rev (v :: acc), r')
          | _ => None
          end
      | None => None
      end
  end

with parse_members (fuel : nat) (acc : list (string * JSON)) (s : list ascii)
  : option (list (string * JSON) * list ascii) :=
  match fuel with
  | O => None
  | S fuel =>
      match skip_ws s with
      | "034"%char :: r =>
          match parse_chars r [] with
          | Some (key, r1) =>
              match skip_ws r1 with
              | ":"%char :: r2 =>
                  match parse_value fuel r2 with
                  | Some (v, r3) =>
                      (* a repeated key keeps its first place and takes
                         the last value *)
                      let acc' := set acc key v in
                      match skip_ws r3 with
                      | ","%char :: r4 => parse_members fuel acc' r4
                      | "}"%char :: r4 => Some (acc', r4)
                      | _ => None
                      end
                  | None => None
                  end
              | _ => None
              end
          | None => None
          end
      | _ => None
      end
  end.

(** [JSON.parse(text)]: one value, white space around it, nothing else;
    a [SyntaxError] otherwise. *)
Definition parse (text : string) : Outcome JSON :=
  let s := list_ascii_of_string text in
  match parse_value (2 * List.length s + 1) s with
  | Some (v, r) =>
      match skip_ws r with
      | [] => Returned v
      | _ => Thrown (Error "SyntaxError: Unexpected non-whitespace character after JSON")
      end
  | None => Thrown (Error "SyntaxError: Unexpected token in JSON")
  end.

End Json.
(* ------------------------------------------------------------------ *)
(** ** Platform: zod schemas

    A schema is a function from an input ([None] is [undefined]) to a
    [SafeParse] result: the typed data, or every issue found. *)

Module Zod.
Import Js Json.

Inductive IssueCode :=
| invalid_type | invalid_enum_value | too_small | too_big.

Record ZodIssue := { issue_code : IssueCode; issue_path : list string }.

Inductive SafeParse (A : Type) : Type :=
| success (data : A)
| failure (issues : list ZodIssue).
Arguments success {A} data.
Arguments failure {A} issues.

Definition Schema (A : Type) : Type := option JSON -> SafeParse A.

Definition issue (c : IssueCode) : ZodIssue :=
  {| issue_code := c; issue_path := [] |}.

Definition issues_of {A} (r : SafeParse A) : list ZodIssue :=
  match r with
  | success _ => []
  | failure l => l
  end.

(** The issues of a nested value, reported under its key or index. *)
Definition under {A} (key : string) (r : SafeParse A) : SafeParse A :=
  match r with
  | success a => success a
  | failure l =>
      failure
        (map (fun i => {| issue_code := issue_code i;
                          issue_path := key :: issue_path i |}) l)
  end.

Definition fmap {A B} (f : A -> B) (r : SafeParse A) : SafeParse B :=
  match r with
  | success a => success (f a)
  | failure l => failure l
  end.

(** Both sides are validated; the issues of both are kept. *)
Definition ap {A B} (rf : SafeParse (A -> B)) (ra : SafeParse A)
  : SafeParse B :=
  match rf, ra with
  | success f, success a => success (f a)
  | _, _ => failure (issues_of rf ++ issues_of ra)
  end.

Infix "<$>" := fmap (at level 61, left associativity).
Infix "<*>" := ap (at level 61, left associativity).

(** [z.string()]. *)
Definition z_string : Schema string := fun v =>
  match v with
  | Some (JStr s) => success s
  | _ => failure [issue invalid_type]
  end.

(** [z.boolean()]. *)
Definition z_boolean : Schema bool := fun v =>
  match v with
  | Some (JBool b) => success b
  | _ => failure [issue invalid_type]
  end.

(** [z.number()] with its chained checks. *)
Inductive NumberCheck :=
| check_min (bound : Q)
| check_max (bound : Q)
| check_int.

Record ZodNumber := { number_checks : list NumberCheck }.

Definition z_number : ZodNumber := {| number_checks := [] |}.
Definition min (s : ZodNumber) (bound : Q) : ZodNumber :=
  {| number_checks := number_checks s ++ [check_min bound] |}.
Definition max (s : ZodNumber) (bound : Q) : ZodNumber :=
  {| number_checks := number_checks s ++ [check_max bound] |}.
Definition int (s : ZodNumber) : ZodNumber :=
  {| number_checks := number_checks s ++ [check_int] |}.

Definition run_check (n : Q) (c : NumberCheck) : list ZodIssue :=
  match c with
  | check_min bound => if Qle_bool bound n then [] else [issue too_small]
  | check_max bound => if Qle_bool n bound then [] else [issue too_big]
  | check_int => if Number_isInteger n then [] else [issue invalid_type]
  end.

Definition parse_number (s : ZodNumber) : Schema Q := fun v =>
  match v with
  | Some (JNum n) =>
      match flat_map (run_check n) (number_checks s) with
      | [] => success n
      | l => failure l
      end
  | _ => failure [issue invalid_type]
  end.
Coercion parse_number : ZodNumber >-> Schema.

(** [z.array(element)] with its length bounds. *)
Record ZodArray (A : Type) := {
  element : Schema A;
  min_length : option nat;
  max_length : option nat
}.
Arguments element {A} _.
Arguments min_length {A} _.
Arguments max_length {A} _.

Definition z_array {A} (element : Schema A) : ZodArray A :=
  {| element := element; min_length := None; max_length := None |}.
Definition array_min {A} (s : ZodArray A) (n : nat) : ZodArray A :=
  {| element := element s; min_length := Some n; max_length := max_length s |}.
Definition array_max {A} (s : ZodArray A) (n : nat) : ZodArray A :=
  {| element := element s; min_length := min_length s; max_length := Some n |}.

Fixpoint parse_items {A} (p : Schema A) (i : nat) (items : list JSON)
  : SafeParse (list A) :=
  match items with
  | [] => success []
  | v :: rest =>
      cons <$> under (String_of_nat i) (p (Some v))
           <*> parse_items p (S i) rest
  end.

Definition length_issues {A} (s : ZodArray A) (len : nat) : list ZodIssue :=
  (match min_length s with
   | Some n => if (len <? n)%nat then [issue too_small] else []
   | None => []
   end) ++
  (match max_length s with
   | Some n => if (n <? len)%nat then [issue too_big] else []
   | None => []
   end).

Definition parse_array {A} (s : ZodArray A) : Schema (list A) := fun v =>
  match v with
  | Some (JArr items) =>
      match length_issues s (List.length items) with
      | [] => parse_items (element s) 0 items
      | l => failure (l ++ issues_of (parse_items (element s) 0 items))
      end
  | _ => failure [issue invalid_type]
  end.
Coercion parse_array : ZodArray >-> Schema.

(** [schema.nullable()]. *)
Definition nullable {A} (p : Schema A) : Schema (option A) := fun v =>
  match v with
  | Some JNull => success None
  | _ => Some <$> p v
  end.

(** [schema.optional()]. *)
Definition optional {A} (p : Schema A) : Schema (option A) := fun v =>
  match v with
  | None => success None
  | _ => Some <$> p v
  end.

(** [z.enum([...])]: each literal with the value it denotes. *)
Fixpoint assoc {A} (values : list (string * A)) (s : string) : option A :=
  match values with
  | [] => None
  | (k, a) :: rest => if String.eqb k s then Some a else assoc rest s
  end.

Definition z_enum {A} (values : list (string * A)) : Schema A := fun v =>
  match v with
  | Some (JStr s) =>
      match assoc values s with
      | Some a => success a
      | None => failure [issue invalid_enum_value]
      end
  | _ => failure [issue invalid_type]
  end.

(** [z.object({...})]: the input must be a non-array, non-null object;
    [shape] validates the listed keys, unknown keys are dropped. *)
Definition z_object {A} (shape : list (string * JSON) -> SafeParse A)
  : Schema A := fun v =>
  match v with
  | Some (JObj props) => shape props
  | _ => failure [issue invalid_type]
  end.

(** The entry [key: schema] of a shape. *)
Definition field {A} (props : list (string * JSON)) (key : string)
  (p : Schema A) : SafeParse A :=
  under key (p (get props key)).

(** [schema.safeParse(value)]. *)
Definition safeParse {A} (p : Schema A) (value : JSON) : SafeParse A :=
  p (Some value).

End Zod.
(* ------------------------------------------------------------------ *)
(** ** The run-time objects of the typed contracts

    TypeScript types are erased: what [RankingSchema.safeParse(mock)]
    receives is the plain object behind the typed value. *)

Module Runtime.
Import Js Json Contracts.

Definition ArchType_string (a : ArchType) : string :=
  match a with
  | flat => "flat" | normal => "normal" | high => "high"
  | unknown => "unknown"
  end.

Definition Usage_string (u : Usage) : string :=
  match u with
  | road => "road" | trail => "trail" | treadmill => "treadmill"
  | casual => "casual" | racing => "racing"
  end.

Definition or_null {A} (f : A -> JSON) (o : option A) : JSON :=
  match o with
  | Some a => f a
  | None => JNull
  end.

Definition of_ErrorEntry (e : ErrorEntry) : JSON :=
  JObj [("code", JStr (code e)); ("message", JStr (message e))].

Definition of_Profile (p : Profile) : JSON :=
  JObj [("arch_type", JStr (ArchType_string (arch_type p)));
        ("usage", JStr (Usage_string (usage p)));
        ("weekly_mileage", JNum (weekly_mileage p))].

Definition of_ShoeSpecs (s : ShoeSpecs) : JSON :=
  JObj [("terrain", or_null JStr (terrain s));
        ("stability", or_null JStr (stability s));
        ("drop_mm", or_null JNum (drop_mm s));
        ("weight_g", or_null JNum (weight_g s));
        ("cushion", or_null JStr (cushion s))].

Definition of_RankedRecommendation (r : RankedRecommendation) : JSON :=
  JObj [("model", JStr (rec_model r));
        ("match_score", JNum (match_score r));
        ("why", JArr (map JStr (why r)));
        ("specs", of_ShoeSpecs (specs r));
        ("tradeoffs", JArr (map JStr (tradeoffs r)));
        ("confidence", JNum (rec_confidence r))].

Definition of_AvoidEntry (a : AvoidEntry) : JSON :=
  JObj [("model", JStr (avoid_model a));
        ("reason", JStr (reason a));
        ("confidence", JNum (avoid_confidence a))].

Definition of_RecommendationsResult (r : RecommendationsResult) : JSON :=
  JObj [("request_id", JStr (rr_request_id r));
        ("profile_used", of_Profile (profile_used r));
        ("ranked", JArr (map of_RankedRecommendation (ranked r)));
        ("avoid", JArr (map of_AvoidEntry (avoid r)));
        ("fallback_needed", JBool (fallback_needed r));
        ("errors", JArr (map of_ErrorEntry (rr_errors r)))].

End Runtime.
(* ------------------------------------------------------------------ *)
(** ** services/openai.ts *)

Module Openai.
Import Js Json Zod Contracts Runtime.

(** The argument of [openai.responses.create] and the part of its result
    that is read. *)
Record ResponsesCreate := {
  create_model : string;
  input_text : string;
  input_image_url : string;
  input_image_detail : string
}.

Record Response := { output_text : string }.

(** An [async] function: it settles, or awaits the upstream call and goes
    on with what the call settled to. *)
Inductive Async (A : Type) : Type :=
| Done (o : Outcome A)
| Await (call : ResponsesCreate) (k : Outcome Response -> Async A).
Arguments Done {A} o.
Arguments Await {A} call k.

(** Running an [async] function against an upstream: what it settles to,
    and the calls it made. *)
Fixpoint settle {A} (upstream : ResponsesCreate -> Outcome Response)
  (p : Async A) : Outcome A :=
  match p with
  | Done o => o
  | Await call k => settle upstream (k (upstream call))
  end.

Fixpoint calls {A} (upstream : ResponsesCreate -> Outcome Response)
  (p : Async A) : list ResponsesCreate :=
  match p with
  | Done _ => []
  | Await call k => call :: calls upstream (k (upstream call))
  end.

(** [new OpenAI({ apiKey })]. *)
Record OpenAI := { apiKey : string }.

(** [buffer.toString('base64')]. *)
Definition base64_alphabet : string :=
  "ABCDEFGHIJKLMNOPQRSTUVWXYZabcdefghijklmnopqrstuvwxyz0123456789+/".

Definition base64_char (n : nat) : string :=
  match String.get n base64_alphabet with
  | Some c => String c EmptyString
  | None => EmptyString
  end.

Fixpoint Buffer_toString_base64 (buffer : list ascii) : string :=
  let byte c := nat_of_ascii c in
  match buffer with
  | [] => ""
  | [a] =>
      base64_char (byte a / 4) +++ base64_char (byte a mod 4 * 16) +++ "=="
  | [a; b] =>
      base64_char (byte a / 4)
      +++ base64_char (byte a mod 4 * 16 + byte b / 16)
      +++ base64_char (byte b mod 16 * 4) +++ "="
  | a :: b :: c :: rest =>
      base64_char (byte a / 4)
      +++ base64_char (byte a mod 4 * 16 + byte b / 16)
      +++ base64_char (byte b mod 16 * 4 + byte c / 64)
      +++ base64_char (byte c mod 64)
      +++ Buffer_toString_base64 rest
  end.

(** *** Geometry *)

Definition clamp01 (value : Q) : Q :=
  Math_max 0 (Math_min 1 value).

Definition normalizeBbox (bbox : option BBox) : option BBox :=
  match bbox with
  | None => None
  | Some bbox =>
      let x := clamp01 (x bbox) in
      let y := clamp01 (y bbox) in
      let w := Math_max (1 # 100) (Math_min (clamp01 (w bbox)) (1 - x)) in
      let h := Math_max (1 # 100) (Math_min (clamp01 (h bbox)) (1 - y)) in
      Some {| x := x; y := y; w := w; h := h |}
  end.

(** [{ ...candidate, bbox }]. *)
Definition with_bbox (candidate : VisionCandidate) (b : option BBox)
  : VisionCandidate :=
  {| raw_label := raw_label candidate;
     brand := brand candidate;
     model := model candidate;
     confidence := confidence candidate;
     bbox := b;
     notes := notes candidate |}.

(** [!candidate.bbox]. *)
Definition bbox_missing (candidate : VisionCandidate) : bool :=
  match bbox candidate with
  | None => true
  | Some _ => false
  end.

Definition normalizeVisionResult (result : VisionResult) : VisionResult :=
  let candidates :=
    map (fun candidate =>
           with_bbox candidate (normalizeBbox (bbox candidate)))
        (candidates result) in
  let missingBboxCount := List.length (filter bbox_missing candidates) in
  let errors :=
    errors result ++
    (if (0 <? missingBboxCount)%nat
     then [{| code := "VISION_PARTIAL_BBOX";
              message := String_of_nat missingBboxCount
                +++ " candidate(s) missing bbox due to ambiguity or occlusion." |}]
     else []) in
  {| request_id := request_id result;
     candidates := candidates;
     image_quality := image_quality result;
     errors := errors |}.

(** *** The patch step *)

(** The callback of [patched.candidates.map]. *)
Definition patchCandidate (candidate : JSON) : JSON :=
  if falsy candidate || negb (typeof_object candidate) then candidate
  else
    let props := spread candidate in
    (* [candidate.bbox ?? null] *)
    let bbox :=
      match candidate with
      | JObj own =>
          match get own "bbox" with
          | Some JNull | None => JNull
          | Some v => v
          end
      | _ => JNull
      end in
    JObj (set props "bbox" bbox).

Definition patchVisionPayload (raw : JSON) : JSON :=
  if falsy raw || negb (typeof_object raw) then raw
  else
    let patched := spread raw in
    match get patched "candidates" with
    | Some (JArr candidates) =>
        JObj (set patched "candidates" (JArr (map patchCandidate candidates)))
    | _ => JObj patched
    end.

(** *** Schemas *)

Section Schemas.

(** The module constant [VISION_MAX_CANDIDATES], read from the environment
    when the module loads (default 8, kept within 1..20). *)
Variable VISION_MAX_CANDIDATES : nat.

Definition BBoxSchema : Schema BBox :=
  z_object (fun o =>
    Build_BBox
      <$> field o "x" (max (min z_number 0) 1)
      <*> field o "y" (max (min z_number 0) 1)
      <*> field o "w" (max (min z_number 0) 1)
      <*> field o "h" (max (min z_number 0) 1)).

Definition CandidateSchema : Schema VisionCandidate :=
  z_object (fun o =>
    Build_VisionCandidate
      <$> field o "raw_label" z_string
      <*> field o "brand" (nullable z_string)
      <*> field o "model" (nullable z_string)
      <*> field o "confidence" (max (min z_number 0) 1)
      <*> field o "bbox" (nullable BBoxSchema)
      <*> field o "notes" (optional (nullable z_string))).

Definition ErrorEntrySchema : Schema ErrorEntry :=
  z_object (fun o =>
    Build_ErrorEntry
      <$> field o "code" z_string
      <*> field o "message" z_string).

Definition ImageQualitySchema : Schema ImageQuality :=
  z_object (fun o =>
    Build_ImageQuality
      <$> field o "lighting"
            (z_enum [("good", lighting_good); ("ok", lighting_ok);
                     ("bad", lighting_bad)])
      <*> field o "blur"
            (z_enum [("none", blur_none); ("mild", blur_mild);
                     ("high", blur_high)])
      <*> field o "occlusion"
            (z_enum [("none", occlusion_none); ("some", occlusion_some);
                     ("heavy", occlusion_heavy)])).

Definition VisionSchema : Schema VisionResult :=
  z_object (fun o =>
    Build_VisionResult
      <$> field o "request_id" z_string
      <*> field o "candidates"
            (array_max (z_array CandidateSchema) VISION_MAX_CANDIDATES)
      <*> field o "image_quality" ImageQualitySchema
      <*> field o "errors" (z_array ErrorEntrySchema)).

Definition ProfileSchema : Schema Profile :=
  z_object (fun o =>
    Build_Profile
      <$> field o "arch_type"
            (z_enum [("flat", flat); ("normal", normal); ("high", high);
                     ("unknown", unknown)])
      <*> field o "usage"
            (z_enum [("road", road); ("trail", trail);
                     ("treadmill", treadmill); ("casual", casual);
                     ("racing", racing)])
      <*> field o "weekly_mileage" (min (int z_number) 0)).

Definition ShoeSpecsSchema : Schema ShoeSpecs :=
  z_object (fun o =>
    Build_ShoeSpecs
      <$> field o "terrain" (nullable z_string)
      <*> field o "stability" (nullable z_string)
      <*> field o "drop_mm" (nullable z_number)
      <*> field o "weight_g" (nullable z_number)
      <*> field o "cushion" (nullable z_string)).

Definition RankedSchema : Schema RankedRecommendation :=
  z_object (fun o =>
    Build_RankedRecommendation
      <$> field o "model" z_string
      <*> field o "match_score" (max (min z_number 0) 100)
      <*> field o "why" (array_max (array_min (z_array z_string) 1) 6)
      <*> field o "specs" ShoeSpecsSchema
      <*> field o "tradeoffs" (array_max (z_array z_string) 6)
      <*> field o "confidence" (max (min z_number 0) 1)).

Definition AvoidSchema : Schema AvoidEntry :=
  z_object (fun o =>
    Build_AvoidEntry
      <$> field o "model" z_string
      <*> field o "reason" z_string
      <*> field o "confidence" (max (min z_number 0) 1)).

Definition RankingSchema : Schema RecommendationsResult :=
  z_object (fun o =>
    Build_RecommendationsResult
      <$> field o "request_id" z_string
      <*> field o "profile_used" ProfileSchema
      <*> field o "ranked" (array_max (z_array RankedSchema) 5)
      <*> field o "avoid" (array_max (z_array AvoidSchema) 5)
      <*> field o "fallback_needed" z_boolean
      <*> field o "errors" (z_array ErrorEntrySchema)).

End Schemas.

(** *** The stages *)

Record VisionArgs := {
  imageUrl : string;
  mimeType : string;
  buffer : list ascii
}.

(** The element type of [runRanking]'s [candidates] argument. *)
Record RankingCandidate := {
  cand_brand : option string;
  cand_model : option string;
  cand_raw_label : string;
  cand_confidence : Q
}.

(** A [VisionCandidate] passed where a [RankingCandidate] is expected. *)
Definition as_RankingCandidate (c : VisionCandidate) : RankingCandidate :=
  {| cand_brand := brand c;
     cand_model := Contracts.model c;
     cand_raw_label := raw_label c;
     cand_confidence := confidence c |}.

Record RankingArgs := {
  requestId : string;
  profile : Profile;
  candidates : list RankingCandidate;
  specsByName : list (string * JSON);
  visionFailed : bool
}.

Definition nl : string := String "010"%char EmptyString.

(** A quoted word of the prompt. *)
Definition quoted (s : string) : string := dq +++ s +++ dq.

Definition unlines (ls : list string) : string :=
  fold_right (fun l rest => l +++ nl +++ rest) "" ls.

Section Service.

(** Module constants, fixed when the module loads. *)
Variable MOCK_VISION : bool.
Variable MOCK_RANKING : bool.
Variable VISION_MAX_CANDIDATES : nat.
Variable openai : option OpenAI.
Variable model : string.

(** Platform: [JSON.parse], and the text of a [ZodError]. *)
Variable JSON_parse : string -> Outcome JSON.
Variable ZodError_message : list ZodIssue -> string.

Definition safeParseJsonFromModel (text : string) : Outcome JSON :=
  (* Best case: the model returns pure JSON. *)
  try_catch (JSON_parse text) (fun _ =>
    (* Common failure case: extra text around JSON. *)
    let first := indexOf text "{" in
    let last := lastIndexOf text "}" in
    if ((first >=? 0) && (last >? first))%Z
    then JSON_parse (slice text first (last + 1))
    else Thrown (Error "Model output is not valid JSON")).

Definition mockVisionResult (request_id : string) : VisionResult :=
  {| request_id := request_id;
     Contracts.candidates :=
       [ {| raw_label := "Nike Pegasus 40";
            brand := Some "Nike";
            Contracts.model := Some "Pegasus 40";
            confidence := 78 # 100;
            bbox := Some {| x := 8 # 100; y := 22 # 100;
                            w := 22 # 100; h := 18 # 100 |};
            notes := None |};
         {| raw_label := "Brooks Ghost 15";
            brand := Some "Brooks";
            Contracts.model := Some "Ghost 15";
            confidence := 74 # 100;
            bbox := Some {| x := 36 # 100; y := 28 # 100;
                            w := 2 # 10; h := 16 # 100 |};
            notes := None |};
         {| raw_label := "Hoka Clifton 9";
            brand := Some "Hoka";
            Contracts.model := Some "Clifton 9";
            confidence := 69 # 100;
            bbox := Some {| x := 62 # 100; y := 31 # 100;
                            w := 24 # 100; h := 19 # 100 |};
            notes := None |} ];
     image_quality := {| lighting := lighting_ok; blur := blur_mild;
                         occlusion := occlusion_some |};
     errors := [] |}.

Definition prompt (request_id : string) : string :=
  nl +++ unlines
  [ "Analyze this image of a retail running shoe wall.";
    "";
    "TASK:";
    "- Identify up to " +++ String_of_nat VISION_MAX_CANDIDATES
      +++ " distinct running shoe models visible.";
    "- Prefer popular running shoe lines.";
    "- If unsure about exact version (e.g., Pegasus 40 vs 41), make best guess and lower confidence.";
    "- For each candidate, return a normalized bbox around one visible instance.";
    "";
    "OUTPUT:";
    "Return STRICT JSON ONLY in this format:";
    "";
    "{";
    "  " +++ quoted "request_id" +++ ": " +++ quoted request_id +++ ",";
    "  " +++ quoted "candidates" +++ ": [";
    "    {";
    "      " +++ quoted "raw_label" +++ ": " +++ quoted "Nike Pegasus 40" +++ ",";
    "      " +++ quoted "brand" +++ ": " +++ quoted "Nike" +++ ",";
    "      " +++ quoted "model" +++ ": " +++ quoted "Pegasus 40" +++ ",";
    "      " +++ quoted "confidence" +++ ": 0.0,";
    "      " +++ quoted "bbox" +++ ": { " +++ quoted "x" +++ ": 0.1, "
      +++ quoted "y" +++ ": 0.2, " +++ quoted "w" +++ ": 0.2, "
      +++ quoted "h" +++ ": 0.15 },";
    "      " +++ quoted "notes" +++ ": null";
    "    }";
    "  ],";
    "  " +++ quoted "image_quality" +++ ": {";
    "    " +++ quoted "lighting" +++ ": " +++ quoted "good|ok|bad" +++ ",";
    "    " +++ quoted "blur" +++ ": " +++ quoted "none|mild|high" +++ ",";
    "    " +++ quoted "occlusion" +++ ": " +++ quoted "none|some|heavy";
    "  },";
    "  " +++ quoted "errors" +++ ": []";
    "}";
    "";
    "RULES:";
    "- confidence is between 0 and 1";
    "- bbox coordinates are normalized: x,y are top-left and w,h are width/height in [0,1]";
    "- prefer approximate bbox over null; use null only when the shoe cannot be localized";
    "- No markdown, no commentary, JSON only" ].

Definition fallbackImageQuality : ImageQuality :=
  {| lighting := lighting_ok; blur := blur_mild; occlusion := occlusion_some |}.

(** The body of the [try] block after the upstream call has settled. *)
Definition visionFromResponse (request_id : string) (resp : Response)
  : Outcome VisionResult :=
  let rawText := output_text resp in
  bind (safeParseJsonFromModel rawText) (fun parsed =>
  let json := patchVisionPayload parsed in
  let validated := safeParse (VisionSchema VISION_MAX_CANDIDATES) json in
  match validated with
  | failure issues =>
      Returned
        {| request_id := request_id;
           Contracts.candidates := [];
           image_quality := fallbackImageQuality;
           errors := [ {| code := "VISION_SCHEMA_INVALID";
                          message := ZodError_message issues |} ] |}
  | success data => Returned (normalizeVisionResult data)
  end).

(** The [catch (e)] clause. *)
Definition visionUpstreamError (request_id : string) (e : Exn)
  : Outcome VisionResult :=
  let status :=
    match exn_status e with
    | Some s => Some s
    | None => exn_response_status e
    end in
  let message := exn_message e in
  Returned
    {| request_id := request_id;
       Contracts.candidates := [];
       image_quality := fallbackImageQuality;
       errors :=
         [ {| code := "VISION_UPSTREAM_ERROR";
              message :=
                "OpenAI failed ("
                +++ match status with
                    | Some s => String_of_Z s
                    | None => "unknown"
                    end
                +++ "): " +++ message |} ] |}.

(** [runVision(args)]; [request_id] is the value [randomUUID()] drew. *)
Definition runVision (request_id : string) (args : VisionArgs)
  : Async VisionResult :=
  match MOCK_VISION, openai with
  | true, _ | _, None => Done (Returned (mockVisionResult request_id))
  | false, Some _ =>
      let base64 := Buffer_toString_base64 (buffer args) in
      let dataUrl := "data:" +++ mimeType args +++ ";base64," +++ base64 in
      Await
        {| create_model := model;
           input_text := prompt request_id;
           input_image_url := dataUrl;
           input_image_detail := "high" |}
        (fun resp =>
           Done (try_catch
                   (bind resp (visionFromResponse request_id))
                   (visionUpstreamError request_id)))
  end.

(** The result every non-ranking path of [runRanking] returns. *)
Definition fallbackResult (args : RankingArgs) (e : ErrorEntry)
  : RecommendationsResult :=
  {| rr_request_id := requestId args;
     profile_used := profile args;
     ranked := [];
     avoid := [];
     fallback_needed := true;
     rr_errors := [e] |}.

Definition mockRanked (args : RankingArgs) : list RankedRecommendation :=
  let profile := profile args in
  mapi (fun c i =>
          {| rec_model := interpolate (cand_brand c) +++ " "
                          +++ interpolate (cand_model c);
             match_score := 90 - inject_Z (Z.of_nat i) * 8;
             why := [ "Matches " +++ Usage_string (usage profile) +++ " usage";
                      "Heuristic match for "
                      +++ ArchType_string (arch_type profile) +++ " arch" ];
             specs := {| terrain := Some (Usage_string (usage profile));
                         stability :=
                           Some (match arch_type profile with
                                 | flat => "stable"
                                 | _ => "neutral"
                                 end);
                         drop_mm := Some 8;
                         weight_g := Some 290;
                         cushion := Some "medium" |};
             tradeoffs := ["Mock tradeoff"];
             rec_confidence := 65 # 100 |})
       (slice0 3
          (filter (fun c => truthy (cand_brand c) && truthy (cand_model c))
                  (candidates args))).

Definition runRanking (args : RankingArgs) : Async RecommendationsResult :=
  if visionFailed args then
    Done (Returned (fallbackResult args
      {| code := "VISION_UNAVAILABLE";
         message := "Automatic shoe detection unavailable. Use manual search." |}))
  else
    match MOCK_RANKING, openai with
    | true, _ | _, None =>
        let ranked := mockRanked args in
        let mock :=
          {| rr_request_id := requestId args;
             profile_used := profile args;
             ranked := ranked;
             avoid := [];
             fallback_needed := (List.length ranked =? 0)%nat;
             rr_errors := [] |} in
        (* validate our own output too *)
        let checked := safeParse RankingSchema (of_RecommendationsResult mock) in
        match checked with
        | failure issues =>
            Done (Returned (fallbackResult args
              {| code := "MOCK_RANK_SCHEMA_INVALID";
                 message := ZodError_message issues |}))
        | success _ => Done (Returned mock)
        end
    | false, Some _ =>
        Done (Returned (fallbackResult args
          {| code := "RANKING_NOT_ENABLED";
             message := "Real ranking not enabled yet." |}))
    end.

End Service.

End Openai.

(* ------------------------------------------------------------------ *)
(** ** services/overlay.ts

    Image dimensions are integers; so is every number the builder prints. *)

Module Overlay.
Import Js Contracts.


Definition escapeSvgText (input : string) : string :=
  replaceAll
    (replaceAll
       (replaceAll
          (replaceAll (replaceAll input "&" "&amp;") "<" "&lt;")
          ">" "&gt;")
       "034" "&quot;")
    "'" "&apos;".

Section Arithmetic.

(** Platform: the product of two numbers in double arithmetic ([a * b]). *)
Variable times : Q -> Q -> Q.

Definition candidateLabel (candidate : VisionCandidate) : string :=
  let name :=
    if truthy (brand candidate) && truthy (model candidate)
    then interpolate (brand candidate) +++ " " +++ interpolate (model candidate)
    else raw_label candidate in
  name +++ " (" +++ String_of_Z (Math_round (times (confidence candidate) 100))
       +++ "%)".

Definition estimateTextWidth (text : string) (fontSize : Z) : Z :=
  Z.max 40 (Math_round (inject_Z (str_length text) * inject_Z fontSize
                        * (58 # 100))).


Definition labelPadX : Z := 8.
Definition labelPadY : Z := 5.

(** The three elements pushed for a candidate with a bbox. *)
Definition boxElements (width height strokeWidth fontSize : Z)
  (color label : string) (b : BBox) : list string :=
  let x := Math_round (x b * inject_Z width) in
  let y := Math_round (y b * inject_Z height) in
  let boxWidth := Z.max 1 (Math_round (w b * inject_Z width)) in
  let boxHeight := Z.max 1 (Math_round (h b * inject_Z height)) in
  let xSafe := Z.min x (Z.max 0 (width - 1)) in
  let ySafe := Z.min y (Z.max 0 (height - 1)) in
  let wSafe := Z.min boxWidth (width - xSafe) in
  let hSafe := Z.min boxHeight (height - ySafe) in
  let labelWidth :=
    Z.min (width - 4) (estimateTextWidth label fontSize + labelPadX * 2) in
  let labelHeight := (fontSize + labelPadY * 2)%Z in
  let labelX :=
    if (width - 2 <? xSafe + labelWidth)%Z
    then Z.max 2 (width - labelWidth - 2) else xSafe in
  let labelY0 := (ySafe - labelHeight - 4)%Z in
  let labelY :=
    if (labelY0 <? 2)%Z then Z.min (height - labelHeight - 2) (ySafe + 4)
    else labelY0 in
  [ "<rect x=" +++ dq +++ String_of_Z xSafe +++ dq
      +++ " y=" +++ dq +++ String_of_Z ySafe +++ dq
      +++ " width=" +++ dq +++ String_of_Z wSafe +++ dq
      +++ " height=" +++ dq +++ String_of_Z hSafe +++ dq
      +++ " fill=" +++ dq +++ "none" +++ dq
      +++ " stroke=" +++ dq +++ color +++ dq
      +++ " stroke-width=" +++ dq +++ String_of_Z strokeWidth +++ dq
      +++ " />";
    "<rect x=" +++ dq +++ String_of_Z labelX +++ dq
      +++ " y=" +++ dq +++ String_of_Z labelY +++ dq
      +++ " width=" +++ dq +++ String_of_Z labelWidth +++ dq
      +++ " height=" +++ dq +++ String_of_Z labelHeight +++ dq
      +++ " fill=" +++ dq +++ color +++ dq
      +++ " fill-opacity=" +++ dq +++ "0.9" +++ dq
      +++ " rx=" +++ dq +++ "4" +++ dq
      +++ " ry=" +++ dq +++ "4" +++ dq +++ " />";
    "<text x=" +++ dq +++ String_of_Z (labelX + labelPadX) +++ dq
      +++ " y=" +++ dq
      +++ String_of_Z (labelY + labelPadY + fontSize - 2) +++ dq
      +++ " font-family=" +++ dq +++ "Arial, sans-serif" +++ dq
      +++ " font-size=" +++ dq +++ String_of_Z fontSize +++ dq
      +++ " fill=" +++ dq +++ "#111111" +++ dq +++ ">"
      +++ escapeSvgText label +++ "</text>" ].


(** The lines of the summary panel. *)
Definition panelLines (missingLabels : list string) : list string :=
  let visibleMissing := slice0 8 missingLabels in
  let moreCount :=
    (Z.of_nat (List.length missingLabels)
     - Z.of_nat (List.length visibleMissing))%Z in
  let lines :=
    ("No bbox (" +++ String_of_nat (List.length missingLabels) +++ ")")
    :: visibleMissing in
  if (0 <? moreCount)%Z
  then lines ++ ["+" +++ String_of_Z moreCount +++ " more"]
  else lines.

Definition panelX : Z := 10.
Definition panelY : Z := 10.

Definition panelRect (panelWidth panelHeight : Z) : string :=
  "<rect x=" +++ dq +++ String_of_Z panelX +++ dq
    +++ " y=" +++ dq +++ String_of_Z panelY +++ dq
    +++ " width=" +++ dq +++ String_of_Z panelWidth +++ dq
    +++ " height=" +++ dq +++ String_of_Z panelHeight +++ dq
    +++ " fill=" +++ dq +++ "#111111" +++ dq
    +++ " fill-opacity=" +++ dq +++ "0.72" +++ dq
    +++ " rx=" +++ dq +++ "6" +++ dq
    +++ " ry=" +++ dq +++ "6" +++ dq +++ " />".

(** The callback of [lines.forEach]. *)
Definition panelText (listFontSize rowHeight : Z) (line : string)
  (index : nat) : string :=
  let textY := (panelY + 8 + (Z.of_nat index + 1) * rowHeight - 4)%Z in
  "<text x=" +++ dq +++ String_of_Z (panelX + 10) +++ dq
    +++ " y=" +++ dq +++ String_of_Z textY +++ dq
    +++ " font-family=" +++ dq +++ "Arial, sans-serif" +++ dq
    +++ " font-size=" +++ dq +++ String_of_Z listFontSize +++ dq
    +++ " fill=" +++ dq +++ "#f8fafc" +++ dq +++ ">"
    +++ escapeSvgText line +++ "</text>".

(** The elements pushed by the [if (missingLabels.length > 0)] block. *)
Definition panelElements (width fontSize : Z) (missingLabels : list string)
  : list string :=
  if (0 <? List.length missingLabels)%nat then
    let listFontSize :=
      Z.max 12 (Math_round (inject_Z fontSize * (9 # 10))) in
    let rowHeight := (listFontSize + 4)%Z in
    let lines := panelLines missingLabels in
    let maxLineWidth :=
      fold_left
        (fun max line => Z.max max (estimateTextWidth line listFontSize))
        lines (estimateTextWidth "No bbox" listFontSize) in
    let panelWidth := Z.min (width - 20) (maxLineWidth + 20) in
    let panelHeight := (Z.of_nat (List.length lines) * rowHeight + 12)%Z in
    panelRect panelWidth panelHeight
    :: mapi (panelText listFontSize rowHeight) lines
  else [].



End Arithmetic.

End Overlay.


(* ================================================================== *)
(** * Properties *)

(* ------------------------------------------------------------------ *)
(** ** Geometry normaliser *)

Module GeometryProps.
Import Js Contracts Openai.

Lemma clamp01_id (v : Q) : 0 <= v -> v <= 1 -> clamp01 v == v.
Proof.
  intros H0 H1. unfold clamp01, Math_max, Math_min.
  rewrite (Q.min_r 1 v) by exact H1.
  apply Q.max_r. exact H0.
Qed.

Lemma clamp01_range (v : Q) : 0 <= clamp01 v /\ clamp01 v <= 1.
Proof.
  unfold clamp01, Math_max, Math_min. split.
  - apply Q.le_max_l.
  - apply Q.max_lub; [discriminate | apply Q.le_min_l].
Qed.

(** The size computed for one axis from the clamped origin. *)
Definition extent (size origin : Q) : Q :=
  Math_max (1 # 100) (Math_min (clamp01 size) (1 - origin)).

Lemma extent_lower (s o : Q) : 1 # 100 <= extent s o.
Proof. unfold extent, Math_max. apply Q.le_max_l. Qed.

Lemma extent_upper (s o : Q) : extent s o <= 1.
Proof.
  unfold extent, Math_max, Math_min.
  apply Q.max_lub; [discriminate|].
  eapply Qle_trans; [apply Q.le_min_l | apply clamp01_range].
Qed.

Lemma extent_fits (s o : Q) : o <= 99 # 100 -> o + extent s o <= 1.
Proof.
  intros Ho. unfold extent, Math_max, Math_min.
  destruct (Q.max_spec (1 # 100) (Qmin (clamp01 s) (1 - o))) as [[_ E] | [_ E]];
    rewrite E.
  - assert (L : Qmin (clamp01 s) (1 - o) <= 1 - o) by apply Q.le_min_r.
    lra.
  - lra.
Qed.

Lemma extent_floor (s o : Q) : 99 # 100 < o -> extent s o == 1 # 100.
Proof.
  intros Ho. unfold extent, Math_max, Math_min.
  apply Q.max_l.
  eapply Qle_trans; [apply Q.le_min_r | lra].
Qed.

Lemma normalizeBbox_Some (b : BBox) :
  normalizeBbox (Some b) =
  Some {| x := clamp01 (x b); y := clamp01 (y b);
          w := extent (w b) (clamp01 (x b));
          h := extent (h b) (clamp01 (y b)) |}.
Proof. reflexivity. Qed.

(** Scenario C of the specification: a box at (0.9, 0.9) of size 0.5 is
    cut back to 0.1 on both axes. *)
Example normalizeBbox_scenario_C :
  normalizeBbox (Some {| x := 9 # 10; y := 9 # 10; w := 1 # 2; h := 1 # 2 |})
  = Some {| x := 9 # 10; y := 9 # 10; w := 1 # 10; h := 1 # 10 |}.
Proof. vm_compute. reflexivity. Qed.

(** C1, as stated, fails: at [x = 1] the width floor of 0.01 pushes the box
    past the right edge, to [x + w = 1.01]. *)
Lemma C1_normalizeBbox_overflows_at_edge :
  let b := {| x := 1; y := 0; w := 1 # 2; h := 1 # 2 |} in
  (0 <= x b /\ x b <= 1) /\ (0 <= y b /\ y b <= 1) /\
  exists r, normalizeBbox (Some b) = Some r /\
            x r + w r == 101 # 100 /\ ~ x r + w r <= 1.
Proof.
  cbv zeta. repeat split; try discriminate.
  eexists. split; [reflexivity|]. split.
  - vm_compute. reflexivity.
  - vm_compute. intros H. apply H. reflexivity.
Qed.

(** C1 (amended): for a bbox whose [x] and [y] lie in [0,1], [normalizeBbox]
    keeps [x] and [y], returns [0.01 <= w <= 1] and [0.01 <= h <= 1], keeps
    the box inside the unit square on each axis whose origin is at most
    0.99, and returns the floor size 0.01 on an axis whose origin is above
    0.99. *)
Theorem C1_normalizeBbox_bounds (b : BBox) :
  0 <= x b -> x b <= 1 -> 0 <= y b -> y b <= 1 ->
  exists r,
    normalizeBbox (Some b) = Some r /\
    x r == x b /\ y r == y b /\
    (1 # 100 <= w r /\ w r <= 1) /\ (1 # 100 <= h r /\ h r <= 1) /\
    (x b <= 99 # 100 -> x r + w r <= 1) /\
    (y b <= 99 # 100 -> y r + h r <= 1) /\
    (99 # 100 < x b -> w r == 1 # 100) /\
    (99 # 100 < y b -> h r == 1 # 100).
Proof.
  intros Hx0 Hx1 Hy0 Hy1.
  pose proof (clamp01_id _ Hx0 Hx1) as Ex.
  pose proof (clamp01_id _ Hy0 Hy1) as Ey.
  eexists. split; [apply normalizeBbox_Some|]. cbn [x y w h].
  repeat split; auto using extent_lower, extent_upper.
  - intros H. apply extent_fits. rewrite Ex. exact H.
  - intros H. apply extent_fits. rewrite Ey. exact H.
  - intros H. apply extent_floor. rewrite Ex. exact H.
  - intros H. apply extent_floor. rewrite Ey. exact H.
Qed.

Lemma C1_normalizeBbox_bounds_witness :
  exists r,
    normalizeBbox (Some {| x := 9 # 10; y := 9 # 10; w := 1 # 2; h := 1 # 2 |})
      = Some r /\
    x r == 9 # 10 /\ y r == 9 # 10 /\
    (1 # 100 <= w r /\ w r <= 1) /\ (1 # 100 <= h r /\ h r <= 1) /\
    (9 # 10 <= 99 # 100 -> x r + w r <= 1) /\
    (9 # 10 <= 99 # 100 -> y r + h r <= 1) /\
    (99 # 100 < 9 # 10 -> w r == 1 # 100) /\
    (99 # 100 < 9 # 10 -> h r == 1 # 100).
Proof.
  apply (C1_normalizeBbox_bounds
           {| x := 9 # 10; y := 9 # 10; w := 1 # 2; h := 1 # 2 |});
    cbn; discriminate.
Defined.

End GeometryProps.

(* ------------------------------------------------------------------ *)
(** ** normalizeVisionResult *)

Module NormalizeProps.
Import Js Contracts Openai.

(** What [normalizeVisionResult] does to one candidate. *)
Definition normalized (c c' : VisionCandidate) : Prop :=
  raw_label c' = raw_label c /\ brand c' = brand c /\
  Contracts.model c' = Contracts.model c /\
  confidence c' = confidence c /\ notes c' = notes c /\
  bbox c' = normalizeBbox (bbox c).

Lemma bbox_missing_normalize (c : VisionCandidate) :
  bbox_missing (with_bbox c (normalizeBbox (bbox c))) = bbox_missing c.
Proof. unfold bbox_missing. cbn. destruct (bbox c); reflexivity. Qed.

Lemma missing_count_normalize (cs : list VisionCandidate) :
  List.length
    (filter bbox_missing
       (map (fun c => with_bbox c (normalizeBbox (bbox c))) cs))
  = List.length (filter bbox_missing cs).
Proof.
  induction cs as [|c cs IH]; [reflexivity|].
  cbn [map filter]. rewrite bbox_missing_normalize.
  destruct (bbox_missing c); cbn [List.length]; congruence.
Qed.

Lemma normalized_map (cs : list VisionCandidate) :
  Forall2 normalized cs
    (map (fun c => with_bbox c (normalizeBbox (bbox c))) cs).
Proof.
  induction cs as [|c cs IH]; constructor; [|exact IH].
  repeat split.
Qed.

(** C8: [normalizeVisionResult] keeps [request_id] and [image_quality],
    keeps every candidate in place with only its bbox replaced by the
    normalised one, and keeps the errors as a prefix; it appends one
    [VISION_PARTIAL_BBOX] entry carrying the number [m] of candidates
    without a bbox exactly when [m > 0]. *)
Theorem C8_normalizeVisionResult_frame (result : VisionResult) :
  let r := normalizeVisionResult result in
  let m := List.length (filter bbox_missing (Contracts.candidates r)) in
  request_id r = request_id result /\
  image_quality r = image_quality result /\
  List.length (Contracts.candidates r)
    = List.length (Contracts.candidates result) /\
  Forall2 normalized (Contracts.candidates result) (Contracts.candidates r) /\
  m = List.length (filter bbox_missing (Contracts.candidates result)) /\
  errors r =
    errors result ++
    (if (m =? 0)%nat then []
     else [ {| code := "VISION_PARTIAL_BBOX";
               message := String_of_nat m
                 +++ " candidate(s) missing bbox due to ambiguity or occlusion." |} ]).
Proof.
  cbv zeta. unfold normalizeVisionResult.
  cbn [request_id image_quality Contracts.candidates errors].
  repeat split.
  - apply length_map.
  - apply normalized_map.
  - apply missing_count_normalize.
  - destruct (List.length _) as [|k]; reflexivity.
Qed.

End NormalizeProps.

(* ------------------------------------------------------------------ *)
(** ** runRanking: the short-circuit on a failed detection *)

Module RankingProps.
Import Js Json Zod Contracts Runtime Openai.

(** Mock mode: [MOCK_RANKING || !openai]. *)
Definition mock_mode (MOCK : bool) (openai : option OpenAI) : Prop :=
  MOCK = true \/ openai = None.

(** C2: with [visionFailed = true], whatever the configuration, profile,
    candidates and catalog, [runRanking] settles without awaiting any
    upstream call, to a result echoing [requestId] with
    [fallback_needed = true], no [ranked], no [avoid], and the single error
    [VISION_UNAVAILABLE]. *)
Theorem C2_runRanking_vision_failed
  (MOCK_RANKING : bool) (openai : option OpenAI)
  (ZodError_message : list ZodIssue -> string) (args : RankingArgs) :
  visionFailed args = true ->
  exists r,
    runRanking MOCK_RANKING openai ZodError_message args = Done (Returned r) /\
    rr_request_id r = requestId args /\
    fallback_needed r = true /\ ranked r = [] /\ avoid r = [] /\
    (exists e, rr_errors r = [e] /\ code e = "VISION_UNAVAILABLE") /\
    forall upstream,
      calls upstream (runRanking MOCK_RANKING openai ZodError_message args)
      = [].
Proof.
  intros H. unfold runRanking. rewrite H.
  eexists. split; [reflexivity|]. cbn.
  repeat split. eexists. split; reflexivity.
Qed.

Lemma C2_runRanking_vision_failed_witness :
  exists r,
    runRanking false (Some {| apiKey := "sk-test" |}) (fun _ => "")
      {| requestId := "req-1";
         profile := {| arch_type := high; usage := trail;
                       weekly_mileage := 35 |};
         candidates := [ {| cand_brand := Some "Nike";
                            cand_model := Some "Pegasus 40";
                            cand_raw_label := "Nike Pegasus 40";
                            cand_confidence := 78 # 100 |} ];
         specsByName := [];
         visionFailed := true |}
    = Done (Returned r) /\
    rr_request_id r = "req-1" /\
    fallback_needed r = true /\ ranked r = [] /\ avoid r = [] /\
    (exists e, rr_errors r = [e] /\ code e = "VISION_UNAVAILABLE") /\
    forall upstream,
      calls upstream
        (runRanking false (Some {| apiKey := "sk-test" |}) (fun _ => "")
           {| requestId := "req-1";
              profile := {| arch_type := high; usage := trail;
                            weekly_mileage := 35 |};
              candidates := [ {| cand_brand := Some "Nike";
                                 cand_model := Some "Pegasus 40";
                                 cand_raw_label := "Nike Pegasus 40";
                                 cand_confidence := 78 # 100 |} ];
              specsByName := [];
              visionFailed := true |})
      = [].
Proof.
  apply (C2_runRanking_vision_failed false (Some {| apiKey := "sk-test" |})
           (fun _ => "")
           {| requestId := "req-1";
              profile := {| arch_type := high; usage := trail;
                            weekly_mileage := 35 |};
              candidates := [ {| cand_brand := Some "Nike";
                                 cand_model := Some "Pegasus 40";
                                 cand_raw_label := "Nike Pegasus 40";
                                 cand_confidence := 78 # 100 |} ];
              specsByName := [];
              visionFailed := true |}).
  reflexivity.
Defined.

End RankingProps.

(* ------------------------------------------------------------------ *)
(** ** Schemas accept the run-time objects of well-formed values *)

Module SchemaProps.
Import Js Json Zod Contracts Runtime Openai.

#[local] Arguments Number_isInteger : simpl never.
#[local] Arguments Qle_bool : simpl never.

Lemma parse_items_map {A} (p : Schema A) (enc : A -> JSON) (l : list A) :
  Forall (fun a => p (Some (enc a)) = success a) l ->
  forall i, parse_items p i (map enc l) = success l.
Proof.
  induction 1 as [|a l Ha _ IH]; intros i; [reflexivity|].
  cbn [map parse_items]. rewrite Ha, IH. reflexivity.
Qed.

Lemma strings_valid (l : list string) (i : nat) :
  parse_items z_string i (map JStr l) = success l.
Proof.
  apply parse_items_map. apply Forall_forall. reflexivity.
Qed.

Lemma number_between (lo hi n : Q) :
  lo <= n -> n <= hi ->
  parse_number (max (min z_number lo) hi) (Some (JNum n)) = success n.
Proof.
  intros Hlo Hhi. cbn.
  apply Qle_bool_iff in Hlo. apply Qle_bool_iff in Hhi.
  rewrite Hlo, Hhi. reflexivity.
Qed.

(** The constraints of the Ranking Schema on typed values. *)
Definition valid_profile (p : Profile) : Prop :=
  Number_isInteger (weekly_mileage p) = true /\ 0 <= weekly_mileage p.

Definition valid_ranked (r : RankedRecommendation) : Prop :=
  (0 <= match_score r /\ match_score r <= 100) /\
  (1 <= List.length (why r) <= 6)%nat /\
  (List.length (tradeoffs r) <= 6)%nat /\
  (0 <= rec_confidence r /\ rec_confidence r <= 1).

Definition valid_avoid (a : AvoidEntry) : Prop :=
  0 <= avoid_confidence a /\ avoid_confidence a <= 1.

Lemma mileage_valid (m : Q) :
  Number_isInteger m = true -> 0 <= m ->
  parse_number (min (int z_number) 0) (Some (JNum m)) = success m.
Proof.
  intros Hint Hmin. apply Qle_bool_iff in Hmin.
  unfold parse_number, min, int, z_number.
  cbn [number_checks app flat_map run_check].
  rewrite Hint, Hmin. reflexivity.
Qed.

Lemma ProfileSchema_valid (p : Profile) :
  valid_profile p -> ProfileSchema (Some (of_Profile p)) = success p.
Proof.
  intros [Hint Hmin].
  destruct p as [a u m]. cbn in Hint, Hmin.
  destruct a, u; cbn; unfold field;
    cbn [get String.eqb Ascii.eqb Bool.eqb andb];
    rewrite (mileage_valid m Hint Hmin); reflexivity.
Qed.

Lemma ErrorEntrySchema_valid (e : ErrorEntry) :
  ErrorEntrySchema (Some (of_ErrorEntry e)) = success e.
Proof. destruct e. reflexivity. Qed.

Lemma ShoeSpecsSchema_valid (s : ShoeSpecs) :
  ShoeSpecsSchema (Some (of_ShoeSpecs s)) = success s.
Proof.
  destruct s as [t st d wg c].
  destruct t, st, d, wg, c; reflexivity.
Qed.

Lemma length_ltb_false (n k : nat) : (k <= n)%nat -> (n <? k)%nat = false.
Proof. intros H. apply Nat.ltb_ge. exact H. Qed.

Lemma RankedSchema_valid (r : RankedRecommendation) :
  valid_ranked r ->
  RankedSchema (Some (of_RankedRecommendation r)) = success r.
Proof.
  intros [[Hs0 Hs1] [[Hw1 Hw6] [Ht [Hc0 Hc1]]]].
  destruct r as [m s wy sp tr c]. cbn in *.
  unfold RankedSchema, z_object, of_RankedRecommendation.
  unfold field. cbn [get String.eqb Ascii.eqb Bool.eqb andb].
  rewrite (number_between 0 100 s Hs0 Hs1), (number_between 0 1 c Hc0 Hc1).
  rewrite ShoeSpecsSchema_valid.
  unfold parse_array, length_issues. cbn [min_length max_length element
    array_max array_min z_array].
  rewrite !length_map.
  rewrite (length_ltb_false 6 _ Hw6), (length_ltb_false 6 _ Ht).
  replace (List.length wy <? 1)%nat with false
    by (symmetry; apply Nat.ltb_ge; exact Hw1).
  cbn [app]. rewrite !strings_valid. reflexivity.
Qed.

Lemma AvoidSchema_valid (a : AvoidEntry) :
  valid_avoid a -> AvoidSchema (Some (of_AvoidEntry a)) = success a.
Proof.
  intros [H0 H1]. destruct a as [m r c]. cbn in *.
  unfold AvoidSchema, z_object, of_AvoidEntry.
  unfold field. cbn [get String.eqb Ascii.eqb Bool.eqb andb].
  rewrite (number_between 0 1 c H0 H1). reflexivity.
Qed.

(** A result whose parts meet the schema's constraints validates, and
    validation gives the value back. *)
Lemma RankingSchema_valid (r : RecommendationsResult) :
  valid_profile (profile_used r) ->
  Forall valid_ranked (ranked r) -> (List.length (ranked r) <= 5)%nat ->
  Forall valid_avoid (avoid r) -> (List.length (avoid r) <= 5)%nat ->
  safeParse RankingSchema (of_RecommendationsResult r) = success r.
Proof.
  intros Hp Hr Hr5 Ha Ha5.
  destruct r as [rid p rk av fb errs]. cbn in *.
  unfold safeParse, RankingSchema, z_object, of_RecommendationsResult.
  unfold field. cbn [get String.eqb Ascii.eqb Bool.eqb andb].
  rewrite (ProfileSchema_valid p Hp).
  unfold parse_array, length_issues. cbn [min_length max_length element
    array_max array_min z_array].
  rewrite !length_map.
  rewrite (length_ltb_false 5 _ Hr5), (length_ltb_false 5 _ Ha5).
  cbn [app].
  rewrite (parse_items_map RankedSchema of_RankedRecommendation rk),
          (parse_items_map AvoidSchema of_AvoidEntry av),
          (parse_items_map ErrorEntrySchema of_ErrorEntry errs).
  - reflexivity.
  - apply Forall_forall. intros e _. apply ErrorEntrySchema_valid.
  - eapply Forall_impl; [|exact Ha]. apply AvoidSchema_valid.
  - eapply Forall_impl; [|exact Hr]. apply RankedSchema_valid.
Qed.

End SchemaProps.

(* ------------------------------------------------------------------ *)
(** ** runRanking in mock mode *)

Module MockRankingProps.
Import Js Json Zod Contracts Runtime Openai SchemaProps RankingProps.

Lemma Forall_mapi_from {A B} (P : B -> Prop) (f : A -> nat -> B)
  (l : list A) :
  forall i,
    (forall a j, (i <= j < i + List.length l)%nat -> P (f a j)) ->
    Forall P (mapi_from i f l).
Proof.
  induction l as [|a l IH]; intros i H; cbn [mapi_from]; constructor.
  - apply H. cbn [List.length]. lia.
  - apply IH. intros b j Hj. apply H. cbn [List.length]. lia.
Qed.

Lemma length_mapi_from {A B} (f : A -> nat -> B) (l : list A) (i : nat) :
  List.length (mapi_from i f l) = List.length l.
Proof.
  revert i. induction l as [|a l IH]; intros i; cbn; [|rewrite IH];
    reflexivity.
Qed.

(** At most three recommendations, each within the schema's bounds. *)
Lemma mockRanked_length (args : RankingArgs) :
  (List.length (mockRanked args) <= 3)%nat.
Proof.
  unfold mockRanked, mapi, slice0. rewrite length_mapi_from.
  apply firstn_le_length.
Qed.

Lemma mockRanked_valid (args : RankingArgs) :
  Forall valid_ranked (mockRanked args).
Proof.
  unfold mockRanked, mapi, slice0.
  apply Forall_mapi_from. intros c j [_ Hj].
  assert (L : (j < 3)%nat).
  { eapply Nat.lt_le_trans; [exact Hj|]. apply firstn_le_length. }
  unfold valid_ranked. cbn [match_score why tradeoffs rec_confidence].
  destruct j as [|[|[|j]]]; [| | |lia];
    (repeat split; [vm_compute; discriminate .. | cbn; lia | cbn; lia
                   | cbn; lia | vm_compute; discriminate
                   | vm_compute; discriminate]).
Qed.

(** The object mock-mode ranking builds before validating it. *)
Definition mockResult (args : RankingArgs) : RecommendationsResult :=
  {| rr_request_id := requestId args;
     profile_used := profile args;
     ranked := mockRanked args;
     avoid := [];
     fallback_needed := (List.length (mockRanked args) =? 0)%nat;
     rr_errors := [] |}.

Lemma mockResult_validates (args : RankingArgs) :
  valid_profile (profile args) ->
  safeParse RankingSchema (of_RecommendationsResult (mockResult args))
  = success (mockResult args).
Proof.
  intros Hp.
  apply RankingSchema_valid; unfold mockResult;
    cbn [profile_used ranked avoid List.length].
  - exact Hp.
  - apply mockRanked_valid.
  - pose proof (mockRanked_length args). lia.
  - constructor.
  - lia.
Qed.

Lemma fallbackResult_validates (args : RankingArgs) (e : ErrorEntry) :
  valid_profile (profile args) ->
  safeParse RankingSchema (of_RecommendationsResult (fallbackResult args e))
  = success (fallbackResult args e).
Proof.
  intros Hp. apply RankingSchema_valid; cbn; auto with arith.
Qed.

(** With a valid profile the self-validation passes and the mock object
    itself is returned. *)
Lemma runRanking_mock (MOCK_RANKING : bool) (openai : option OpenAI)
  (ZodError_message : list ZodIssue -> string) (args : RankingArgs) :
  mock_mode MOCK_RANKING openai ->
  visionFailed args = false ->
  valid_profile (profile args) ->
  runRanking MOCK_RANKING openai ZodError_message args
  = Done (Returned (mockResult args)).
Proof.
  intros Hm Hv Hp. unfold runRanking. rewrite Hv.
  fold (mockResult args). rewrite (mockResult_validates args Hp).
  destruct Hm as [-> | ->]; [|destruct MOCK_RANKING]; reflexivity.
Qed.

(** Sample inputs: the caller's view of scenario A, and an empty scan. *)
Definition sample_profile : Profile :=
  {| arch_type := normal; usage := road; weekly_mileage := 20 |}.

Definition sample_args : RankingArgs :=
  {| requestId := "3f0c";
     profile := sample_profile;
     candidates :=
       [ {| cand_brand := Some "Nike"; cand_model := Some "Pegasus 40";
            cand_raw_label := "Nike Pegasus 40";
            cand_confidence := 78 # 100 |};
         {| cand_brand := None; cand_model := None;
            cand_raw_label := "grey trainer"; cand_confidence := 3 # 10 |} ];
     specsByName := [];
     visionFailed := false |}.

Definition unmapped_args (p : Profile) : RankingArgs :=
  {| requestId := "3f0c";
     profile := p;
     candidates :=
       [ {| cand_brand := None; cand_model := Some "Ghost 15";
            cand_raw_label := "Ghost 15"; cand_confidence := 1 # 2 |};
         {| cand_brand := None; cand_model := None;
            cand_raw_label := "grey trainer"; cand_confidence := 3 # 10 |} ];
     specsByName := [];
     visionFailed := false |}.

(** C3: in mock mode, for a valid profile, whatever the candidates and
    [visionFailed], the result [runRanking] returns validates against the
    Ranking Schema; and so does the substitute result of the
    [MOCK_RANK_SCHEMA_INVALID] branch, whatever the reported issues. *)
Theorem C3_mock_ranking_validates
  (MOCK_RANKING : bool) (openai : option OpenAI)
  (ZodError_message : list ZodIssue -> string) (args : RankingArgs) :
  mock_mode MOCK_RANKING openai ->
  valid_profile (profile args) ->
  (exists r,
     runRanking MOCK_RANKING openai ZodError_message args
       = Done (Returned r) /\
     safeParse RankingSchema (of_RecommendationsResult r) = success r) /\
  (forall issues,
     let substitute :=
       fallbackResult args
         {| code := "MOCK_RANK_SCHEMA_INVALID";
            message := ZodError_message issues |} in
     safeParse RankingSchema (of_RecommendationsResult substitute)
     = success substitute).
Proof.
  intros Hm Hp. split.
  - destruct (visionFailed args) eqn:Hv.
    + eexists. split.
      * unfold runRanking. rewrite Hv. reflexivity.
      * apply fallbackResult_validates, Hp.
    + exists (mockResult args). split.
      * apply runRanking_mock; assumption.
      * apply mockResult_validates, Hp.
  - intros issues. cbv zeta. apply fallbackResult_validates, Hp.
Qed.

Lemma C3_mock_ranking_validates_witness :
  (exists r,
     runRanking true None (fun _ => "") sample_args = Done (Returned r) /\
     safeParse RankingSchema (of_RecommendationsResult r) = success r) /\
  (forall issues,
     let substitute :=
       fallbackResult sample_args
         {| code := "MOCK_RANK_SCHEMA_INVALID";
            message := (fun _ : list ZodIssue => "") issues |} in
     safeParse RankingSchema (of_RecommendationsResult substitute)
     = success substitute).
Proof.
  apply (C3_mock_ranking_validates true None (fun _ => "") sample_args).
  - left. reflexivity.
  - split; [reflexivity | discriminate].
Defined.

(** C6: the three candidates of the mock vision stage, passed on as the
    caller does, give in mock-mode ranking with any valid profile three
    recommendations scored 90, 82, 74 in that order, and
    [fallback_needed = false]. *)
Theorem C6_mock_pipeline_scores
  (MOCK_VISION MOCK_RANKING : bool) (VISION_MAX_CANDIDATES : nat)
  (openai : option OpenAI) (model : string)
  (JSON_parse : string -> Outcome JSON)
  (ZodError_message : list ZodIssue -> string)
  (uuid : string) (image : VisionArgs) (p : Profile)
  (catalog : list (string * JSON)) :
  mock_mode MOCK_VISION openai ->
  mock_mode MOCK_RANKING openai ->
  valid_profile p ->
  exists vision,
    runVision MOCK_VISION VISION_MAX_CANDIDATES openai model JSON_parse
      ZodError_message uuid image = Done (Returned vision) /\
    map raw_label (Contracts.candidates vision)
      = ["Nike Pegasus 40"; "Brooks Ghost 15"; "Hoka Clifton 9"] /\
    map confidence (Contracts.candidates vision)
      = [78 # 100; 74 # 100; 69 # 100] /\
    exists r,
      runRanking MOCK_RANKING openai ZodError_message
        {| requestId := request_id vision;
           profile := p;
           candidates :=
             map as_RankingCandidate (Contracts.candidates vision);
           specsByName := catalog;
           visionFailed :=
             (List.length (Contracts.candidates vision) =? 0)%nat |}
      = Done (Returned r) /\
      List.length (ranked r) = 3%nat /\
      map match_score (ranked r) = [90; 82; 74] /\
      fallback_needed r = false.
Proof.
  intros Hv Hr Hp. exists (mockVisionResult uuid). split.
  { unfold runVision.
    destruct Hv as [-> | ->]; [|destruct MOCK_VISION]; reflexivity. }
  split; [reflexivity|]. split; [reflexivity|].
  eexists. split.
  { apply runRanking_mock; [exact Hr | reflexivity | exact Hp]. }
  repeat split.
Qed.

Lemma C6_mock_pipeline_scores_witness :
  exists vision,
    runVision true 8 None "gpt-4o-mini" Json.parse (fun _ => "") "3f0c"
      {| imageUrl := "scans/1.jpg"; mimeType := "image/jpeg";
         buffer := [] |}
      = Done (Returned vision) /\
    map raw_label (Contracts.candidates vision)
      = ["Nike Pegasus 40"; "Brooks Ghost 15"; "Hoka Clifton 9"] /\
    map confidence (Contracts.candidates vision)
      = [78 # 100; 74 # 100; 69 # 100] /\
    exists r,
      runRanking true None (fun _ => "")
        {| requestId := request_id vision;
           profile := sample_profile;
           candidates :=
             map as_RankingCandidate (Contracts.candidates vision);
           specsByName := [];
           visionFailed :=
             (List.length (Contracts.candidates vision) =? 0)%nat |}
      = Done (Returned r) /\
      List.length (ranked r) = 3%nat /\
      map match_score (ranked r) = [90; 82; 74] /\
      fallback_needed r = false.
Proof.
  apply (C6_mock_pipeline_scores true true 8 None "gpt-4o-mini" Json.parse
           (fun _ => "") "3f0c"
           {| imageUrl := "scans/1.jpg"; mimeType := "image/jpeg";
              buffer := [] |}
           sample_profile []).
  - left. reflexivity.
  - left. reflexivity.
  - split; [reflexivity | discriminate].
Defined.

(** No candidate carries both a brand and a model. *)
Definition none_mapped (cs : list RankingCandidate) : Prop :=
  Forall (fun c => cand_brand c = None \/ cand_model c = None) cs.

Lemma none_mapped_filter (cs : list RankingCandidate) :
  none_mapped cs ->
  filter (fun c => truthy (cand_brand c) && truthy (cand_model c)) cs = [].
Proof.
  induction 1 as [|c cs Hc _ IH]; [reflexivity|].
  cbn [filter]. rewrite IH.
  destruct Hc as [-> | ->]; cbn [truthy andb]; [reflexivity|].
  rewrite andb_false_r. reflexivity.
Qed.

(** C10, as stated, fails for a profile the Ranking Schema rejects: with
    [weekly_mileage = -1] and no mapped candidate, the self-validation of
    the mock object fails and the result carries the error
    [MOCK_RANK_SCHEMA_INVALID]. *)
Lemma C10_invalid_profile_reports_error :
  let p := {| arch_type := normal; usage := road; weekly_mileage := -1 |} in
  none_mapped (candidates (unmapped_args p)) /\
  visionFailed (unmapped_args p) = false /\
  forall ZodError_message,
  exists r e,
    runRanking true None ZodError_message (unmapped_args p)
      = Done (Returned r) /\
    rr_errors r = [e] /\ code e = "MOCK_RANK_SCHEMA_INVALID" /\
    rr_errors r <> [].
Proof.
  cbv zeta. split; [|split].
  - repeat constructor.
  - reflexivity.
  - intros Zm. eexists. eexists. split; [reflexivity|].
    split; [reflexivity|]. split; [reflexivity | discriminate].
Qed.

(** C10 (amended): in mock mode with [visionFailed = false] and a profile
    the Ranking Schema accepts, if no candidate has both a non-null brand
    and a non-null model, [runRanking] returns [fallback_needed = true],
    no [ranked], no [avoid], and an empty [errors] array. *)
Theorem C10_mock_fallback_without_error
  (MOCK_RANKING : bool) (openai : option OpenAI)
  (ZodError_message : list ZodIssue -> string) (args : RankingArgs) :
  mock_mode MOCK_RANKING openai ->
  visionFailed args = false ->
  valid_profile (profile args) ->
  none_mapped (candidates args) ->
  exists r,
    runRanking MOCK_RANKING openai ZodError_message args
      = Done (Returned r) /\
    fallback_needed r = true /\ ranked r = [] /\ avoid r = [] /\
    rr_errors r = [].
Proof.
  intros Hm Hv Hp Hn. exists (mockResult args). split.
  - apply runRanking_mock; assumption.
  - unfold mockResult, mockRanked. rewrite (none_mapped_filter _ Hn).
    repeat split.
Qed.

Lemma C10_mock_fallback_without_error_witness :
  exists r,
    runRanking true None (fun _ => "") (unmapped_args sample_profile)
      = Done (Returned r) /\
    fallback_needed r = true /\ ranked r = [] /\ avoid r = [] /\
    rr_errors r = [].
Proof.
  apply (C10_mock_fallback_without_error true None (fun _ => "")
           (unmapped_args sample_profile)).
  - left. reflexivity.
  - reflexivity.
  - split; [reflexivity | discriminate].
  - repeat constructor.
Defined.

End MockRankingProps.

(* ------------------------------------------------------------------ *)
(** ** The stages settle to values *)

Module StageProps.
Import Js Json Zod Contracts Runtime Openai SchemaProps.

(** The shape of a failed detection: no candidates, one error entry. *)
Definition vision_failure (v : VisionResult) (c : string) : Prop :=
  Contracts.candidates v = [] /\
  image_quality v = fallbackImageQuality /\
  exists msg, errors v = [ {| code := c; message := msg |} ].

(** The shape of a ranking fallback: nothing ranked, one error entry. *)
Definition ranking_fallback (r : RecommendationsResult) : Prop :=
  fallback_needed r = true /\ ranked r = [] /\ avoid r = [] /\
  exists e, rr_errors r = [e].

(** A path that returns [fallbackResult]. *)
Ltac settle_fallback :=
  eexists; split; [reflexivity|]; cbn; repeat split; left;
  repeat split; eexists; reflexivity.

Section Stages.

Variable MOCK_VISION : bool.
Variable MOCK_RANKING : bool.
Variable VISION_MAX_CANDIDATES : nat.
Variable openai : option OpenAI.
Variable model : string.
Variable JSON_parse : string -> Outcome JSON.
Variable ZodError_message : list ZodIssue -> string.

Local Abbreviation vision :=
  (runVision MOCK_VISION VISION_MAX_CANDIDATES openai model JSON_parse
     ZodError_message).
Local Abbreviation ranking := (runRanking MOCK_RANKING openai ZodError_message).

Lemma runRanking_settles (args : RankingArgs) :
  exists r, ranking args = Done (Returned r) /\
    rr_request_id r = requestId args /\
    profile_used r = profile args /\
    (ranking_fallback r \/
     (rr_errors r = [] /\ avoid r = [] /\
      exists data,
        safeParse RankingSchema (of_RecommendationsResult r) = success data)).
Proof.
  unfold runRanking.
  destruct (visionFailed args); [settle_fallback|].
  destruct MOCK_RANKING, openai; try settle_fallback;
    (destruct (safeParse RankingSchema _) as [data | issues] eqn:E;
     [ eexists; split; [reflexivity|]; cbn; repeat split; right;
       repeat split; exists data; exact E
     | settle_fallback ]).
Qed.

(** C7: against any upstream, [runVision] and [runRanking] settle to a
    value and never to a thrown exception.  For [runVision]: the mock
    result when no call is made; after a call, an upstream failure or
    unparseable text gives the failure shape with [VISION_UPSTREAM_ERROR],
    a schema-invalid payload gives it with [VISION_SCHEMA_INVALID], and a
    valid payload gives the normalised data.  For [runRanking]: a result
    echoing [requestId] and the profile, either the fallback shape with one
    error entry or an error-free result that validates against the
    Ranking Schema. *)
Theorem C7_stages_never_throw
  (upstream : ResponsesCreate -> Outcome Response)
  (uuid : string) (image : VisionArgs) (args : RankingArgs) :
  (exists v,
     settle upstream (vision uuid image) = Returned v /\
     match vision uuid image with
     | Done _ => v = mockVisionResult uuid
     | Await call _ =>
         match
           bind (upstream call)
             (fun resp => safeParseJsonFromModel JSON_parse (output_text resp))
         with
         | Thrown _ => vision_failure v "VISION_UPSTREAM_ERROR"
         | Returned json =>
             match
               safeParse (VisionSchema VISION_MAX_CANDIDATES)
                 (patchVisionPayload json)
             with
             | failure _ => vision_failure v "VISION_SCHEMA_INVALID"
             | success data => v = normalizeVisionResult data
             end
         end
     end) /\
  (exists r,
     settle upstream (ranking args) = Returned r /\
     rr_request_id r = requestId args /\
     profile_used r = profile args /\
     (ranking_fallback r \/
      (rr_errors r = [] /\ avoid r = [] /\
       exists data,
         safeParse RankingSchema (of_RecommendationsResult r)
         = success data))).
Proof.
  split.
  - unfold runVision.
    destruct MOCK_VISION, openai as [client|];
      try (eexists; split; reflexivity).
    cbn [settle].
    destruct (upstream _) as [resp | e]; cbn [bind try_catch].
    + unfold visionFromResponse.
      destruct (safeParseJsonFromModel JSON_parse (output_text resp))
        as [json | e]; cbn [bind try_catch].
      * destruct (safeParse _ _) as [data | issues]; cbn [try_catch].
        -- eexists. split; reflexivity.
        -- eexists. split; [reflexivity|]. repeat split.
           eexists. reflexivity.
      * eexists. split; [reflexivity|]. repeat split.
        eexists. reflexivity.
    + eexists. split; [reflexivity|]. repeat split.
      eexists. reflexivity.
  - destruct (runRanking_settles args) as [r [E H]].
    exists r. rewrite E. split; [reflexivity | exact H].
Qed.

End Stages.

(** Concrete runs of the live path against the reference [JSON.parse]. *)

Definition live_client : option OpenAI := Some {| apiKey := "sk-live" |}.

Definition sample_image : VisionArgs :=
  {| imageUrl := "scans/1.png"; mimeType := "image/png";
     buffer := ["a"%char; "b"%char] |}.

(** A reply in a markdown fence whose only candidate has no [bbox] key. *)
Definition fenced_reply : string :=
  "```json" +++ nl
  +++ "{" +++ quoted "request_id" +++ ":" +++ quoted "r-1" +++ ","
  +++ quoted "candidates" +++ ":[{"
  +++ quoted "raw_label" +++ ":" +++ quoted "Nike Pegasus 40" +++ ","
  +++ quoted "brand" +++ ":" +++ quoted "Nike" +++ ","
  +++ quoted "model" +++ ":" +++ quoted "Pegasus 40" +++ ","
  +++ quoted "confidence" +++ ":0.8}],"
  +++ quoted "image_quality" +++ ":{"
  +++ quoted "lighting" +++ ":" +++ quoted "good" +++ ","
  +++ quoted "blur" +++ ":" +++ quoted "none" +++ ","
  +++ quoted "occlusion" +++ ":" +++ quoted "none" +++ "},"
  +++ quoted "errors" +++ ":[]}" +++ nl +++ "```".

Example runVision_fenced_reply :
  settle (fun _ => Returned {| output_text := fenced_reply |})
    (runVision false 8 live_client "gpt-4o-mini" Json.parse (fun _ => "")
       "uuid-1" sample_image)
  = Returned
      {| request_id := "r-1";
         Contracts.candidates :=
           [ {| raw_label := "Nike Pegasus 40";
                brand := Some "Nike";
                Contracts.model := Some "Pegasus 40";
                confidence := 8 # 10;
                bbox := None;
                notes := None |} ];
         image_quality := {| lighting := lighting_good; blur := blur_none;
                             occlusion := occlusion_none |};
         errors :=
           [ {| code := "VISION_PARTIAL_BBOX";
                message :=
                  "1 candidate(s) missing bbox due to ambiguity or occlusion." |} ] |}.
Proof. vm_compute. reflexivity. Qed.

Example runVision_refusal :
  settle (fun _ => Returned {| output_text := "I cannot help with that." |})
    (runVision false 8 live_client "gpt-4o-mini" Json.parse (fun _ => "")
       "uuid-1" sample_image)
  = Returned
      {| request_id := "uuid-1";
         Contracts.candidates := [];
         image_quality := fallbackImageQuality;
         errors :=
           [ {| code := "VISION_UPSTREAM_ERROR";
                message :=
                  "OpenAI failed (unknown): Model output is not valid JSON" |} ] |}.
Proof. vm_compute. reflexivity. Qed.

Example runVision_rate_limited :
  settle
    (fun _ => Thrown {| exn_status := Some 429%Z;
                        exn_response_status := None;
                        exn_message := "rate limited" |})
    (runVision false 8 live_client "gpt-4o-mini" Json.parse (fun _ => "")
       "uuid-1" sample_image)
  = Returned
      {| request_id := "uuid-1";
         Contracts.candidates := [];
         image_quality := fallbackImageQuality;
         errors :=
           [ {| code := "VISION_UPSTREAM_ERROR";
                message := "OpenAI failed (429): rate limited" |} ] |}.
Proof. vm_compute. reflexivity. Qed.

Example runVision_live_calls_once :
  List.length
    (calls (fun _ => Returned {| output_text := "{}" |})
       (runVision false 8 live_client "gpt-4o-mini" Json.parse (fun _ => "")
          "uuid-1" sample_image))
  = 1%nat.
Proof. reflexivity. Qed.

End StageProps.

(* ------------------------------------------------------------------ *)
(** ** The patch step before validation *)

Module PatchProps.
Import Js Json Zod Contracts Runtime Openai.

(** A missing bbox read as a null one. *)
Definition absent_as_null {A} (b : option (option A)) : option A :=
  match b with
  | Some b => b
  | None => None
  end.

(** The Detection Schema with the [bbox] key of a candidate allowed to be
    absent ([.nullable().optional()]); everything else as in
    [VisionSchema]. *)
Definition CandidateSchema_bbox_optional : Schema VisionCandidate :=
  z_object (fun o =>
    Build_VisionCandidate
      <$> field o "raw_label" z_string
      <*> field o "brand" (nullable z_string)
      <*> field o "model" (nullable z_string)
      <*> field o "confidence" (max (min z_number 0) 1)
      <*> (absent_as_null
             <$> field o "bbox" (optional (nullable BBoxSchema)))
      <*> field o "notes" (optional (nullable z_string))).

Definition VisionSchema_bbox_optional (VISION_MAX_CANDIDATES : nat)
  : Schema VisionResult :=
  z_object (fun o =>
    Build_VisionResult
      <$> field o "request_id" z_string
      <*> field o "candidates"
            (array_max (z_array CandidateSchema_bbox_optional)
               VISION_MAX_CANDIDATES)
      <*> field o "image_quality" ImageQualitySchema
      <*> field o "errors" (z_array ErrorEntrySchema)).

(** The candidate object has no [bbox] key. *)
Definition lacks_bbox (candidate : JSON) : Prop :=
  exists props, candidate = JObj props /\ get props "bbox" = None.

(** The candidate object has the key [bbox], set to [null]. *)
Definition has_null_bbox (candidate : JSON) : Prop :=
  exists props, candidate = JObj props /\ get props "bbox" = Some JNull.

Lemma get_set_same (props : list (string * JSON)) (k : string) (v : JSON) :
  get (set props k v) k = Some v.
Proof.
  induction props as [|[k0 v0] props IH]; cbn [set get].
  - rewrite String.eqb_refl. reflexivity.
  - destruct (String.eqb k0 k) eqn:E; cbn [get]; rewrite E; auto.
Qed.

Lemma get_set_other (props : list (string * JSON)) (k k' : string)
  (v : JSON) :
  k <> k' -> get (set props k v) k' = get props k'.
Proof.
  intros N. induction props as [|[k0 v0] props IH]; cbn [set get].
  - apply String.eqb_neq in N. rewrite N. reflexivity.
  - destruct (String.eqb k0 k) eqn:E; cbn [get].
    + apply String.eqb_eq in E. subst k0.
      apply String.eqb_neq in N. rewrite N. reflexivity.
    + rewrite IH. reflexivity.
Qed.

Lemma field_set_same {A} (props : list (string * JSON)) (k : string)
  (v : JSON) (p : Schema A) :
  field (set props k v) k p = under k (p (Some v)).
Proof. unfold field. rewrite get_set_same. reflexivity. Qed.

Lemma field_set_other {A} (props : list (string * JSON)) (k k' : string)
  (v : JSON) (p : Schema A) :
  k <> k' -> field (set props k v) k' p = field props k' p.
Proof. intros N. unfold field. rewrite get_set_other by exact N. reflexivity. Qed.

Lemma under_fmap {A B} (f : A -> B) (k : string) (r : SafeParse A) :
  under k (f <$> r) = f <$> under k r.
Proof. destruct r; reflexivity. Qed.

(** [candidate.bbox ?? null] validated strictly is the bbox validated as an
    optional key, absent read as null. *)
Lemma bbox_patched (props : list (string * JSON)) :
  (nullable BBoxSchema)
    (Some match get props "bbox" with
          | Some JNull | None => JNull
          | Some v => v
          end)
  = absent_as_null <$> (optional (nullable BBoxSchema)) (get props "bbox").
Proof.
  destruct (get props "bbox") as [v|]; [|reflexivity].
  destruct v; cbn [optional nullable]; try reflexivity;
    destruct (BBoxSchema _); reflexivity.
Qed.

Lemma patchCandidate_object (props : list (string * JSON)) :
  patchCandidate (JObj props)
  = JObj (set props "bbox"
            match get props "bbox" with
            | Some JNull | None => JNull
            | Some v => v
            end).
Proof. reflexivity. Qed.

(** On an object, strict validation after the patch is validation with the
    key optional. *)
Lemma CandidateSchema_patched (props : list (string * JSON)) :
  CandidateSchema (Some (patchCandidate (JObj props)))
  = CandidateSchema_bbox_optional (Some (JObj props)).
Proof.
  rewrite patchCandidate_object.
  unfold CandidateSchema, CandidateSchema_bbox_optional, z_object.
  rewrite field_set_same, bbox_patched, under_fmap.
  rewrite !field_set_other by discriminate.
  reflexivity.
Qed.

Lemma CandidateSchema_object (c : JSON) (d : VisionCandidate) :
  CandidateSchema_bbox_optional (Some c) = success d ->
  exists props, c = JObj props.
Proof. destruct c; try discriminate. eexists. reflexivity. Qed.

Lemma ap_success {A B} (rf : SafeParse (A -> B)) (ra : SafeParse A) (b : B) :
  rf <*> ra = success b ->
  exists f a, rf = success f /\ ra = success a /\ b = f a.
Proof.
  destruct rf as [f|], ra as [a|]; try discriminate.
  intros [= <-]. eauto.
Qed.

Lemma fmap_success {A B} (f : A -> B) (ra : SafeParse A) (b : B) :
  f <$> ra = success b -> exists a, ra = success a /\ b = f a.
Proof. destruct ra as [a|]; try discriminate. intros [= <-]. eauto. Qed.

Lemma under_success {A} (k : string) (r : SafeParse A) (a : A) :
  under k r = success a -> r = success a.
Proof. destruct r; try discriminate. intros [= <-]. reflexivity. Qed.

Lemma parse_items_patched (cs : list JSON) :
  forall (i : nat) (ds : list VisionCandidate),
    parse_items CandidateSchema_bbox_optional i cs = success ds ->
    parse_items CandidateSchema i (map patchCandidate cs) = success ds.
Proof.
  induction cs as [|c cs IH]; intros i ds H; [exact H|].
  cbn [map parse_items] in *.
  apply ap_success in H. destruct H as [f [tl [Hf [Htl ->]]]].
  apply fmap_success in Hf. destruct Hf as [d [Hd ->]].
  pose proof (under_success _ _ _ Hd) as Hc.
  destruct (CandidateSchema_object _ _ Hc) as [props ->].
  rewrite CandidateSchema_patched, Hd, (IH _ _ Htl). reflexivity.
Qed.

Lemma parse_items_Forall2 {A} (p : Schema A) (cs : list JSON) :
  forall (i : nat) (ds : list A),
    parse_items p i cs = success ds ->
    Forall2 (fun c d => p (Some c) = success d) cs ds.
Proof.
  induction cs as [|c cs IH]; intros i ds H; cbn [parse_items] in H.
  - injection H as <-. constructor.
  - apply ap_success in H. destruct H as [f [tl [Hf [Htl ->]]]].
    apply fmap_success in Hf. destruct Hf as [d [Hd ->]].
    constructor; [exact (under_success _ _ _ Hd) | exact (IH _ _ Htl)].
Qed.

Lemma lacks_bbox_validated (c : JSON) (d : VisionCandidate) :
  CandidateSchema_bbox_optional (Some c) = success d ->
  lacks_bbox c -> bbox d = None.
Proof.
  intros H [props [-> Hb]].
  unfold CandidateSchema_bbox_optional, z_object in H.
  apply ap_success in H. destruct H as [f [n [Hf [_ ->]]]].
  apply ap_success in Hf. destruct Hf as [g [b [Hg [Hbox ->]]]].
  apply ap_success in Hg. destruct Hg as [g4 [cf [Hg [_ ->]]]].
  apply ap_success in Hg. destruct Hg as [g3 [md [Hg [_ ->]]]].
  apply ap_success in Hg. destruct Hg as [g2 [br [Hg [_ ->]]]].
  apply fmap_success in Hg. destruct Hg as [lb [_ ->]].
  unfold field in Hbox. rewrite Hb in Hbox.
  injection Hbox as <-. reflexivity.
Qed.

Lemma lacks_bbox_patched (c : JSON) :
  lacks_bbox c -> has_null_bbox (patchCandidate c).
Proof.
  intros [props [-> Hb]]. rewrite patchCandidate_object, Hb.
  eexists. split; [reflexivity | apply get_set_same].
Qed.

Lemma patchVisionPayload_object (props : list (string * JSON))
  (cs : list JSON) :
  get props "candidates" = Some (JArr cs) ->
  patchVisionPayload (JObj props)
  = JObj (set props "candidates" (JArr (map patchCandidate cs))).
Proof.
  intros H. unfold patchVisionPayload. cbn [falsy typeof_object orb negb spread].
  rewrite H. reflexivity.
Qed.

Lemma length_issues_max {A} (p : Schema A) (n len : nat) :
  length_issues (array_max (z_array p) n) len
  = if (n <? len)%nat then [issue too_big] else [].
Proof. reflexivity. Qed.

(** C5: a payload that meets the Detection Schema except that candidate
    objects may lack the [bbox] key validates, once patched, against the
    strict [VisionSchema], with the same data; every candidate that lacked
    the key carries [bbox: null] in the patched payload and [bbox = null]
    in the validated data. *)
Theorem C5_patched_payload_validates (VISION_MAX_CANDIDATES : nat)
  (payload : JSON) (data : VisionResult) :
  safeParse (VisionSchema_bbox_optional VISION_MAX_CANDIDATES) payload
    = success data ->
  safeParse (VisionSchema VISION_MAX_CANDIDATES) (patchVisionPayload payload)
    = success data /\
  exists props cs,
    payload = JObj props /\
    get props "candidates" = Some (JArr cs) /\
    patchVisionPayload payload
      = JObj (set props "candidates" (JArr (map patchCandidate cs))) /\
    Forall (fun c => lacks_bbox c -> has_null_bbox (patchCandidate c)) cs /\
    Forall2 (fun c d => lacks_bbox c -> bbox d = None)
      cs (Contracts.candidates data).
Proof.
  unfold safeParse. intros H.
  destruct payload as [| | | | |props]; try discriminate.
  unfold VisionSchema_bbox_optional, z_object in H.
  apply ap_success in H. destruct H as [f3 [errs [H [Herrs ->]]]].
  apply ap_success in H. destruct H as [f2 [iq [H [Hiq ->]]]].
  apply ap_success in H. destruct H as [f1 [ds [H [Hcs ->]]]].
  apply fmap_success in H. destruct H as [rid [Hrid ->]].
  unfold field in Hcs. apply under_success in Hcs.
  destruct (get props "candidates") as [[| | | |cs|]|] eqn:Hget;
    try discriminate.
  unfold parse_array in Hcs. rewrite length_issues_max in Hcs.
  cbn [element array_max z_array] in Hcs.
  destruct (VISION_MAX_CANDIDATES <? List.length cs)%nat eqn:Hlen;
    [discriminate|].
  split.
  - rewrite (patchVisionPayload_object props cs Hget).
    unfold VisionSchema, z_object.
    rewrite field_set_same, !field_set_other by discriminate.
    rewrite Hrid, Hiq, Herrs.
    unfold parse_array. rewrite length_issues_max, length_map, Hlen.
    cbn [element array_max z_array].
    rewrite (parse_items_patched _ _ _ Hcs). reflexivity.
  - exists props, cs.
    split; [reflexivity|]. split; [exact Hget|]. split; [|split].
    + apply patchVisionPayload_object, Hget.
    + apply Forall_forall. intros c _. apply lacks_bbox_patched.
    + cbn [Contracts.candidates].
      eapply Forall2_impl; [|exact (parse_items_Forall2 _ _ _ _ Hcs)].
      intros c d Hd. apply lacks_bbox_validated, Hd.
Qed.

(** A model response with the first candidate lacking the [bbox] key. *)
Definition sample_payload : JSON :=
  JObj [ ("request_id", JStr "3f0c");
         ("candidates",
          JArr [ JObj [ ("raw_label", JStr "Nike Pegasus 40");
                        ("brand", JStr "Nike");
                        ("model", JStr "Pegasus 40");
                        ("confidence", JNum (78 # 100)) ];
                 JObj [ ("raw_label", JStr "grey trainer");
                        ("brand", JNull);
                        ("model", JNull);
                        ("confidence", JNum (3 # 10));
                        ("bbox", JObj [ ("x", JNum (1 # 10));
                                        ("y", JNum (2 # 10));
                                        ("w", JNum (3 # 10));
                                        ("h", JNum (4 # 10)) ]);
                        ("notes", JNull) ] ]);
         ("image_quality",
          JObj [ ("lighting", JStr "good"); ("blur", JStr "none");
                 ("occlusion", JStr "some") ]);
         ("errors", JArr []) ].

Lemma C5_patched_payload_validates_witness :
  exists data,
    safeParse (VisionSchema_bbox_optional 8) sample_payload = success data /\
    safeParse (VisionSchema 8) (patchVisionPayload sample_payload)
      = success data /\
    exists props cs,
      sample_payload = JObj props /\
      get props "candidates" = Some (JArr cs) /\
      patchVisionPayload sample_payload
        = JObj (set props "candidates" (JArr (map patchCandidate cs))) /\
      Forall (fun c => lacks_bbox c -> has_null_bbox (patchCandidate c)) cs /\
      Forall2 (fun c d => lacks_bbox c -> bbox d = None)
        cs (Contracts.candidates data).
Proof.
  eexists. split; [reflexivity|].
  apply (C5_patched_payload_validates 8 sample_payload). reflexivity.
Defined.

End PatchProps.

(* ------------------------------------------------------------------ *)
(** ** safeParseJsonFromModel *)

Module ParserProps.
Import Js Json Zod Contracts Openai.

(** The character occurs in the string. *)
Fixpoint occurs (c : ascii) (s : string) : bool :=
  match s with
  | EmptyString => false
  | String a r => Ascii.eqb a c || occurs c r
  end.

Lemma indexOf_from_absent (c : ascii) (s : string) :
  forall i, (0 <= i)%Z -> indexOf_from c s i = (-1)%Z -> occurs c s = false.
Proof.
  induction s as [|a r IH]; intros i Hi H; [reflexivity|].
  cbn [indexOf_from occurs] in *.
  destruct (Ascii.eqb a c); [lia|].
  cbn [orb]. apply (IH (i + 1)%Z); [lia | exact H].
Qed.

Lemma indexOf_from_first (c : ascii) (pre rest : string) :
  occurs c pre = false ->
  forall i,
    indexOf_from c (pre +++ String c rest) i = (i + str_length pre)%Z.
Proof.
  unfold str_length.
  induction pre as [|a p IH]; intros H i; cbn [String.append indexOf_from].
  - rewrite Ascii.eqb_refl. cbn. lia.
  - cbn [occurs] in H. apply orb_false_iff in H. destruct H as [Ha Hp].
    rewrite Ha, (IH Hp). cbn [String.length]. lia.
Qed.

Lemma lastIndexOf_from_lower (c : ascii) (s : string) :
  forall i found,
    (found <= i)%Z -> (found <= lastIndexOf_from c s i found)%Z.
Proof.
  induction s as [|a r IH]; intros i found H; cbn [lastIndexOf_from];
    [lia|].
  destruct (Ascii.eqb a c).
  - specialize (IH (i + 1)%Z i). lia.
  - apply IH. lia.
Qed.

Lemma lastIndexOf_from_absent (c : ascii) (s : string) :
  forall i,
    (0 <= i)%Z -> lastIndexOf_from c s i (-1)%Z = (-1)%Z ->
    occurs c s = false.
Proof.
  induction s as [|a r IH]; intros i Hi H; [reflexivity|].
  cbn [lastIndexOf_from occurs] in *.
  destruct (Ascii.eqb a c).
  - pose proof (lastIndexOf_from_lower c r (i + 1)%Z i). lia.
  - cbn [orb]. apply (IH (i + 1)%Z); [lia | exact H].
Qed.

Lemma lastIndexOf_from_none (c : ascii) (s : string) :
  occurs c s = false ->
  forall i found, lastIndexOf_from c s i found = found.
Proof.
  induction s as [|a r IH]; intros H i found; [reflexivity|].
  cbn [occurs] in H. apply orb_false_iff in H. destruct H as [Ha Hr].
  cbn [lastIndexOf_from]. rewrite Ha. apply IH, Hr.
Qed.

Lemma lastIndexOf_from_app (c : ascii) (s1 s2 : string) :
  forall i found,
    lastIndexOf_from c (s1 +++ s2) i found
    = lastIndexOf_from c s2 (i + str_length s1)%Z
        (lastIndexOf_from c s1 i found).
Proof.
  unfold str_length.
  induction s1 as [|a r IH]; intros i found;
    cbn [String.append lastIndexOf_from String.length].
  - f_equal. cbn. lia.
  - rewrite IH. f_equal. lia.
Qed.

Lemma length_append (s1 s2 : string) :
  String.length (s1 +++ s2) = (String.length s1 + String.length s2)%nat.
Proof. induction s1; cbn; congruence. Qed.

Lemma lastIndexOf_from_last (c : ascii) (s post : string) :
  occurs c post = false ->
  forall i found,
    lastIndexOf_from c (s +++ String c post) i found
    = (i + str_length s)%Z.
Proof.
  intros H i found. rewrite lastIndexOf_from_app.
  cbn [lastIndexOf_from]. rewrite Ascii.eqb_refl.
  apply lastIndexOf_from_none, H.
Qed.

Lemma append_assoc (s1 s2 s3 : string) :
  (s1 +++ s2) +++ s3 = s1 +++ s2 +++ s3.
Proof. induction s1; cbn; congruence. Qed.

Lemma substring_prefix (s post : string) :
  String.substring 0 (String.length s) (s +++ post) = s.
Proof.
  induction s as [|a r IH]; cbn [String.length String.append].
  - destruct post; reflexivity.
  - cbn [String.substring]. rewrite IH. reflexivity.
Qed.

Lemma substring_skip (pre s : string) (n : nat) :
  String.substring (String.length pre) n (pre +++ s)
  = String.substring 0 n s.
Proof. induction pre as [|a r IH]; cbn; auto. Qed.

(** The slice between the first ['{'] and the last ['}'] is the embedded
    object text. *)
Lemma slice_embedded (pre body post : string) :
  occurs "{" pre = false -> occurs "}" post = false ->
  let obj := "{" +++ body +++ "}" in
  let text := pre +++ obj +++ post in
  indexOf text "{" = str_length pre /\
  lastIndexOf text "}" = (str_length pre + str_length body + 1)%Z /\
  slice text (indexOf text "{") (lastIndexOf text "}" + 1) = obj.
Proof.
  intros Hpre Hpost obj text.
  assert (F : indexOf text "{" = str_length pre).
  { unfold indexOf, text, obj. cbn [String.append].
    rewrite indexOf_from_first by exact Hpre. lia. }
  assert (L : lastIndexOf text "}"
              = (str_length pre + str_length body + 1)%Z).
  { unfold lastIndexOf, text, obj.
    replace (pre +++ ("{" +++ body +++ "}") +++ post)
      with ((pre +++ String "{" body) +++ String "}" post)
      by (rewrite !append_assoc; reflexivity).
    rewrite lastIndexOf_from_last by exact Hpost.
    unfold str_length. rewrite length_append. cbn [String.length]. lia. }
  split; [exact F|]. split; [exact L|].
  rewrite F, L. unfold slice.
  assert (Hlen : str_length text
                 = (str_length pre + str_length body + 2
                    + str_length post)%Z).
  { unfold str_length, text, obj. rewrite !length_append.
    cbn [String.length]. lia. }
  rewrite Hlen. unfold str_length in *.
  replace (Z.of_nat (String.length pre) <? 0)%Z with false
    by (symmetry; apply Z.ltb_ge; lia).
  replace (Z.of_nat (String.length pre) + Z.of_nat (String.length body)
           + 1 + 1 <? 0)%Z with false
    by (symmetry; apply Z.ltb_ge; lia).
  rewrite Z.min_l by lia. rewrite Z.min_l by lia.
  replace (Z.of_nat (String.length pre) <?
           Z.of_nat (String.length pre) + Z.of_nat (String.length body)
           + 1 + 1)%Z with true
    by (symmetry; apply Z.ltb_lt; lia).
  rewrite Nat2Z.id.
  replace (Z.to_nat _) with (String.length obj).
  - unfold text. rewrite substring_skip. apply substring_prefix.
  - unfold obj. rewrite !length_append. cbn [String.length]. lia.
Qed.

(** The text is a well-formed JSON object: it starts with ['{'] and the
    reference parser reads it as an object. *)
Definition is_object_text (s : string) : bool :=
  match s with
  | String "{" _ =>
      match Json.parse s with
      | Returned (JObj _) => true
      | _ => false
      end
  | _ => false
  end.

(** Where well-formed JSON objects occur in a text: start and length. *)
Definition object_occurrences (text : string) : list (nat * nat) :=
  let n := String.length text in
  filter (fun '(i, len) => is_object_text (String.substring i len text))
    (flat_map (fun i => map (fun len => (i, len)) (seq 1 (n - i)))
       (seq 0 n)).

(** A reply whose prose uses braces before the answer. *)
Definition braces_in_prose : string :=
  "Braces like {this} precede the answer: {" +++ dq +++ "n" +++ dq
    +++ ": 1}".

(** C4, as stated, fails: the text below contains exactly one well-formed
    JSON object, preceded by prose, yet the parser throws, because the
    slice it parses starts at the brace of the prose. *)
Lemma C4_prose_with_braces_defeats_recovery :
  let obj := "{" +++ dq +++ "n" +++ dq +++ ": 1}" in
  braces_in_prose = "Braces like {this} precede the answer: " +++ obj /\
  object_occurrences braces_in_prose = [(39%nat, String.length obj)] /\
  Json.parse obj = Returned (JObj [("n", JNum 1)]) /\
  (exists e, safeParseJsonFromModel Json.parse braces_in_prose = Thrown e) /\
  safeParseJsonFromModel Json.parse braces_in_prose <> Json.parse obj.
Proof.
  cbv zeta. split; [reflexivity|]. split; [vm_compute; reflexivity|].
  split; [vm_compute; reflexivity|]. split.
  - eexists. vm_compute. reflexivity.
  - vm_compute. discriminate.
Qed.

(** C4 (amended): when the text is a prefix without ['{'], then an object
    text from ['{'] to ['}'], then a suffix without ['}'], the parser
    returns the parse of the whole text if that succeeds, and otherwise
    exactly what [JSON.parse] gives on the embedded object text. *)
Theorem C4_safeParse_recovers_embedded
  (JSON_parse : string -> Outcome JSON) (pre body post : string) :
  indexOf pre "{" = (-1)%Z ->
  lastIndexOf post "}" = (-1)%Z ->
  let obj := "{" +++ body +++ "}" in
  let text := pre +++ obj +++ post in
  safeParseJsonFromModel JSON_parse text
  = match JSON_parse text with
    | Returned v => Returned v
    | Thrown _ => JSON_parse obj
    end.
Proof.
  intros Hpre Hpost obj text.
  apply indexOf_from_absent in Hpre; [|lia].
  apply lastIndexOf_from_absent in Hpost; [|lia].
  destruct (slice_embedded pre body post Hpre Hpost) as [F [L S]].
  fold obj text in F, L, S.
  unfold safeParseJsonFromModel.
  destruct (JSON_parse text) as [v | e]; cbn [try_catch]; [reflexivity|].
  rewrite S, F, L.
  replace ((str_length pre >=? 0)%Z
           && (str_length pre + str_length body + 1 >? str_length pre)%Z)
    with true; [reflexivity|].
  unfold str_length. symmetry. apply andb_true_iff. split.
  - apply Z.geb_le. lia.
  - apply Z.gtb_lt. lia.
Qed.

Lemma C4_safeParse_recovers_embedded_witness :
  let pre := "Here is the result: " in
  let body := dq +++ "n" +++ dq +++ ": 1" in
  let post := " Hope this helps." in
  let obj := "{" +++ body +++ "}" in
  let text := pre +++ obj +++ post in
  safeParseJsonFromModel Json.parse text
  = match Json.parse text with
    | Returned v => Returned v
    | Thrown _ => Json.parse obj
    end.
Proof.
  apply (C4_safeParse_recovers_embedded Json.parse
           "Here is the result: " (dq +++ "n" +++ dq +++ ": 1")
           " Hope this helps."); reflexivity.
Defined.

(** The same run, evaluated. *)
Example safeParse_prose_around_object :
  safeParseJsonFromModel Json.parse
    ("Here is the result: {" +++ dq +++ "n" +++ dq
       +++ ": 1} Hope this helps.")
  = Returned (JObj [("n", JNum 1)]).
Proof. vm_compute. reflexivity. Qed.

End ParserProps.

(* ------------------------------------------------------------------ *)
(** ** The overlay's summary panel *)

Module OverlayProps.
Import Js Contracts Overlay.

(** [!candidate.bbox]. *)
Definition unlocalized (c : VisionCandidate) : bool :=
  match bbox c with
  | None => true
  | Some _ => false
  end.

(** The labels of the candidates without a bbox, in candidate order. *)
Definition unlocalizedLabels (times : Q -> Q -> Q)
  (cs : list VisionCandidate) : list string :=
  map (candidateLabel times) (filter unlocalized cs).

(** The header line and the trailing line of the panel. *)
Definition headerLine (m : nat) : string :=
  "No bbox (" +++ String_of_nat m +++ ")".

Definition moreLine (k : Z) : string :=
  "+" +++ String_of_Z k +++ " more".

(** *** What the SVG elements look like

    The text of each kind of element, with the numbers it prints. *)








(** *** Telling the elements apart *)














(** *** The loop *)



Section Loop.

Variable times : Q -> Q -> Q.



End Loop.

Lemma panelLines_spec (missing : list string) :
  let m := List.length missing in
  panelLines missing
  = headerLine m :: firstn 8 missing
    ++ (if (8 <? m)%nat then [moreLine (Z.of_nat m - 8)] else []).
Proof.
  cbv zeta. unfold panelLines, slice0, headerLine, moreLine.
  rewrite length_firstn.
  destruct (8 <? List.length missing)%nat eqn:E.
  - apply Nat.ltb_lt in E.
    rewrite Nat.min_l by lia.
    replace (0 <? Z.of_nat (List.length missing) - Z.of_nat 8)%Z with true
      by (symmetry; apply Z.ltb_lt; lia).
    reflexivity.
  - apply Nat.ltb_ge in E.
    rewrite Nat.min_r by lia.
    replace (0 <? Z.of_nat (List.length missing)
                  - Z.of_nat (List.length missing))%Z with false
      by (symmetry; apply Z.ltb_ge; lia).
    rewrite app_nil_r. reflexivity.
Qed.






(** The percentage follows the double product: at a confidence of 0.285
    the double [0.285 * 100] is 28.499999999999996 and the label shows 28,
    where the exact product 28.5 would show 29. *)
Example candidateLabel_percentage :
  let c := {| raw_label := "Nike Pegasus 40"; brand := None; model := None;
              confidence := 285 # 1000; bbox := None; notes := None |} in
  candidateLabel (fun _ _ => 28499999999999996 # 1000000000000000) c
  = "Nike Pegasus 40 (28%)" /\
  candidateLabel Qmult c = "Nike Pegasus 40 (29%)".
Proof. split; reflexivity. Qed.






End OverlayProps.

(* ================================================================== *)
(** * Further properties of the code *)

(* ------------------------------------------------------------------ *)
(** ** normalizeBbox on arbitrary boxes *)

Module GeometryMore.
Import Js Contracts Openai GeometryProps.

(** Equality of boxes as numbers. *)
Definition bbox_eq (a b : BBox) : Prop :=
  x a == x b /\ y a == y b /\ w a == w b /\ h a == h b.

(** Every coordinate within the range the Detection Schema demands, and a
    size of at least 0.01. *)
Definition bbox_in_range (b : BBox) : Prop :=
  (0 <= x b /\ x b <= 1) /\ (0 <= y b /\ y b <= 1) /\
  (1 # 100 <= w b /\ w b <= 1) /\ (1 # 100 <= h b /\ h b <= 1).

Lemma extent_compat (s s' o o' : Q) :
  s == s' -> o == o' -> extent s o == extent s' o'.
Proof.
  intros Es Eo. unfold extent, clamp01, Math_max, Math_min.
  rewrite Es, Eo. reflexivity.
Qed.

Lemma extent_again (s o : Q) : extent (extent s o) o == extent s o.
Proof.
  pose proof (extent_lower s o) as Lo. pose proof (extent_upper s o) as Up.
  assert (M : Qmin (clamp01 s) (1 - o) <= 1 - o) by apply Q.le_min_r.
  assert (D : extent s o == Qmin (clamp01 s) (1 - o)
              \/ extent s o == 1 # 100).
  { unfold extent, Math_max, Math_min.
    destruct (Q.max_spec (1 # 100) (Qmin (clamp01 s) (1 - o)))
      as [[_ E] | [_ E]]; auto. }
  set (e := extent s o) in *.
  assert (C : clamp01 e == e) by (apply clamp01_id; lra).
  unfold extent at 1. unfold Math_max, Math_min. rewrite C.
  destruct D as [D | D].
  - rewrite (Q.min_l e (1 - o)) by lra. apply Q.max_r. exact Lo.
  - rewrite D. apply Q.max_l.
    eapply Qle_trans; [apply Q.le_min_l | apply Qle_refl].
Qed.

Lemma normalized_in_range (b : BBox) :
  bbox_in_range
    {| x := clamp01 (x b); y := clamp01 (y b);
       w := extent (w b) (clamp01 (x b));
       h := extent (h b) (clamp01 (y b)) |}.
Proof.
  unfold bbox_in_range. cbn [x y w h].
  repeat split;
    auto using extent_lower, extent_upper;
    apply clamp01_range.
Qed.

(** [normalizeBbox] brings any box, whatever its coordinates, into range:
    [x] and [y] within [0,1], [w] and [h] within [0.01, 1]. *)
Theorem normalizeBbox_in_range (b : BBox) :
  exists r, normalizeBbox (Some b) = Some r /\ bbox_in_range r.
Proof.
  eexists. split; [apply normalizeBbox_Some | apply normalized_in_range].
Qed.

(** Normalising a normalised box changes nothing. *)
Theorem normalizeBbox_idempotent (b : BBox) :
  exists r r',
    normalizeBbox (Some b) = Some r /\
    normalizeBbox (Some r) = Some r' /\
    bbox_eq r' r.
Proof.
  do 2 eexists. split; [apply normalizeBbox_Some|].
  split; [apply normalizeBbox_Some|].
  unfold bbox_eq. cbn [x y w h].
  assert (Cx : clamp01 (clamp01 (x b)) == clamp01 (x b))
    by (apply clamp01_id; apply clamp01_range).
  assert (Cy : clamp01 (clamp01 (y b)) == clamp01 (y b))
    by (apply clamp01_id; apply clamp01_range).
  repeat split; auto.
  - rewrite (extent_compat _ (extent (w b) (clamp01 (x b))) _ (clamp01 (x b)));
      [apply extent_again | reflexivity | exact Cx].
  - rewrite (extent_compat _ (extent (h b) (clamp01 (y b))) _ (clamp01 (y b)));
      [apply extent_again | reflexivity | exact Cy].
Qed.

(** The size survives whatever the difference [1 - origin] comes to, as
    long as the size is not above it. *)
Lemma size_kept (s rest : Q) :
  1 # 100 <= s -> s <= 1 -> s <= rest ->
  Math_max (1 # 100) (Math_min (clamp01 s) rest) == s.
Proof.
  intros Hs H1 Hr. unfold Math_max, Math_min.
  rewrite (clamp01_id s) by lra.
  rewrite Q.min_l by exact Hr. apply Q.max_r. exact Hs.
Qed.

Lemma extent_fixed (s o : Q) :
  1 # 100 <= s -> s <= 1 - o -> 0 <= o -> extent s o == s.
Proof.
  intros Hs Hfit Ho. unfold extent. apply size_kept; lra.
Qed.

(** A box whose origin is not negative and whose sizes are at least 0.01
    and pass the comparisons the function makes, [w <= 1 - x] and
    [h <= 1 - y], is returned as it is. *)
Theorem normalizeBbox_fixed_point (b : BBox) :
  0 <= x b -> 0 <= y b -> 1 # 100 <= w b -> 1 # 100 <= h b ->
  w b <= 1 - x b -> h b <= 1 - y b ->
  exists r, normalizeBbox (Some b) = Some r /\ bbox_eq r b.
Proof.
  intros Hx Hy Hw Hh Fx Fy.
  eexists. split; [apply normalizeBbox_Some|].
  unfold bbox_eq. cbn [x y w h].
  assert (Cx : clamp01 (x b) == x b) by (apply clamp01_id; lra).
  assert (Cy : clamp01 (y b) == y b) by (apply clamp01_id; lra).
  repeat split; auto.
  - rewrite (extent_compat (w b) (w b) _ (x b)); [|reflexivity | exact Cx].
    apply extent_fixed; assumption.
  - rewrite (extent_compat (h b) (h b) _ (y b)); [|reflexivity | exact Cy].
    apply extent_fixed; assumption.
Qed.

Lemma normalizeBbox_fixed_point_witness :
  exists r,
    normalizeBbox (Some {| x := 8 # 100; y := 22 # 100;
                           w := 22 # 100; h := 18 # 100 |}) = Some r /\
    bbox_eq r {| x := 8 # 100; y := 22 # 100; w := 22 # 100; h := 18 # 100 |}.
Proof.
  apply (normalizeBbox_fixed_point
           {| x := 8 # 100; y := 22 # 100; w := 22 # 100; h := 18 # 100 |});
    cbn; discriminate.
Defined.

End GeometryMore.

(* ------------------------------------------------------------------ *)
(** ** The Detection Schema on typed values *)

Module VisionSchemaProps.
Import Js Json Zod Contracts Runtime Openai SchemaProps PatchProps.
Import GeometryProps GeometryMore.

#[local] Arguments Number_isInteger : simpl never.
#[local] Arguments Qle_bool : simpl never.

(** The run-time object of a [VisionResult]. *)
Definition of_BBox (b : BBox) : JSON :=
  JObj [("x", JNum (x b)); ("y", JNum (y b));
        ("w", JNum (w b)); ("h", JNum (h b))].

Definition of_VisionCandidate (c : VisionCandidate) : JSON :=
  JObj ([("raw_label", JStr (raw_label c));
         ("brand", or_null JStr (brand c));
         ("model", or_null JStr (Contracts.model c));
         ("confidence", JNum (confidence c));
         ("bbox", or_null of_BBox (bbox c))]
        ++ match notes c with
           | Some n => [("notes", or_null JStr n)]
           | None => []
           end).

Definition Lighting_string (l : Lighting) : string :=
  match l with
  | lighting_good => "good" | lighting_ok => "ok" | lighting_bad => "bad"
  end.

Definition Blur_string (b : Blur) : string :=
  match b with
  | blur_none => "none" | blur_mild => "mild" | blur_high => "high"
  end.

Definition Occlusion_string (o : Occlusion) : string :=
  match o with
  | occlusion_none => "none" | occlusion_some => "some"
  | occlusion_heavy => "heavy"
  end.

Definition of_ImageQuality (q : ImageQuality) : JSON :=
  JObj [("lighting", JStr (Lighting_string (lighting q)));
        ("blur", JStr (Blur_string (blur q)));
        ("occlusion", JStr (Occlusion_string (occlusion q)))].

Definition of_VisionResult (v : VisionResult) : JSON :=
  JObj [("request_id", JStr (request_id v));
        ("candidates",
         JArr (map of_VisionCandidate (Contracts.candidates v)));
        ("image_quality", of_ImageQuality (image_quality v));
        ("errors", JArr (map of_ErrorEntry (errors v)))].

(** The schema's constraints on typed values. *)
Definition unit_box (b : BBox) : Prop :=
  (0 <= x b /\ x b <= 1) /\ (0 <= y b /\ y b <= 1) /\
  (0 <= w b /\ w b <= 1) /\ (0 <= h b /\ h b <= 1).

Definition valid_candidate (c : VisionCandidate) : Prop :=
  (0 <= confidence c /\ confidence c <= 1) /\
  match bbox c with
  | Some b => unit_box b
  | None => True
  end.

Definition valid_vision (N : nat) (v : VisionResult) : Prop :=
  (List.length (Contracts.candidates v) <= N)%nat /\
  Forall valid_candidate (Contracts.candidates v).

Lemma number_between_inv (lo hi : Q) (v : option JSON) (n : Q) :
  parse_number (max (min z_number lo) hi) v = success n ->
  lo <= n /\ n <= hi.
Proof.
  destruct v as [[| |m| | |]|]; try discriminate.
  cbn. destruct (Qle_bool lo m) eqn:E1, (Qle_bool m hi) eqn:E2;
    try discriminate.
  intros [= <-]. split; apply Qle_bool_iff; assumption.
Qed.

Lemma field_number_inv (o : list (string * JSON)) (k : string)
  (lo hi n : Q) :
  field o k (parse_number (max (min z_number lo) hi)) = success n ->
  lo <= n /\ n <= hi.
Proof.
  intros H. apply under_success in H. exact (number_between_inv _ _ _ _ H).
Qed.

Lemma BBoxSchema_sound (v : option JSON) (b : BBox) :
  BBoxSchema v = success b -> unit_box b.
Proof.
  destruct v as [[| | | | |o]|]; try discriminate.
  unfold BBoxSchema, z_object. intros H.
  apply ap_success in H. destruct H as [f3 [bh [H [Hh ->]]]].
  apply ap_success in H. destruct H as [f2 [bw [H [Hw ->]]]].
  apply ap_success in H. destruct H as [f1 [by_ [H [Hy ->]]]].
  apply fmap_success in H. destruct H as [bx [Hx ->]].
  unfold unit_box. cbn [x y w h].
  pose proof (field_number_inv _ _ _ _ _ Hx).
  pose proof (field_number_inv _ _ _ _ _ Hy).
  pose proof (field_number_inv _ _ _ _ _ Hw).
  pose proof (field_number_inv _ _ _ _ _ Hh).
  tauto.
Qed.

Lemma CandidateSchema_sound (v : option JSON) (c : VisionCandidate) :
  CandidateSchema v = success c -> valid_candidate c.
Proof.
  destruct v as [[| | | | |o]|]; try discriminate.
  unfold CandidateSchema, z_object. intros H.
  apply ap_success in H. destruct H as [f5 [nt [H [_ ->]]]].
  apply ap_success in H. destruct H as [f4 [bb [H [Hb ->]]]].
  apply ap_success in H. destruct H as [f3 [cf [H [Hc ->]]]].
  apply ap_success in H. destruct H as [f2 [md [H [_ ->]]]].
  apply ap_success in H. destruct H as [f1 [br [H [_ ->]]]].
  apply fmap_success in H. destruct H as [lb [_ ->]].
  unfold valid_candidate. cbn [confidence bbox]. split.
  - eapply field_number_inv; eassumption.
  - apply under_success in Hb. unfold nullable in Hb.
    destruct bb as [b|]; [|exact I].
    destruct (get o "bbox") as [[| | | | |bo]|]; try discriminate;
      apply fmap_success in Hb; destruct Hb as [b' [Hb [= ->]]];
      exact (BBoxSchema_sound _ _ Hb).
Qed.

Lemma Forall2_length_eq {A B} (R : A -> B -> Prop) (l : list A)
  (l' : list B) : Forall2 R l l' -> List.length l = List.length l'.
Proof. induction 1; cbn; congruence. Qed.

Lemma Forall2_right {A B} (R : A -> B -> Prop) (P : B -> Prop)
  (l : list A) (l' : list B) :
  (forall a b, R a b -> P b) -> Forall2 R l l' -> Forall P l'.
Proof. intros H. induction 1; constructor; eauto. Qed.

Lemma VisionSchema_bounds (VISION_MAX_CANDIDATES : nat) (payload : JSON)
  (data : VisionResult) :
  safeParse (VisionSchema VISION_MAX_CANDIDATES) payload = success data ->
  valid_vision VISION_MAX_CANDIDATES data.
Proof.
  unfold safeParse. intros H.
  destruct payload as [| | | | |props]; try discriminate.
  unfold VisionSchema, z_object in H.
  apply ap_success in H. destruct H as [f3 [errs [H [_ ->]]]].
  apply ap_success in H. destruct H as [f2 [iq [H [_ ->]]]].
  apply ap_success in H. destruct H as [f1 [ds [H [Hcs ->]]]].
  apply fmap_success in H. destruct H as [rid [_ ->]].
  apply under_success in Hcs.
  destruct (get props "candidates") as [[| | | |cs|]|]; try discriminate.
  unfold parse_array in Hcs. rewrite length_issues_max in Hcs.
  cbn [element array_max z_array] in Hcs.
  destruct (VISION_MAX_CANDIDATES <? List.length cs)%nat eqn:Hlen;
    [discriminate|].
  apply parse_items_Forall2 in Hcs.
  unfold valid_vision. cbn [Contracts.candidates]. split.
  - rewrite <- (Forall2_length_eq _ _ _ Hcs).
    apply Nat.ltb_ge. exact Hlen.
  - eapply Forall2_right; [|exact Hcs].
    intros c d Hd. exact (CandidateSchema_sound _ _ Hd).
Qed.

(** Data the strict schema returns meet its bounds: at most
    [VISION_MAX_CANDIDATES] candidates, every confidence and every bbox
    coordinate within [0,1]. *)
Theorem VisionSchema_sound (VISION_MAX_CANDIDATES : nat) (payload : JSON)
  (data : VisionResult) :
  safeParse (VisionSchema VISION_MAX_CANDIDATES) payload = success data ->
  (List.length (Contracts.candidates data) <= VISION_MAX_CANDIDATES)%nat /\
  Forall valid_candidate (Contracts.candidates data).
Proof.
  intros H. exact (VisionSchema_bounds _ _ _ H).
Qed.

Lemma VisionSchema_sound_witness :
  let data :=
    {| request_id := "3f0c";
       Contracts.candidates :=
         [ {| raw_label := "grey trainer"; brand := None;
              Contracts.model := None; confidence := 3 # 10;
              bbox := Some {| x := 1 # 10; y := 2 # 10;
                              w := 3 # 10; h := 4 # 10 |};
              notes := Some None |} ];
       image_quality := {| lighting := lighting_good; blur := blur_none;
                           occlusion := occlusion_some |};
       errors := [] |} in
  (List.length (Contracts.candidates data) <= 8)%nat /\
  Forall valid_candidate (Contracts.candidates data).
Proof.
  apply (VisionSchema_sound 8
    (JObj [ ("request_id", JStr "3f0c");
            ("candidates",
             JArr [ JObj [ ("raw_label", JStr "grey trainer");
                           ("brand", JNull);
                           ("model", JNull);
                           ("confidence", JNum (3 # 10));
                           ("bbox", JObj [ ("x", JNum (1 # 10));
                                           ("y", JNum (2 # 10));
                                           ("w", JNum (3 # 10));
                                           ("h", JNum (4 # 10)) ]);
                           ("notes", JNull) ] ]);
            ("image_quality",
             JObj [ ("lighting", JStr "good"); ("blur", JStr "none");
                    ("occlusion", JStr "some") ]);
            ("errors", JArr []) ])).
  reflexivity.
Defined.

Lemma BBoxSchema_valid (b : BBox) :
  unit_box b -> BBoxSchema (Some (of_BBox b)) = success b.
Proof.
  intros [[Hx0 Hx1] [[Hy0 Hy1] [[Hw0 Hw1] [Hh0 Hh1]]]].
  destruct b as [bx by_ bw bh]. cbn [x y w h] in *.
  unfold BBoxSchema, z_object, of_BBox, field.
  cbn [get String.eqb Ascii.eqb Bool.eqb andb x y w h].
  rewrite (number_between 0 1 bx Hx0 Hx1), (number_between 0 1 by_ Hy0 Hy1),
          (number_between 0 1 bw Hw0 Hw1), (number_between 0 1 bh Hh0 Hh1).
  reflexivity.
Qed.

Lemma CandidateSchema_valid (c : VisionCandidate) :
  valid_candidate c ->
  CandidateSchema (Some (of_VisionCandidate c)) = success c.
Proof.
  intros [[Hc0 Hc1] Hb].
  destruct c as [lb br md cf bb nt]. cbn [confidence bbox] in *.
  unfold CandidateSchema, z_object, of_VisionCandidate, field.
  cbn [raw_label brand Contracts.model confidence bbox notes app].
  assert (B : (nullable BBoxSchema) (Some (or_null of_BBox bb)) = success bb).
  { destruct bb as [b|]; [|reflexivity].
    cbn [or_null nullable of_BBox]. fold (of_BBox b).
    rewrite (BBoxSchema_valid b Hb). reflexivity. }
  destruct nt as [[n|]|];
    cbn [get String.eqb Ascii.eqb Bool.eqb andb];
    rewrite (number_between 0 1 cf Hc0 Hc1), B;
    destruct br, md; reflexivity.
Qed.

Lemma ImageQualitySchema_valid (q : ImageQuality) :
  ImageQualitySchema (Some (of_ImageQuality q)) = success q.
Proof. destruct q as [[] [] []]; reflexivity. Qed.

Lemma VisionSchema_accepts (VISION_MAX_CANDIDATES : nat)
  (v : VisionResult) :
  valid_vision VISION_MAX_CANDIDATES v ->
  safeParse (VisionSchema VISION_MAX_CANDIDATES) (of_VisionResult v)
  = success v.
Proof.
  intros [Hlen Hcs]. destruct v as [rid cs iq errs].
  cbn [Contracts.candidates] in *.
  unfold safeParse, VisionSchema, z_object, of_VisionResult, field.
  cbn [get String.eqb Ascii.eqb Bool.eqb andb request_id
       Contracts.candidates image_quality errors].
  rewrite ImageQualitySchema_valid.
  unfold parse_array. rewrite length_issues_max, length_map.
  rewrite (length_ltb_false _ _ Hlen).
  cbn [element array_max z_array min_length max_length length_issues app].
  rewrite (parse_items_map CandidateSchema of_VisionCandidate cs),
          (parse_items_map ErrorEntrySchema of_ErrorEntry errs).
  - reflexivity.
  - apply Forall_forall. intros e _. apply ErrorEntrySchema_valid.
  - eapply Forall_impl; [|exact Hcs]. apply CandidateSchema_valid.
Qed.

Definition sample_vision : VisionResult :=
  {| request_id := "3f0c";
     Contracts.candidates :=
       [ {| raw_label := "grey trainer"; brand := None;
            Contracts.model := None; confidence := 3 # 10;
            bbox := Some {| x := 95 # 100; y := 2 # 10;
                            w := 3 # 10; h := 4 # 10 |};
            notes := Some None |};
         {| raw_label := "Nike Pegasus 40"; brand := Some "Nike";
            Contracts.model := Some "Pegasus 40"; confidence := 8 # 10;
            bbox := None; notes := None |} ];
     image_quality := {| lighting := lighting_good; blur := blur_none;
                         occlusion := occlusion_some |};
     errors := [] |}.

(** Round trip: a value within the schema's bounds (at most
    [VISION_MAX_CANDIDATES] candidates, confidences and bbox coordinates in
    [0,1]), written as a run-time object, validates and comes back
    unchanged. *)
Theorem VisionSchema_round_trip (VISION_MAX_CANDIDATES : nat)
  (v : VisionResult) :
  (List.length (Contracts.candidates v) <= VISION_MAX_CANDIDATES)%nat ->
  Forall valid_candidate (Contracts.candidates v) ->
  safeParse (VisionSchema VISION_MAX_CANDIDATES) (of_VisionResult v)
  = success v.
Proof.
  intros Hlen Hcs. apply VisionSchema_accepts. split; assumption.
Qed.

Lemma VisionSchema_round_trip_witness :
  safeParse (VisionSchema 8) (of_VisionResult sample_vision)
  = success sample_vision.
Proof.
  apply (VisionSchema_round_trip 8 sample_vision).
  - cbn; lia.
  - repeat constructor; cbn; discriminate.
Defined.

Lemma in_range_unit_box (b : BBox) : bbox_in_range b -> unit_box b.
Proof.
  unfold bbox_in_range, unit_box.
  intros [Hx [Hy [[Hw0 Hw1] [Hh0 Hh1]]]].
  repeat split; try tauto; lra.
Qed.

Lemma normalize_valid_candidate (c : VisionCandidate) :
  valid_candidate c ->
  valid_candidate (with_bbox c (normalizeBbox (bbox c))).
Proof.
  intros [Hc _]. split; [exact Hc|]. cbn [bbox with_bbox].
  destruct (bbox c) as [b|]; [|exact I].
  rewrite normalizeBbox_Some. apply in_range_unit_box, normalized_in_range.
Qed.

(** The result of [normalizeVisionResult] on data the schema accepted is
    itself accepted by the schema: what [runVision] returns on success
    conforms to the Detection Schema. *)
Theorem normalizeVisionResult_revalidates (VISION_MAX_CANDIDATES : nat)
  (payload : JSON) (data : VisionResult) :
  safeParse (VisionSchema VISION_MAX_CANDIDATES) payload = success data ->
  safeParse (VisionSchema VISION_MAX_CANDIDATES)
    (of_VisionResult (normalizeVisionResult data))
  = success (normalizeVisionResult data).
Proof.
  intros H. apply VisionSchema_bounds in H. destruct H as [Hlen Hcs].
  apply VisionSchema_accepts. split.
  - unfold normalizeVisionResult. cbn [Contracts.candidates].
    rewrite length_map. exact Hlen.
  - unfold normalizeVisionResult. cbn [Contracts.candidates].
    apply Forall_map. eapply Forall_impl; [|exact Hcs].
    apply normalize_valid_candidate.
Qed.

Lemma normalizeVisionResult_revalidates_witness :
  safeParse (VisionSchema 8)
    (of_VisionResult (normalizeVisionResult sample_vision))
  = success (normalizeVisionResult sample_vision).
Proof.
  apply (normalizeVisionResult_revalidates 8 (of_VisionResult sample_vision)
           sample_vision).
  vm_compute. reflexivity.
Defined.

End VisionSchemaProps.

(* ------------------------------------------------------------------ *)
(** ** The Ranking Schema on typed values *)

Module RankingSchemaProps.
Import Js Json Zod Contracts Runtime Openai SchemaProps PatchProps.
Import VisionSchemaProps.

#[local] Arguments Number_isInteger : simpl never.
#[local] Arguments Qle_bool : simpl never.

Lemma parse_array_inv {A} (s : ZodArray A) (v : option JSON) (l : list A) :
  parse_array s v = success l ->
  exists items,
    v = Some (JArr items) /\
    length_issues s (List.length items) = [] /\
    List.length l = List.length items.
Proof.
  destruct v as [[| | | |items|]|]; try discriminate.
  unfold parse_array.
  destruct (length_issues s (List.length items)) eqn:E; [|discriminate].
  intros H. exists items.
  split; [reflexivity|]. split; [exact E|].
  apply parse_items_Forall2 in H.
  symmetry. exact (Forall2_length_eq _ _ _ H).
Qed.

Lemma parse_array_items {A} (s : ZodArray A) (items : list JSON)
  (l : list A) :
  parse_array s (Some (JArr items)) = success l ->
  Forall2 (fun c d => element s (Some c) = success d) items l.
Proof.
  unfold parse_array.
  destruct (length_issues s (List.length items)); [|discriminate].
  apply parse_items_Forall2.
Qed.

Lemma max_length_inv {A} (p : Schema A) (n : nat) (v : option JSON)
  (l : list A) :
  parse_array (array_max (z_array p) n) v = success l ->
  (List.length l <= n)%nat.
Proof.
  intros H. apply parse_array_inv in H.
  destruct H as [items [_ [Hlen ->]]].
  rewrite length_issues_max in Hlen.
  destruct (n <? List.length items)%nat eqn:E; [discriminate|].
  apply Nat.ltb_ge. exact E.
Qed.

Lemma min_max_length_inv {A} (p : Schema A) (lo hi : nat)
  (v : option JSON) (l : list A) :
  parse_array (array_max (array_min (z_array p) lo) hi) v = success l ->
  (lo <= List.length l <= hi)%nat.
Proof.
  intros H. apply parse_array_inv in H.
  destruct H as [items [_ [Hlen ->]]].
  unfold length_issues in Hlen.
  cbn [min_length max_length array_max array_min z_array] in Hlen.
  destruct (List.length items <? lo)%nat eqn:E1; [discriminate|].
  destruct (hi <? List.length items)%nat eqn:E2; [discriminate|].
  apply Nat.ltb_ge in E1. apply Nat.ltb_ge in E2. lia.
Qed.

Lemma mileage_inv (v : option JSON) (m : Q) :
  parse_number (min (int z_number) 0) v = success m ->
  Number_isInteger m = true /\ 0 <= m.
Proof.
  destruct v as [[| |n| | |]|]; try discriminate.
  unfold parse_number, min, int, z_number.
  cbn [number_checks app flat_map run_check].
  destruct (Number_isInteger n) eqn:E1, (Qle_bool 0 n) eqn:E2;
    try discriminate.
  intros [= <-]. split; [exact E1 | apply Qle_bool_iff; exact E2].
Qed.

Lemma ProfileSchema_sound (v : option JSON) (p : Profile) :
  ProfileSchema v = success p -> valid_profile p.
Proof.
  destruct v as [[| | | | |o]|]; try discriminate.
  unfold ProfileSchema, z_object. intros H.
  apply ap_success in H. destruct H as [f2 [m [H [Hm ->]]]].
  apply ap_success in H. destruct H as [f1 [u [H [_ ->]]]].
  apply fmap_success in H. destruct H as [a [_ ->]].
  apply under_success in Hm. exact (mileage_inv _ _ Hm).
Qed.

Lemma RankedSchema_sound (v : option JSON) (r : RankedRecommendation) :
  RankedSchema v = success r -> valid_ranked r.
Proof.
  destruct v as [[| | | | |o]|]; try discriminate.
  unfold RankedSchema, z_object. intros H.
  apply ap_success in H. destruct H as [f5 [c [H [Hc ->]]]].
  apply ap_success in H. destruct H as [f4 [tr [H [Ht ->]]]].
  apply ap_success in H. destruct H as [f3 [sp [H [_ ->]]]].
  apply ap_success in H. destruct H as [f2 [wy [H [Hw ->]]]].
  apply ap_success in H. destruct H as [f1 [sc [H [Hs ->]]]].
  apply fmap_success in H. destruct H as [md [_ ->]].
  unfold valid_ranked. cbn [match_score why tradeoffs rec_confidence].
  apply under_success in Hw. apply under_success in Ht.
  split; [eapply field_number_inv; eassumption|].
  split; [exact (min_max_length_inv _ _ _ _ _ Hw)|].
  split; [exact (max_length_inv _ _ _ _ Ht)|].
  eapply field_number_inv; eassumption.
Qed.

Lemma AvoidSchema_sound (v : option JSON) (a : AvoidEntry) :
  AvoidSchema v = success a -> valid_avoid a.
Proof.
  destruct v as [[| | | | |o]|]; try discriminate.
  unfold AvoidSchema, z_object. intros H.
  apply ap_success in H. destruct H as [f2 [c [H [Hc ->]]]].
  apply ap_success in H. destruct H as [f1 [rs [H [_ ->]]]].
  apply fmap_success in H. destruct H as [md [_ ->]].
  unfold valid_avoid. cbn [avoid_confidence].
  eapply field_number_inv; eassumption.
Qed.

Lemma array_items_sound {A} (p : Schema A) (P : A -> Prop) (n : nat)
  (v : option JSON) (l : list A) :
  (forall c d, p c = success d -> P d) ->
  parse_array (array_max (z_array p) n) v = success l ->
  Forall P l.
Proof.
  intros HP H. destruct (parse_array_inv _ _ _ H) as [items [-> _]].
  apply parse_array_items in H. cbn [element array_max z_array] in H.
  eapply Forall2_right; [|exact H]. intros c d. apply HP.
Qed.

(** Data the Ranking Schema returns meet its bounds: an integer mileage of
    at least 0, at most 5 ranked and 5 avoided entries, every score in
    [0,100], every confidence in [0,1], 1 to 6 reasons and at most 6
    tradeoffs per recommendation. *)
Theorem RankingSchema_sound (payload : JSON) (r : RecommendationsResult) :
  safeParse RankingSchema payload = success r ->
  valid_profile (profile_used r) /\
  (List.length (ranked r) <= 5)%nat /\ Forall valid_ranked (ranked r) /\
  (List.length (avoid r) <= 5)%nat /\ Forall valid_avoid (avoid r).
Proof.
  unfold safeParse. intros H.
  destruct payload as [| | | | |o]; try discriminate.
  unfold RankingSchema, z_object in H.
  apply ap_success in H. destruct H as [f5 [errs [H [_ ->]]]].
  apply ap_success in H. destruct H as [f4 [fb [H [_ ->]]]].
  apply ap_success in H. destruct H as [f3 [av [H [Ha ->]]]].
  apply ap_success in H. destruct H as [f2 [rk [H [Hr ->]]]].
  apply ap_success in H. destruct H as [f1 [p [H [Hp ->]]]].
  apply fmap_success in H. destruct H as [rid [_ ->]].
  cbn [profile_used ranked avoid].
  apply under_success in Ha, Hr, Hp.
  split; [exact (ProfileSchema_sound _ _ Hp)|].
  split; [exact (max_length_inv _ _ _ _ Hr)|].
  split; [exact (array_items_sound _ _ _ _ _ RankedSchema_sound Hr)|].
  split; [exact (max_length_inv _ _ _ _ Ha)|].
  exact (array_items_sound _ _ _ _ _ AvoidSchema_sound Ha).
Qed.

Definition sample_recommendations : RecommendationsResult :=
  {| rr_request_id := "3f0c";
     profile_used := {| arch_type := flat; usage := trail;
                        weekly_mileage := 35 |};
     ranked :=
       [ {| rec_model := "Brooks Cascadia 17";
            match_score := 88;
            why := ["Stable on trail"];
            specs := {| terrain := Some "trail"; stability := Some "stable";
                        drop_mm := Some 8; weight_g := None;
                        cushion := None |};
            tradeoffs := [];
            rec_confidence := 7 # 10 |} ];
     avoid := [ {| avoid_model := "Hoka Clifton 9";
                   reason := "Road shoe";
                   avoid_confidence := 1 # 2 |} ];
     fallback_needed := false;
     rr_errors := [] |}.

Lemma RankingSchema_sound_witness :
  valid_profile (profile_used sample_recommendations) /\
  (List.length (ranked sample_recommendations) <= 5)%nat /\
  Forall valid_ranked (ranked sample_recommendations) /\
  (List.length (avoid sample_recommendations) <= 5)%nat /\
  Forall valid_avoid (avoid sample_recommendations).
Proof.
  apply (RankingSchema_sound
           (of_RecommendationsResult sample_recommendations)
           sample_recommendations).
  vm_compute. reflexivity.
Defined.

(** Round trip: a result within the Ranking Schema's bounds, written as a
    run-time object, validates and comes back unchanged. *)
Theorem RankingSchema_round_trip (r : RecommendationsResult) :
  valid_profile (profile_used r) ->
  (List.length (ranked r) <= 5)%nat -> Forall valid_ranked (ranked r) ->
  (List.length (avoid r) <= 5)%nat -> Forall valid_avoid (avoid r) ->
  safeParse RankingSchema (of_RecommendationsResult r) = success r.
Proof.
  intros Hp Hr5 Hr Ha5 Ha. apply RankingSchema_valid; assumption.
Qed.

Lemma RankingSchema_round_trip_witness :
  safeParse RankingSchema (of_RecommendationsResult sample_recommendations)
  = success sample_recommendations.
Proof.
  apply (RankingSchema_round_trip sample_recommendations).
  - split; [reflexivity | discriminate].
  - cbn; lia.
  - repeat constructor; cbn; try discriminate; lia.
  - cbn; lia.
  - repeat constructor; cbn; discriminate.
Defined.

End RankingSchemaProps.

(* ------------------------------------------------------------------ *)
(** ** More on the patch step *)

Module PatchMore.
Import Js Json Zod Contracts Runtime Openai PatchProps.

Lemma set_set (props : list (string * JSON)) (k : string) (v v' : JSON) :
  set (set props k v) k v' = set props k v'.
Proof.
  induction props as [|[k0 v0] props IH]; cbn [set].
  - rewrite String.eqb_refl. reflexivity.
  - destruct (String.eqb k0 k) eqn:E; cbn [set]; rewrite E;
      [reflexivity | rewrite IH; reflexivity].
Qed.

Lemma set_get (props : list (string * JSON)) (k : string) (v : JSON) :
  get props k = Some v -> set props k v = props.
Proof.
  induction props as [|[k0 v0] props IH]; cbn [get set]; [discriminate|].
  destruct (String.eqb k0 k) eqn:E.
  - intros [= ->]. reflexivity.
  - intros H. rewrite (IH H). reflexivity.
Qed.

(** [v ?? null]. *)
Definition or_JNull (v : option JSON) : JSON :=
  match v with
  | Some JNull | None => JNull
  | Some v => v
  end.

Lemma or_JNull_Some (v : JSON) : or_JNull (Some v) = v.
Proof. destruct v; reflexivity. Qed.

Lemma patchCandidate_primitive (c : JSON) :
  typeof_object c = false -> patchCandidate c = c.
Proof.
  intros H. unfold patchCandidate. rewrite H. cbn [negb].
  rewrite orb_true_r. reflexivity.
Qed.

Lemma patchVisionPayload_primitive (raw : JSON) :
  typeof_object raw = false -> patchVisionPayload raw = raw.
Proof.
  intros H. unfold patchVisionPayload. rewrite H. cbn [negb].
  rewrite orb_true_r. reflexivity.
Qed.

Lemma patchCandidate_idempotent (c : JSON) :
  patchCandidate (patchCandidate c) = patchCandidate c.
Proof.
  destruct c as [| b | n | s | l | p];
    try match goal with
        | |- patchCandidate (patchCandidate ?c) = _ =>
            rewrite !(patchCandidate_primitive c) by reflexivity;
            reflexivity
        end.
  - reflexivity.
  - change (patchCandidate (JArr l))
      with (JObj (set (indexed 0 l) "bbox" JNull)).
    rewrite patchCandidate_object, get_set_same, set_set. reflexivity.
  - rewrite !patchCandidate_object.
    fold (or_JNull (get p "bbox")).
    rewrite get_set_same.
    fold (or_JNull (Some (or_JNull (get p "bbox")))).
    rewrite or_JNull_Some, set_set. reflexivity.
Qed.

Lemma patchVisionPayload_array (l : list JSON) :
  patchVisionPayload (JArr l) = patchVisionPayload (JObj (indexed 0 l)).
Proof. reflexivity. Qed.

Lemma patchVisionPayload_other (props : list (string * JSON)) :
  (forall cs, get props "candidates" <> Some (JArr cs)) ->
  patchVisionPayload (JObj props) = JObj props.
Proof.
  intros H. unfold patchVisionPayload.
  cbn [falsy typeof_object orb negb spread].
  destruct (get props "candidates") as [[| | | |cs|]|]; try reflexivity.
  exfalso. exact (H cs eq_refl).
Qed.

Lemma patchVisionPayload_object_idempotent (props : list (string * JSON)) :
  patchVisionPayload (patchVisionPayload (JObj props))
  = patchVisionPayload (JObj props).
Proof.
  destruct (get props "candidates") as [[| | | |cs|]|] eqn:E.
  5: { rewrite (patchVisionPayload_object props cs E).
       rewrite (patchVisionPayload_object _ (map patchCandidate cs))
         by apply get_set_same.
       rewrite set_set, map_map.
       do 3 f_equal. apply map_ext. intros c.
       apply patchCandidate_idempotent. }
  all: rewrite !patchVisionPayload_other; try reflexivity;
    intros cs; rewrite E; discriminate.
Qed.

(** Patching twice is patching once, for every JSON value. *)
Theorem patchVisionPayload_idempotent (raw : JSON) :
  patchVisionPayload (patchVisionPayload raw) = patchVisionPayload raw.
Proof.
  destruct raw as [| b | n | s | l | p];
    try match goal with
        | |- patchVisionPayload (patchVisionPayload ?c) = _ =>
            rewrite !(patchVisionPayload_primitive c) by reflexivity;
            reflexivity
        end.
  - reflexivity.
  - rewrite patchVisionPayload_array.
    apply patchVisionPayload_object_idempotent.
  - apply patchVisionPayload_object_idempotent.
Qed.

(** An array index never prints as a key that starts with a letter. *)
Lemma String_of_nat_head (n : nat) (a : ascii) (r : string) :
  (nat_of_ascii a < 48 \/ 57 < nat_of_ascii a)%nat ->
  String_of_nat n <> String a r.
Proof.
  intros H E. unfold String_of_nat, NilZero.string_of_uint in E.
  destruct (Nat.to_uint n); cbn [NilEmpty.string_of_uint] in E;
    injection E as <- _; cbn in H; lia.
Qed.

Lemma get_indexed (l : list JSON) (a : ascii) (r : string) :
  (nat_of_ascii a < 48 \/ 57 < nat_of_ascii a)%nat ->
  forall i, get (indexed i l) (String a r) = None.
Proof.
  intros H. induction l as [|v l IH]; intros i; cbn [indexed get];
    [reflexivity|].
  destruct (String.eqb (String_of_nat i) (String a r)) eqn:E; [|apply IH].
  apply String.eqb_eq in E. exfalso.
  exact (String_of_nat_head i a r H E).
Qed.

Lemma CandidateSchema_label (props : list (string * JSON))
  (d : VisionCandidate) :
  CandidateSchema (Some (JObj props)) = success d ->
  exists s, get props "raw_label" = Some (JStr s).
Proof.
  unfold CandidateSchema, z_object. intros H.
  apply ap_success in H. destruct H as [f5 [nt [H [_ ->]]]].
  apply ap_success in H. destruct H as [f4 [bb [H [_ ->]]]].
  apply ap_success in H. destruct H as [f3 [cf [H [_ ->]]]].
  apply ap_success in H. destruct H as [f2 [md [H [_ ->]]]].
  apply ap_success in H. destruct H as [f1 [br [H [_ ->]]]].
  apply fmap_success in H. destruct H as [lb [H ->]].
  apply under_success in H.
  destruct (get props "raw_label") as [[| | |s| |]|]; try discriminate.
  eexists. reflexivity.
Qed.

Lemma CandidateSchema_has_bbox (props : list (string * JSON))
  (d : VisionCandidate) :
  CandidateSchema (Some (JObj props)) = success d ->
  exists v, get props "bbox" = Some v.
Proof.
  unfold CandidateSchema, z_object. intros H.
  apply ap_success in H. destruct H as [f5 [nt [H [_ ->]]]].
  apply ap_success in H. destruct H as [f4 [bb [H [Hb ->]]]].
  apply under_success in Hb.
  destruct (get props "bbox") as [v|]; [eexists; reflexivity|].
  discriminate.
Qed.

(** Strict validation of a patched candidate succeeds only if the
    candidate passes with the key optional. *)
Lemma CandidateSchema_unpatched (c : JSON) (d : VisionCandidate) :
  CandidateSchema (Some (patchCandidate c)) = success d ->
  CandidateSchema_bbox_optional (Some c) = success d.
Proof.
  destruct c as [| b | n | s | l | p];
    try (rewrite patchCandidate_primitive by reflexivity; discriminate).
  - discriminate.
  - change (patchCandidate (JArr l))
      with (JObj (set (indexed 0 l) "bbox" JNull)).
    intros H. apply CandidateSchema_label in H. destruct H as [s H].
    rewrite get_set_other in H by discriminate.
    rewrite get_indexed in H by (cbn; lia). discriminate.
  - rewrite CandidateSchema_patched. auto.
Qed.

Lemma parse_items_unpatched (cs : list JSON) :
  forall (i : nat) (ds : list VisionCandidate),
    parse_items CandidateSchema i (map patchCandidate cs) = success ds ->
    parse_items CandidateSchema_bbox_optional i cs = success ds.
Proof.
  induction cs as [|c cs IH]; intros i ds H; [exact H|].
  cbn [map parse_items] in *.
  apply ap_success in H. destruct H as [f [tl [Hf [Htl ->]]]].
  apply fmap_success in Hf. destruct Hf as [d [Hd ->]].
  apply under_success in Hd.
  rewrite (CandidateSchema_unpatched _ _ Hd), (IH _ _ Htl). reflexivity.
Qed.

Lemma VisionSchema_request_id (VISION_MAX_CANDIDATES : nat)
  (props : list (string * JSON)) (d : VisionResult) :
  VisionSchema VISION_MAX_CANDIDATES (Some (JObj props)) = success d ->
  exists s, get props "request_id" = Some (JStr s).
Proof.
  unfold VisionSchema, z_object. intros H.
  apply ap_success in H. destruct H as [f3 [errs [H [_ ->]]]].
  apply ap_success in H. destruct H as [f2 [iq [H [_ ->]]]].
  apply ap_success in H. destruct H as [f1 [ds [H [_ ->]]]].
  apply fmap_success in H. destruct H as [rid [H ->]].
  apply under_success in H.
  destruct (get props "request_id") as [[| | |s| |]|]; try discriminate.
  eexists. reflexivity.
Qed.

Lemma VisionSchema_candidates (VISION_MAX_CANDIDATES : nat)
  (props : list (string * JSON)) (d : VisionResult) :
  VisionSchema VISION_MAX_CANDIDATES (Some (JObj props)) = success d ->
  exists cs,
    get props "candidates" = Some (JArr cs) /\
    Forall2 (fun c d => CandidateSchema (Some c) = success d)
      cs (Contracts.candidates d).
Proof.
  unfold VisionSchema, z_object. intros H.
  apply ap_success in H. destruct H as [f3 [errs [H [_ ->]]]].
  apply ap_success in H. destruct H as [f2 [iq [H [_ ->]]]].
  apply ap_success in H. destruct H as [f1 [ds [H [Hcs ->]]]].
  apply fmap_success in H. destruct H as [rid [_ ->]].
  apply under_success in Hcs.
  destruct (get props "candidates") as [[| | | |cs|]|]; try discriminate.
  exists cs. split; [reflexivity|]. cbn [Contracts.candidates].
  unfold parse_array in Hcs.
  destruct (length_issues _ _); [|discriminate].
  exact (parse_items_Forall2 _ _ _ _ Hcs).
Qed.

Lemma patchVisionPayload_object_cases (props : list (string * JSON)) :
  (exists cs,
     get props "candidates" = Some (JArr cs) /\
     patchVisionPayload (JObj props)
     = JObj (set props "candidates" (JArr (map patchCandidate cs)))) \/
  ((forall cs, get props "candidates" <> Some (JArr cs)) /\
   patchVisionPayload (JObj props) = JObj props).
Proof.
  destruct (get props "candidates") as [[| | | |cs|]|] eqn:E.
  5: { left. exists cs. split; [reflexivity|].
       apply patchVisionPayload_object, E. }
  all: right; split; [intros cs; discriminate|];
    apply patchVisionPayload_other; intros cs; rewrite E; discriminate.
Qed.

(** The patch admits nothing else: if the patched payload passes the strict
    schema, the payload itself passes the schema with [bbox] optional, with
    the same data. *)
Theorem patched_validation_exact (VISION_MAX_CANDIDATES : nat)
  (payload : JSON) (data : VisionResult) :
  safeParse (VisionSchema VISION_MAX_CANDIDATES) (patchVisionPayload payload)
    = success data ->
  safeParse (VisionSchema_bbox_optional VISION_MAX_CANDIDATES) payload
    = success data.
Proof.
  unfold safeParse. intros H.
  destruct payload as [| b | n | s | l | props];
    try (rewrite patchVisionPayload_primitive in H by reflexivity;
         discriminate).
  - discriminate.
  - rewrite patchVisionPayload_array in H. exfalso.
    destruct (patchVisionPayload_object_cases (indexed 0 l))
      as [[cs [_ E]] | [_ E]]; rewrite E in H;
      apply VisionSchema_request_id in H; destruct H as [s H];
      try rewrite get_set_other in H by discriminate;
      rewrite get_indexed in H by (cbn; lia); discriminate.
  - destruct (patchVisionPayload_object_cases props)
      as [[cs [G E]] | [G E]]; rewrite E in H.
    + unfold VisionSchema, z_object in H.
      rewrite field_set_same, !field_set_other in H by discriminate.
      apply ap_success in H. destruct H as [f3 [errs [H [Herrs ->]]]].
      apply ap_success in H. destruct H as [f2 [iq [H [Hiq ->]]]].
      apply ap_success in H. destruct H as [f1 [ds [H [Hcs ->]]]].
      apply fmap_success in H. destruct H as [rid [Hrid ->]].
      apply under_success in Hcs. unfold parse_array in Hcs.
      rewrite length_issues_max, length_map in Hcs.
      cbn [element array_max z_array] in Hcs.
      destruct (VISION_MAX_CANDIDATES <? List.length cs)%nat eqn:Hlen;
        [discriminate|].
      apply parse_items_unpatched in Hcs.
      unfold VisionSchema_bbox_optional, z_object.
      rewrite Hrid, Hiq, Herrs. unfold field at 1. rewrite G.
      unfold parse_array. rewrite length_issues_max, Hlen.
      cbn [element array_max z_array]. rewrite Hcs. reflexivity.
    + exfalso. apply VisionSchema_candidates in H.
      destruct H as [cs [H _]]. exact (G cs H).
Qed.

Lemma patched_validation_exact_witness :
  exists data,
    safeParse (VisionSchema_bbox_optional 8) sample_payload = success data.
Proof.
  eexists.
  apply (patched_validation_exact 8 sample_payload). reflexivity.
Defined.

Lemma patchCandidate_valid (c : JSON) (d : VisionCandidate) :
  CandidateSchema (Some c) = success d -> patchCandidate c = c.
Proof.
  destruct c as [| | | | |props]; try discriminate.
  intros H. apply CandidateSchema_has_bbox in H. destruct H as [v H].
  rewrite patchCandidate_object. fold (or_JNull (get props "bbox")).
  rewrite H, or_JNull_Some, (set_get _ _ _ H). reflexivity.
Qed.

(** A payload that already passes the strict schema is left exactly as it
    is by the patch. *)
Theorem patchVisionPayload_valid_unchanged (VISION_MAX_CANDIDATES : nat)
  (payload : JSON) (data : VisionResult) :
  safeParse (VisionSchema VISION_MAX_CANDIDATES) payload = success data ->
  patchVisionPayload payload = payload.
Proof.
  unfold safeParse. intros H.
  destruct payload as [| | | | |props]; try discriminate.
  apply VisionSchema_candidates in H. destruct H as [cs [G F]].
  rewrite (patchVisionPayload_object props cs G).
  assert (M : map patchCandidate cs = cs).
  { clear G. induction F as [|c d cs ds Hc _ IH]; [reflexivity|].
    cbn [map]. rewrite (patchCandidate_valid c d Hc), IH. reflexivity. }
  rewrite M, (set_get _ _ _ G). reflexivity.
Qed.

Lemma patchVisionPayload_valid_unchanged_witness :
  patchVisionPayload (VisionSchemaProps.of_VisionResult
                        VisionSchemaProps.sample_vision)
  = VisionSchemaProps.of_VisionResult VisionSchemaProps.sample_vision.
Proof.
  apply (patchVisionPayload_valid_unchanged 8
           (VisionSchemaProps.of_VisionResult VisionSchemaProps.sample_vision)
           VisionSchemaProps.sample_vision).
  vm_compute. reflexivity.
Defined.

End PatchMore.

(* ------------------------------------------------------------------ *)
(** ** More on the stages *)

Module StageMore.
Import Js Json Zod Contracts Runtime Openai SchemaProps RankingProps.
Import MockRankingProps GeometryProps GeometryMore VisionSchemaProps.

#[local] Arguments Number_isInteger : simpl never.
#[local] Arguments Qle_bool : simpl never.

(** [MOCK || !openai]. *)
Definition mocked (MOCK : bool) (openai : option OpenAI) : bool :=
  MOCK || match openai with
          | None => true
          | Some _ => false
          end.

(** A candidate as [runVision] hands it on: confidence within [0,1] and,
    when localized, a normalised box. *)
Definition candidate_normalized (c : VisionCandidate) : Prop :=
  (0 <= confidence c /\ confidence c <= 1) /\
  match bbox c with
  | Some b => bbox_in_range b
  | None => True
  end.

Lemma normalize_candidate (c : VisionCandidate) :
  valid_candidate c ->
  candidate_normalized (with_bbox c (normalizeBbox (bbox c))).
Proof.
  intros [Hc _]. split; [exact Hc|]. cbn [bbox with_bbox].
  destruct (bbox c) as [b|]; [|exact I].
  rewrite normalizeBbox_Some. apply normalized_in_range.
Qed.

Lemma mock_candidates_normalized (uuid : string) :
  Forall candidate_normalized (Contracts.candidates (mockVisionResult uuid)).
Proof.
  repeat constructor; cbn; discriminate.
Qed.

Section Stages.

Variable MOCK_VISION : bool.
Variable MOCK_RANKING : bool.
Variable VISION_MAX_CANDIDATES : nat.
Variable openai : option OpenAI.
Variable model : string.
Variable JSON_parse : string -> Outcome JSON.
Variable ZodError_message : list ZodIssue -> string.

Local Abbreviation vision :=
  (runVision MOCK_VISION VISION_MAX_CANDIDATES openai model JSON_parse
     ZodError_message).
Local Abbreviation ranking := (runRanking MOCK_RANKING openai ZodError_message).

(** [runVision] calls the upstream model at most once, whatever the
    upstream answers: never in mock mode, and otherwise once, with the
    configured model, the prompt, the image as a base64 data URL and detail
    [high]. *)
Theorem runVision_calls_upstream_once
  (upstream : ResponsesCreate -> Outcome Response)
  (uuid : string) (image : VisionArgs) :
  calls upstream (vision uuid image)
  = if mocked MOCK_VISION openai then []
    else [ {| create_model := model;
              input_text := prompt VISION_MAX_CANDIDATES uuid;
              input_image_url :=
                "data:" +++ mimeType image +++ ";base64,"
                +++ Buffer_toString_base64 (buffer image);
              input_image_detail := "high" |} ].
Proof.
  unfold runVision, mocked.
  destruct MOCK_VISION, openai; reflexivity.
Qed.

(** Whatever the upstream answers, every candidate [runVision] returns has
    a confidence within [0,1] and, when it has a bbox, one with [x], [y] in
    [0,1] and [w], [h] in [0.01, 1]; there are exactly three candidates
    in mock mode and at most [VISION_MAX_CANDIDATES] otherwise. *)
Theorem runVision_candidates_bounded
  (upstream : ResponsesCreate -> Outcome Response)
  (uuid : string) (image : VisionArgs) :
  exists v,
    settle upstream (vision uuid image) = Returned v /\
    Forall candidate_normalized (Contracts.candidates v) /\
    if mocked MOCK_VISION openai
    then List.length (Contracts.candidates v) = 3%nat
    else (List.length (Contracts.candidates v) <= VISION_MAX_CANDIDATES)%nat.
Proof.
  unfold runVision, mocked.
  destruct MOCK_VISION, openai as [client|];
    try (eexists; split; [reflexivity|]; split;
         [apply mock_candidates_normalized | reflexivity]).
  cbn [settle orb].
  destruct (upstream _) as [resp | e]; cbn [bind try_catch].
  2: { eexists. split; [reflexivity|]. split; [constructor | cbn; lia]. }
  unfold visionFromResponse.
  destruct (safeParseJsonFromModel JSON_parse (output_text resp))
    as [json | e]; cbn [bind try_catch].
  2: { eexists. split; [reflexivity|]. split; [constructor | cbn; lia]. }
  destruct (safeParse _ _) as [data | issues] eqn:E; cbn [try_catch].
  2: { eexists. split; [reflexivity|]. split; [constructor | cbn; lia]. }
  apply VisionSchema_bounds in E. destruct E as [Hlen Hcs].
  eexists. split; [reflexivity|].
  unfold normalizeVisionResult. cbn [Contracts.candidates]. split.
  - apply Forall_map. eapply Forall_impl; [|exact Hcs].
    apply normalize_candidate.
  - rewrite length_map. exact Hlen.
Qed.

(** [runRanking] never calls the upstream model, in any mode and for any
    input. *)
Theorem runRanking_never_calls_upstream
  (upstream : ResponsesCreate -> Outcome Response) (args : RankingArgs) :
  calls upstream (ranking args) = [].
Proof.
  unfold runRanking.
  destruct (visionFailed args); [reflexivity|].
  destruct MOCK_RANKING, openai; try reflexivity;
    destruct (safeParse RankingSchema _); reflexivity.
Qed.

(** In every mode and for every input, the result of [runRanking] echoes
    the request id and the profile, has no [avoid] entries and at most
    three [ranked] ones, has [fallback_needed] set exactly when [ranked] is
    empty, and carries an error only together with [fallback_needed]. *)
Theorem runRanking_result_invariant (args : RankingArgs) :
  exists r,
    ranking args = Done (Returned r) /\
    rr_request_id r = requestId args /\
    profile_used r = profile args /\
    avoid r = [] /\
    (List.length (ranked r) <= 3)%nat /\
    (fallback_needed r = true <-> ranked r = []) /\
    (rr_errors r <> [] -> fallback_needed r = true).
Proof.
  assert (F : forall e,
    let r := fallbackResult args e in
    rr_request_id r = requestId args /\
    profile_used r = profile args /\
    avoid r = [] /\
    (List.length (ranked r) <= 3)%nat /\
    (fallback_needed r = true <-> ranked r = []) /\
    (rr_errors r <> [] -> fallback_needed r = true)).
  { intros e. cbn. repeat split; auto with arith. }
  assert (M :
    let r := mockResult args in
    rr_request_id r = requestId args /\
    profile_used r = profile args /\
    avoid r = [] /\
    (List.length (ranked r) <= 3)%nat /\
    (fallback_needed r = true <-> ranked r = []) /\
    (rr_errors r <> [] -> fallback_needed r = true)).
  { cbn [mockResult rr_request_id profile_used avoid ranked fallback_needed
         rr_errors].
    split; [reflexivity|]. split; [reflexivity|]. split; [reflexivity|].
    split; [apply mockRanked_length|]. split; [|intros H; contradiction].
    destruct (mockRanked args); cbn; split; auto; discriminate. }
  unfold runRanking. fold (mockResult args).
  destruct (visionFailed args); [eexists; split; [reflexivity | apply F]|].
  destruct MOCK_RANKING, openai;
    try (eexists; split; [reflexivity | apply F]);
    destruct (safeParse RankingSchema _);
    eexists; (split; [reflexivity|]); first [apply M | apply F].
Qed.

End Stages.

End StageMore.

(* ------------------------------------------------------------------ *)
(** ** More on mock-mode ranking *)

Module RankingMore.
Import Js Json Zod Contracts Runtime Openai SchemaProps RankingProps.
Import MockRankingProps.

#[local] Arguments Number_isInteger : simpl never.
#[local] Arguments Qle_bool : simpl never.

(** [c.brand && c.model]: both present and non-empty. *)
Definition mapped (c : RankingCandidate) : bool :=
  truthy (cand_brand c) && truthy (cand_model c).

(** [`${c.brand} ${c.model}`]. *)
Definition display_name (c : RankingCandidate) : string :=
  interpolate (cand_brand c) +++ " " +++ interpolate (cand_model c).

Lemma map_mapi_from {A B C} (g : B -> C) (f : A -> nat -> B)
  (k : A -> C) (l : list A) :
  (forall a i, g (f a i) = k a) ->
  forall i, map g (mapi_from i f l) = map k l.
Proof.
  intros H. induction l as [|a l IH]; intros i; cbn [mapi_from map];
    [reflexivity|].
  rewrite H, IH. reflexivity.
Qed.

Lemma mockRanked_names (args : RankingArgs) :
  map rec_model (mockRanked args)
  = map display_name (firstn 3 (filter mapped (candidates args))).
Proof.
  unfold mockRanked, mapi, slice0.
  apply map_mapi_from. reflexivity.
Qed.

Lemma mockRanked_scores (args : RankingArgs) :
  map match_score (mockRanked args)
  = firstn (List.length (mockRanked args)) [90; 82; 74].
Proof.
  unfold mockRanked, mapi, slice0.
  pose proof (firstn_le_length 3
    (filter (fun c => truthy (cand_brand c) && truthy (cand_model c))
       (candidates args))) as L.
  destruct (firstn 3 _) as [|a [|b [|c [|d l]]]];
    [reflexivity | reflexivity | reflexivity | reflexivity
    | cbn [List.length] in L; lia].
Qed.

(** In mock mode with a valid profile, the recommendations are the first
    three candidates whose brand and model are both present and non-empty,
    in input order, named brand-space-model and scored 90, 82, 74 by
    position. *)
Theorem mock_ranking_order
  (MOCK_RANKING : bool) (openai : option OpenAI)
  (ZodError_message : list ZodIssue -> string) (args : RankingArgs) :
  mock_mode MOCK_RANKING openai ->
  visionFailed args = false ->
  valid_profile (profile args) ->
  exists r,
    runRanking MOCK_RANKING openai ZodError_message args
      = Done (Returned r) /\
    map rec_model (ranked r)
      = map display_name (firstn 3 (filter mapped (candidates args))) /\
    map match_score (ranked r)
      = firstn (List.length (ranked r)) [90; 82; 74].
Proof.
  intros Hm Hv Hp. exists (mockResult args).
  split; [apply runRanking_mock; assumption|].
  cbn [mockResult ranked].
  split; [apply mockRanked_names | apply mockRanked_scores].
Qed.

(** Four candidates: one unmapped, one with an empty brand, two mapped. *)
Definition mixed_args : RankingArgs :=
  {| requestId := "3f0c";
     profile := sample_profile;
     candidates :=
       [ {| cand_brand := None; cand_model := Some "Ghost 15";
            cand_raw_label := "Ghost 15"; cand_confidence := 1 # 2 |};
         {| cand_brand := Some "Hoka"; cand_model := Some "Clifton 9";
            cand_raw_label := "Hoka Clifton 9";
            cand_confidence := 69 # 100 |};
         {| cand_brand := Some ""; cand_model := Some "Pegasus 40";
            cand_raw_label := "Pegasus 40"; cand_confidence := 4 # 10 |};
         {| cand_brand := Some "Nike"; cand_model := Some "Pegasus 40";
            cand_raw_label := "Nike Pegasus 40";
            cand_confidence := 78 # 100 |} ];
     specsByName := [];
     visionFailed := false |}.

Lemma mock_ranking_order_witness :
  exists r,
    runRanking true None (fun _ => "") mixed_args = Done (Returned r) /\
    map rec_model (ranked r)
      = map display_name (firstn 3 (filter mapped (candidates mixed_args))) /\
    map match_score (ranked r)
      = firstn (List.length (ranked r)) [90; 82; 74].
Proof.
  apply (mock_ranking_order true None (fun _ => "") mixed_args).
  - left. reflexivity.
  - reflexivity.
  - split; [reflexivity | discriminate].
Defined.

Example mock_ranking_mixed :
  exists r,
    runRanking true None (fun _ => "") mixed_args = Done (Returned r) /\
    map rec_model (ranked r) = ["Hoka Clifton 9"; "Nike Pegasus 40"] /\
    map match_score (ranked r) = [90; 82].
Proof. eexists. split; [reflexivity|]. split; reflexivity. Qed.

Lemma ap_failure_r {A B} (rf : SafeParse (A -> B)) (l : list ZodIssue) :
  rf <*> failure l = failure (issues_of rf ++ l).
Proof. destruct rf; reflexivity. Qed.

Lemma ap_failure_l {A B} (l : list ZodIssue) (ra : SafeParse A) :
  @ap A B (failure l) ra = failure (l ++ issues_of ra).
Proof. reflexivity. Qed.

Lemma mileage_invalid (m : Q) :
  ~ (Number_isInteger m = true /\ 0 <= m) ->
  exists l, parse_number (min (int z_number) 0) (Some (JNum m)) = failure l.
Proof.
  intros H. unfold parse_number, min, int, z_number.
  cbn [number_checks app flat_map run_check].
  destruct (Number_isInteger m) eqn:E1, (Qle_bool 0 m) eqn:E2;
    try (eexists; reflexivity).
  exfalso. apply H. split; [reflexivity | apply Qle_bool_iff; exact E2].
Qed.

Lemma ProfileSchema_invalid (p : Profile) :
  ~ valid_profile p ->
  exists l, ProfileSchema (Some (of_Profile p)) = failure l.
Proof.
  intros H. destruct p as [a u m]. unfold valid_profile in H.
  cbn [weekly_mileage] in H.
  destruct (mileage_invalid m H) as [l E].
  unfold ProfileSchema, z_object, of_Profile, field.
  cbn [get String.eqb Ascii.eqb Bool.eqb andb arch_type usage
       weekly_mileage].
  rewrite E. cbn [under]. rewrite ap_failure_r. eexists. reflexivity.
Qed.

Lemma RankingSchema_invalid_profile (r : RecommendationsResult) :
  ~ valid_profile (profile_used r) ->
  exists l,
    safeParse RankingSchema (of_RecommendationsResult r) = failure l.
Proof.
  intros H. destruct (ProfileSchema_invalid _ H) as [l E].
  destruct r as [rid p rk av fb errs]. cbn [profile_used] in E.
  unfold safeParse, RankingSchema, z_object, of_RecommendationsResult, field.
  cbn [get String.eqb Ascii.eqb Bool.eqb andb rr_request_id profile_used
       ranked avoid fallback_needed rr_errors].
  rewrite E. cbn [under]. rewrite ap_failure_r, !ap_failure_l.
  eexists. reflexivity.
Qed.

(** In mock mode, a profile the Ranking Schema rejects (a negative or
    fractional weekly mileage) discards the recommendations: whatever the
    candidates, the result is the fallback with the single error
    [MOCK_RANK_SCHEMA_INVALID]. *)
Theorem mock_ranking_invalid_profile
  (MOCK_RANKING : bool) (openai : option OpenAI)
  (ZodError_message : list ZodIssue -> string) (args : RankingArgs) :
  mock_mode MOCK_RANKING openai ->
  visionFailed args = false ->
  ~ valid_profile (profile args) ->
  exists issues,
    runRanking MOCK_RANKING openai ZodError_message args
    = Done (Returned (fallbackResult args
                        {| code := "MOCK_RANK_SCHEMA_INVALID";
                           message := ZodError_message issues |})).
Proof.
  intros Hm Hv Hp. unfold runRanking. rewrite Hv.
  fold (mockResult args).
  destruct (RankingSchema_invalid_profile (mockResult args) Hp) as [l E].
  rewrite E. exists l.
  destruct Hm as [-> | ->]; [|destruct MOCK_RANKING]; reflexivity.
Qed.

Lemma mock_ranking_invalid_profile_witness :
  exists issues,
    runRanking true None (fun _ => "")
      {| requestId := "3f0c";
         profile := {| arch_type := normal; usage := road;
                       weekly_mileage := 5 # 2 |};
         candidates := candidates mixed_args;
         specsByName := [];
         visionFailed := false |}
    = Done (Returned
              (fallbackResult
                 {| requestId := "3f0c";
                    profile := {| arch_type := normal; usage := road;
                                  weekly_mileage := 5 # 2 |};
                    candidates := candidates mixed_args;
                    specsByName := [];
                    visionFailed := false |}
                 {| code := "MOCK_RANK_SCHEMA_INVALID";
                    message := (fun _ : list ZodIssue => "") issues |})).
Proof.
  apply (mock_ranking_invalid_profile true None (fun _ => "")
           {| requestId := "3f0c";
              profile := {| arch_type := normal; usage := road;
                            weekly_mileage := 5 # 2 |};
              candidates := candidates mixed_args;
              specsByName := [];
              visionFailed := false |}).
  - left. reflexivity.
  - reflexivity.
  - intros [H _]. vm_compute in H. discriminate.
Defined.

End RankingMore.

(* ------------------------------------------------------------------ *)
(** ** More on the overlay *)

Module OverlayMore.
Import Js Contracts Overlay ParserProps OverlayProps.

Lemma occurs_append (c : ascii) (s t : string) :
  occurs c (s +++ t) = occurs c s || occurs c t.
Proof.
  induction s as [|a r IH]; cbn [String.append occurs]; [reflexivity|].
  rewrite IH, orb_assoc. reflexivity.
Qed.

Lemma occurs_replaceAll_same (c : ascii) (rep s : string) :
  occurs c rep = false -> occurs c (replaceAll s c rep) = false.
Proof.
  intros H. induction s as [|a r IH]; cbn [replaceAll]; [reflexivity|].
  destruct (Ascii.eqb a c) eqn:E.
  - rewrite occurs_append, H, IH. reflexivity.
  - cbn [occurs]. rewrite E, IH. reflexivity.
Qed.

Lemma occurs_replaceAll_other (c d : ascii) (rep s : string) :
  occurs c s = false -> occurs c rep = false ->
  occurs c (replaceAll s d rep) = false.
Proof.
  intros Hs H. induction s as [|a r IH]; cbn [replaceAll]; [reflexivity|].
  cbn [occurs] in Hs. apply orb_false_iff in Hs. destruct Hs as [Ha Hr].
  destruct (Ascii.eqb a d).
  - rewrite occurs_append, H, (IH Hr). reflexivity.
  - cbn [occurs]. rewrite Ha, (IH Hr). reflexivity.
Qed.

(** The escaped text holds none of the characters ['<'], ['>'], the double
    quote and the single quote, whatever the input. *)
Theorem escapeSvgText_no_markup (input : string) :
  occurs "<" (escapeSvgText input) = false /\
  occurs ">" (escapeSvgText input) = false /\
  occurs "034" (escapeSvgText input) = false /\
  occurs "'" (escapeSvgText input) = false.
Proof.
  unfold escapeSvgText. repeat split.
  - do 3 (apply occurs_replaceAll_other; [|reflexivity]).
    apply occurs_replaceAll_same. reflexivity.
  - do 2 (apply occurs_replaceAll_other; [|reflexivity]).
    apply occurs_replaceAll_same. reflexivity.
  - apply occurs_replaceAll_other; [|reflexivity].
    apply occurs_replaceAll_same. reflexivity.
  - apply occurs_replaceAll_same. reflexivity.
Qed.

(** The entity written for one character. *)
Definition escapeChar (a : ascii) : string :=
  if Ascii.eqb a "&" then "&amp;"
  else if Ascii.eqb a "<" then "&lt;"
  else if Ascii.eqb a ">" then "&gt;"
  else if Ascii.eqb a "034" then "&quot;"
  else if Ascii.eqb a "'" then "&apos;"
  else String a EmptyString.

Fixpoint escapeEach (s : string) : string :=
  match s with
  | EmptyString => EmptyString
  | String a r => escapeChar a +++ escapeEach r
  end.

Lemma replaceAll_append (s t : string) (c : ascii) (rep : string) :
  replaceAll (s +++ t) c rep = replaceAll s c rep +++ replaceAll t c rep.
Proof.
  induction s as [|a r IH]; cbn [String.append replaceAll]; [reflexivity|].
  rewrite IH. destruct (Ascii.eqb a c); [|reflexivity].
  rewrite append_assoc. reflexivity.
Qed.

Lemma escapeSvgText_append (s t : string) :
  escapeSvgText (s +++ t) = escapeSvgText s +++ escapeSvgText t.
Proof. unfold escapeSvgText. rewrite !replaceAll_append. reflexivity. Qed.

Lemma escapeSvgText_char (a : ascii) :
  escapeSvgText (String a EmptyString) = escapeChar a.
Proof.
  unfold escapeChar.
  destruct (Ascii.eqb a "&") eqn:E1;
    [apply Ascii.eqb_eq in E1; subst a; reflexivity|].
  destruct (Ascii.eqb a "<") eqn:E2;
    [apply Ascii.eqb_eq in E2; subst a; reflexivity|].
  destruct (Ascii.eqb a ">") eqn:E3;
    [apply Ascii.eqb_eq in E3; subst a; reflexivity|].
  destruct (Ascii.eqb a "034") eqn:E4;
    [apply Ascii.eqb_eq in E4; subst a; reflexivity|].
  destruct (Ascii.eqb a "'") eqn:E5;
    [apply Ascii.eqb_eq in E5; subst a; reflexivity|].
  unfold escapeSvgText. cbn [replaceAll].
  rewrite E1. cbn [replaceAll]. rewrite E2. cbn [replaceAll].
  rewrite E3. cbn [replaceAll]. rewrite E4. cbn [replaceAll].
  rewrite E5. reflexivity.
Qed.

(** The five chained replacements amount to one pass that writes each
    character's entity: an ampersand written by a later replacement is
    never escaped again. *)
Theorem escapeSvgText_one_pass (input : string) :
  escapeSvgText input = escapeEach input.
Proof.
  induction input as [|a r IH]; [reflexivity|].
  change (String a r) with (String a EmptyString +++ r).
  rewrite escapeSvgText_append, escapeSvgText_char, IH. reflexivity.
Qed.

(** The numbers [buildOverlaySvg] computes for one localized candidate. *)
Record BoxLayout := {
  xSafe : Z; ySafe : Z; wSafe : Z; hSafe : Z;
  labelX : Z; labelY : Z; labelWidth : Z; labelHeight : Z
}.

(** The three elements, given the numbers. *)
Definition renderBox (strokeWidth fontSize : Z) (color label : string)
  (L : BoxLayout) : list string :=
  [ "<rect x=" +++ dq +++ String_of_Z (xSafe L) +++ dq
      +++ " y=" +++ dq +++ String_of_Z (ySafe L) +++ dq
      +++ " width=" +++ dq +++ String_of_Z (wSafe L) +++ dq
      +++ " height=" +++ dq +++ String_of_Z (hSafe L) +++ dq
      +++ " fill=" +++ dq +++ "none" +++ dq
      +++ " stroke=" +++ dq +++ color +++ dq
      +++ " stroke-width=" +++ dq +++ String_of_Z strokeWidth +++ dq
      +++ " />";
    "<rect x=" +++ dq +++ String_of_Z (labelX L) +++ dq
      +++ " y=" +++ dq +++ String_of_Z (labelY L) +++ dq
      +++ " width=" +++ dq +++ String_of_Z (labelWidth L) +++ dq
      +++ " height=" +++ dq +++ String_of_Z (labelHeight L) +++ dq
      +++ " fill=" +++ dq +++ color +++ dq
      +++ " fill-opacity=" +++ dq +++ "0.9" +++ dq
      +++ " rx=" +++ dq +++ "4" +++ dq
      +++ " ry=" +++ dq +++ "4" +++ dq +++ " />";
    "<text x=" +++ dq +++ String_of_Z (labelX L + labelPadX) +++ dq
      +++ " y=" +++ dq
      +++ String_of_Z (labelY L + labelPadY + fontSize - 2) +++ dq
      +++ " font-family=" +++ dq +++ "Arial, sans-serif" +++ dq
      +++ " font-size=" +++ dq +++ String_of_Z fontSize +++ dq
      +++ " fill=" +++ dq +++ "#111111" +++ dq +++ ">"
      +++ escapeSvgText label +++ "</text>" ].

Lemma Math_round_nonneg (q : Q) : 0 <= q -> (0 <= Math_round q)%Z.
Proof.
  intros H. unfold Math_round.
  change 0%Z with (Qfloor 0). apply Qfloor_resp_le. lra.
Qed.

Lemma scaled_nonneg (q : Q) (n : Z) :
  0 <= q -> (1 <= n)%Z -> 0 <= q * inject_Z n.
Proof.
  intros Hq Hn. apply Qmult_le_0_compat; [exact Hq|].
  change 0 with (inject_Z 0). rewrite <- Zle_Qle. lia.
Qed.

(** For an image of at least one pixel each way and a box whose origin is
    not negative, the rectangle drawn lies within the image and is at
    least one pixel wide and high, and the label chip ends at least two
    pixels before the right and the bottom edge. *)
Theorem boxElements_inside_image
  (width height strokeWidth fontSize : Z) (color label : string)
  (b : BBox) :
  (1 <= width)%Z -> (1 <= height)%Z -> 0 <= x b -> 0 <= y b ->
  exists L,
    boxElements width height strokeWidth fontSize color label b
      = renderBox strokeWidth fontSize color label L /\
    (0 <= xSafe L /\ 1 <= wSafe L /\ xSafe L + wSafe L <= width)%Z /\
    (0 <= ySafe L /\ 1 <= hSafe L /\ ySafe L + hSafe L <= height)%Z /\
    (labelX L + labelWidth L <= width - 2)%Z /\
    (labelY L + labelHeight L <= height - 2)%Z.
Proof.
  intros Hw Hh Hx Hy.
  pose proof (Math_round_nonneg _ (scaled_nonneg _ _ Hx Hw)) as Rx.
  pose proof (Math_round_nonneg _ (scaled_nonneg _ _ Hy Hh)) as Ry.
  set (px := Math_round (x b * inject_Z width)) in *.
  set (py := Math_round (y b * inject_Z height)) in *.
  set (pw := Math_round (w b * inject_Z width)).
  set (ph := Math_round (h b * inject_Z height)).
  set (est := estimateTextWidth label fontSize).
  set (xs := Z.min px (Z.max 0 (width - 1))).
  set (ys := Z.min py (Z.max 0 (height - 1))).
  set (lw := Z.min (width - 4) (est + labelPadX * 2)).
  set (lh := (fontSize + labelPadY * 2)%Z).
  exists {| xSafe := xs; ySafe := ys;
            wSafe := Z.min (Z.max 1 pw) (width - xs);
            hSafe := Z.min (Z.max 1 ph) (height - ys);
            labelX := if (width - 2 <? xs + lw)%Z
                      then Z.max 2 (width - lw - 2) else xs;
            labelY := if (ys - lh - 4 <? 2)%Z
                      then Z.min (height - lh - 2) (ys + 4)
                      else (ys - lh - 4)%Z;
            labelWidth := lw; labelHeight := lh |}.
  split; [reflexivity|].
  cbn [xSafe ySafe wSafe hSafe labelX labelY labelWidth labelHeight].
  split; [subst xs; lia|]. split; [subst ys; lia|]. split.
  - destruct (width - 2 <? xs + lw)%Z eqn:E.
    + subst lw. lia.
    + apply Z.ltb_ge in E. lia.
  - destruct (ys - lh - 4 <? 2)%Z eqn:E.
    + lia.
    + subst ys. lia.
Qed.

Lemma boxElements_inside_image_witness :
  exists L,
    boxElements 640 480 2 13 "#f43f5e" "Nike Pegasus 40 (78%)"
      {| x := 8 # 100; y := 22 # 100; w := 22 # 100; h := 18 # 100 |}
      = renderBox 2 13 "#f43f5e" "Nike Pegasus 40 (78%)" L /\
    (0 <= xSafe L /\ 1 <= wSafe L /\ xSafe L + wSafe L <= 640)%Z /\
    (0 <= ySafe L /\ 1 <= hSafe L /\ ySafe L + hSafe L <= 480)%Z /\
    (labelX L + labelWidth L <= 640 - 2)%Z /\
    (labelY L + labelHeight L <= 480 - 2)%Z.
Proof.
  apply (boxElements_inside_image 640 480 2 13 "#f43f5e"
           "Nike Pegasus 40 (78%)"
           {| x := 8 # 100; y := 22 # 100; w := 22 # 100; h := 18 # 100 |});
    try lia; cbn; discriminate.
Defined.

(** However many candidates lack a bbox, the summary panel has at most
    eleven elements: the rectangle, the header, eight labels and the
    ["+N more"] line. *)
Theorem panelElements_bounded (width fontSize : Z)
  (missingLabels : list string) :
  (List.length (panelElements width fontSize missingLabels) <= 11)%nat.
Proof.
  unfold panelElements.
  destruct (0 <? List.length missingLabels)%nat; [|cbn; lia].
  cbn [List.length]. unfold mapi.
  rewrite MockRankingProps.length_mapi_from, panelLines_spec.
  cbn [List.length]. rewrite length_app.
  pose proof (firstn_le_length 8 missingLabels).
  destruct (8 <? List.length missingLabels)%nat; cbn [List.length]; lia.
Qed.

End OverlayMore.

(* ------------------------------------------------------------------ *)
(** ** services/openai.ts: the candidate limit read from the environment *)

Module Config.
Import Js.

(** The value of [Number(text)]: a finite number, or NaN or an infinity. *)
Inductive JsNumber :=
| Finite (q : Q)
| NonFinite.

Section Limit.

(** Platform: [Number] applied to a string. *)
Variable Number : string -> JsNumber.

(** The initialiser of [VISION_MAX_CANDIDATES]; [env] is
    [process.env.VISION_MAX_CANDIDATES]. *)
Definition VISION_MAX_CANDIDATES (env : option string) : Z :=
  let parsed :=
    (* Number(env || 8) *)
    match env with
    | Some text => if String.eqb text "" then Finite 8 else Number text
    | None => Finite 8
    end in
  match parsed with
  | NonFinite => 8
  | Finite q => Z.max 1 (Z.min 20 (Math_floor q))
  end.

End Limit.

(** Whatever the environment holds and however [Number] reads it, the
    candidate limit lies within 1..20; it is 8 when the variable is unset
    or empty, and 8 when it does not read as a finite number. *)
Theorem VISION_MAX_CANDIDATES_bounds (Number : string -> JsNumber)
  (env : option string) :
  (1 <= VISION_MAX_CANDIDATES Number env <= 20)%Z /\
  VISION_MAX_CANDIDATES Number None = 8%Z /\
  VISION_MAX_CANDIDATES Number (Some "") = 8%Z /\
  (forall text,
     Number text = NonFinite ->
     VISION_MAX_CANDIDATES Number (Some text) = 8%Z).
Proof.
  split; [|split; [reflexivity | split; [reflexivity|]]].
  - unfold VISION_MAX_CANDIDATES.
    destruct env as [text|]; [|cbn; lia].
    destruct (String.eqb text ""); [cbn; lia|].
    destruct (Number text); lia.
  - intros text H. unfold VISION_MAX_CANDIDATES.
    destruct (String.eqb text ""); [reflexivity|].
    rewrite H. reflexivity.
Qed.

End Config.

(* ------------------------------------------------------------------ *)
(** ** routes/analyze.ts *)

Module Analyze.
Import Js Json Zod Contracts Openai Overlay.

(** [text.split(sep)] for a one-character separator. *)
Fixpoint split (sep : ascii) (text : string) : list string :=
  match text with
  | EmptyString => [EmptyString]
  | String a r =>
      if Ascii.eqb a sep then EmptyString :: split sep r
      else match split sep r with
           | h :: t => String a h :: t
           | [] => [String a EmptyString]
           end
  end.

(** [array.pop()] read as a string: the last element, [undefined] (falsy,
    as the empty string is) when there is none. *)
Definition pop (parts : list string) : string := last parts EmptyString.

(** [file.originalname.split('.').pop() || 'jpg']. *)
Definition imageExt (originalname : string) : string :=
  let ext := pop (split "." originalname) in
  if String.eqb ext "" then "jpg" else ext.

(** The [bbox_summary] of the overlay route. *)
Record BboxSummary := {
  total_candidates : Z;
  localized_candidates : Z;
  missing_bbox : Z
}.

Definition bboxSummary (candidates : list VisionCandidate) : BboxSummary :=
  let localized :=
    List.length
      (filter (fun candidate => match bbox candidate with
                                | Some _ => true
                                | None => false
                                end) candidates) in
  {| total_candidates := Z.of_nat (List.length candidates);
     localized_candidates := Z.of_nat localized;
     missing_bbox :=
       (Z.of_nat (List.length candidates) - Z.of_nat localized)%Z |}.

Section Stages.

Variable MOCK_VISION : bool.
Variable MOCK_RANKING : bool.
Variable VISION_MAX_CANDIDATES : nat.
Variable openai : option OpenAI.
Variable model : string.
Variable JSON_parse : string -> Outcome JSON.
Variable ZodError_message : list ZodIssue -> string.

(** The two stage calls of the [POST /] handler, for an uploaded [file],
    the [user] row and the catalog already loaded: [runVision], then
    [runRanking] on its candidates with
    [visionFailed = vision.candidates.length === 0]. *)
Definition analyzeStages (upstream : ResponsesCreate -> Outcome Response)
  (uuid : string) (imageUrl : string) (mimetype : string)
  (file_buffer : list ascii) (user : Profile)
  (specsByName : list (string * JSON))
  : Outcome (VisionResult * RecommendationsResult) :=
  bind (settle upstream
          (runVision MOCK_VISION VISION_MAX_CANDIDATES openai model
             JSON_parse ZodError_message uuid
             {| Openai.imageUrl := imageUrl; mimeType := mimetype;
                buffer := file_buffer |}))
    (fun vision =>
       let visionFailed :=
         (List.length (Contracts.candidates vision) =? 0)%nat in
       bind (settle upstream
               (runRanking MOCK_RANKING openai ZodError_message
                  {| requestId := request_id vision;
                     profile := user;
                     candidates :=
                       map as_RankingCandidate (Contracts.candidates vision);
                     Openai.specsByName := specsByName;
                     Openai.visionFailed := visionFailed |}))
         (fun recommendations => Returned (vision, recommendations))).

End Stages.

End Analyze.

Module AnalyzeProps.
Import Js Json Zod Contracts Runtime Openai Overlay Analyze.
Import ParserProps OverlayProps StageProps.

Lemma split_last (text : string) :
  let parts := split "." text in
  parts <> [] /\
  (exists pre, text = pre +++ pop parts) /\
  occurs "." (pop parts) = false /\
  (forall h, parts = [h] -> text = h).
Proof.
  cbv zeta. unfold pop.
  induction text as [|a r [Hne [[pre Hpre] [Hdot Hone]]]]; cbn [split].
  - repeat split; [discriminate | exists ""; reflexivity
                  | intros h [= <-]; reflexivity].
  - destruct (split "." r) as [|h t] eqn:E; [contradiction|].
    destruct (Ascii.eqb a ".") eqn:Ea.
    + split; [discriminate|]. split; [|split].
      * exists (String a pre). cbn [String.append]. rewrite Hpre at 1.
        reflexivity.
      * exact Hdot.
      * intros h' [=].
    + split; [discriminate|]. destruct t as [|t0 t'].
      * cbn [last] in *. rewrite (Hone h eq_refl).
        split; [exists ""; reflexivity|]. split.
        -- cbn [occurs]. rewrite Ea, Hdot. reflexivity.
        -- intros h' [= <-]. reflexivity.
      * split; [|split].
        -- exists (String a pre). cbn [String.append].
           rewrite Hpre at 1. reflexivity.
        -- exact Hdot.
        -- intros h' [=].
Qed.

(** The extension given to a stored upload is never empty and holds no
    dot; it is [jpg] or the end of the original file name. *)
Theorem imageExt_spec (originalname : string) :
  imageExt originalname <> "" /\
  occurs "." (imageExt originalname) = false /\
  (imageExt originalname = "jpg" \/
   exists pre, originalname = pre +++ imageExt originalname).
Proof.
  destruct (split_last originalname) as [_ [[pre Hpre] [Hdot _]]].
  unfold imageExt.
  destruct (String.eqb (pop (split "." originalname)) "") eqn:E.
  - split; [discriminate|]. split; [reflexivity | left; reflexivity].
  - apply String.eqb_neq in E.
    split; [exact E|]. split; [exact Hdot|]. right. exists pre. exact Hpre.
Qed.

Example imageExt_samples :
  imageExt "wall.photo.PNG" = "PNG" /\ imageExt "wall" = "wall" /\
  imageExt "wall." = "jpg" /\ imageExt "" = "jpg" /\
  imageExt ".hidden" = "hidden".
Proof. repeat split. Qed.

(** The [bbox_summary] counts are consistent: [missing_bbox] is the number
    of candidates without a bbox, the one the overlay panel prints in its
    header (however the labels' percentages round), and localized plus
    missing make the total. *)
Theorem bboxSummary_counts (times : Q -> Q -> Q)
  (candidates : list VisionCandidate) :
  let s := bboxSummary candidates in
  missing_bbox s = Z.of_nat (List.length (unlocalizedLabels times candidates)) /\
  (localized_candidates s + missing_bbox s = total_candidates s)%Z /\
  (0 <= missing_bbox s <= total_candidates s)%Z /\
  exists rest,
    panelLines (unlocalizedLabels times candidates)
    = headerLine (Z.to_nat (missing_bbox s)) :: rest.
Proof.
  cbv zeta. unfold bboxSummary.
  cbn [missing_bbox localized_candidates total_candidates].
  assert (M : List.length (unlocalizedLabels times candidates)
              = List.length (filter unlocalized candidates))
    by (unfold unlocalizedLabels; apply length_map).
  pose proof (filter_length
                (fun c => match bbox c with
                          | Some _ => true
                          | None => false
                          end) candidates) as F.
  assert (E : filter (fun c => negb match bbox c with
                                    | Some _ => true
                                    | None => false
                                    end) candidates
              = filter unlocalized candidates).
  { apply filter_ext. intros c. unfold unlocalized.
    destruct (bbox c); reflexivity. }
  cbv beta in F. rewrite E in F.
  assert (V : (Z.of_nat (List.length candidates)
               - Z.of_nat (List.length
                   (filter (fun c => match bbox c with
                                     | Some _ => true
                                     | None => false
                                     end) candidates)))%Z
              = Z.of_nat (List.length (unlocalizedLabels times candidates)))
    by lia.
  rewrite V.
  split; [reflexivity|]. split; [lia|]. split; [lia|].
  rewrite Nat2Z.id, panelLines_spec. eexists. reflexivity.
Qed.

Section Stages.

Variable MOCK_VISION : bool.
Variable MOCK_RANKING : bool.
Variable VISION_MAX_CANDIDATES : nat.
Variable openai : option OpenAI.
Variable model : string.
Variable JSON_parse : string -> Outcome JSON.
Variable ZodError_message : list ZodIssue -> string.

Lemma runVision_settles
  (upstream : ResponsesCreate -> Outcome Response)
  (uuid : string) (image : VisionArgs) :
  exists v,
    settle upstream
      (runVision MOCK_VISION VISION_MAX_CANDIDATES openai model JSON_parse
         ZodError_message uuid image) = Returned v.
Proof.
  unfold runVision.
  destruct MOCK_VISION, openai as [client|]; try (eexists; reflexivity).
  cbn [settle].
  destruct (upstream _) as [resp | e]; cbn [bind try_catch];
    [|eexists; reflexivity].
  unfold visionFromResponse.
  destruct (safeParseJsonFromModel JSON_parse (output_text resp))
    as [json | e]; cbn [bind try_catch]; [|eexists; reflexivity].
  destruct (safeParse _ _); eexists; reflexivity.
Qed.

Lemma runRanking_codes (args : RankingArgs) :
  exists r,
    runRanking MOCK_RANKING openai ZodError_message args
      = Done (Returned r) /\
    rr_request_id r = requestId args /\ profile_used r = profile args /\
    if visionFailed args
    then fallback_needed r = true /\ ranked r = [] /\
         exists msg,
           rr_errors r = [ {| code := "VISION_UNAVAILABLE"; message := msg |} ]
    else Forall (fun e => code e <> "VISION_UNAVAILABLE") (rr_errors r).
Proof.
  unfold runRanking. destruct (visionFailed args).
  { eexists. split; [reflexivity|]. cbn. repeat split. eexists. reflexivity. }
  destruct MOCK_RANKING, openai;
    try (eexists; split; [reflexivity|]; cbn; repeat split;
         repeat constructor; discriminate);
    destruct (safeParse RankingSchema _);
    eexists; (split; [reflexivity|]); cbn; repeat split;
    repeat constructor; discriminate.
Qed.

(** The stage calls of the handler never throw; the recommendations echo
    the request id of the detection and the user's profile; and they carry
    [VISION_UNAVAILABLE] (as their only error, with [fallback_needed] and
    nothing ranked) exactly when the detection returned no candidate. *)
Theorem analyzeStages_fallback
  (upstream : ResponsesCreate -> Outcome Response)
  (uuid imageUrl mimetype : string) (file_buffer : list ascii)
  (user : Profile) (specsByName : list (string * JSON)) :
  exists vision recommendations,
    analyzeStages MOCK_VISION MOCK_RANKING VISION_MAX_CANDIDATES openai
      model JSON_parse ZodError_message upstream uuid imageUrl mimetype
      file_buffer user specsByName
    = Returned (vision, recommendations) /\
    rr_request_id recommendations = request_id vision /\
    profile_used recommendations = user /\
    match Contracts.candidates vision with
    | [] =>
        fallback_needed recommendations = true /\
        ranked recommendations = [] /\
        exists msg,
          rr_errors recommendations
          = [ {| code := "VISION_UNAVAILABLE"; message := msg |} ]
    | _ :: _ =>
        Forall (fun e => code e <> "VISION_UNAVAILABLE")
          (rr_errors recommendations)
    end.
Proof.
  unfold analyzeStages.
  destruct (runVision_settles upstream uuid
              {| Openai.imageUrl := imageUrl; mimeType := mimetype;
                 buffer := file_buffer |}) as [v Ev].
  rewrite Ev. cbn [bind].
  match goal with
  | |- context [runRanking _ _ _ ?a] =>
      destruct (runRanking_codes a) as [r [Er [Hid [Hp Hc]]]]
  end.
  rewrite Er. cbn [settle bind].
  exists v, r. split; [reflexivity|].
  cbn [requestId profile visionFailed] in Hid, Hp, Hc.
  split; [exact Hid|]. split; [exact Hp|].
  destruct (Contracts.candidates v); exact Hc.
Qed.

End Stages.

End AnalyzeProps.

(* ------------------------------------------------------------------ *)
(** ** runVision on a reply that wraps its JSON *)

Module VisionReplyProps.
Import Js Json Zod Contracts Runtime Openai PatchProps ParserProps StageProps.

Lemma safeParse_embedded (JSON_parse : string -> Outcome JSON)
  (pre body post : string) (e : Exn) :
  indexOf pre "{" = (-1)%Z ->
  lastIndexOf post "}" = (-1)%Z ->
  JSON_parse (pre +++ ("{" +++ body +++ "}") +++ post) = Thrown e ->
  safeParseJsonFromModel JSON_parse (pre +++ ("{" +++ body +++ "}") +++ post)
  = JSON_parse ("{" +++ body +++ "}").
Proof.
  intros Hpre Hpost Hfull.
  apply indexOf_from_absent in Hpre; [|lia].
  apply lastIndexOf_from_absent in Hpost; [|lia].
  destruct (slice_embedded pre body post Hpre Hpost) as [F [L S]].
  unfold safeParseJsonFromModel. rewrite Hfull. cbn [try_catch].
  rewrite S, F, L.
  replace ((str_length pre >=? 0)%Z
           && (str_length pre + str_length body + 1 >? str_length pre)%Z)
    with true; [reflexivity|].
  unfold str_length. symmetry. apply andb_true_iff. split.
  - apply Z.geb_le. lia.
  - apply Z.gtb_lt. lia.
Qed.

Lemma patched_validates (VISION_MAX_CANDIDATES : nat)
  (payload : JSON) (data : VisionResult) :
  safeParse (VisionSchema_bbox_optional VISION_MAX_CANDIDATES) payload
    = success data ->
  safeParse (VisionSchema VISION_MAX_CANDIDATES) (patchVisionPayload payload)
    = success data.
Proof.
  unfold safeParse. intros H.
  destruct payload as [| | | | |props]; try discriminate.
  unfold VisionSchema_bbox_optional, z_object in H.
  apply ap_success in H. destruct H as [f3 [errs [H [Herrs ->]]]].
  apply ap_success in H. destruct H as [f2 [iq [H [Hiq ->]]]].
  apply ap_success in H. destruct H as [f1 [ds [H [Hcs ->]]]].
  apply fmap_success in H. destruct H as [rid [Hrid ->]].
  unfold field in Hcs. apply under_success in Hcs.
  destruct (get props "candidates") as [[| | | |cs|]|] eqn:Hget;
    try discriminate.
  unfold parse_array in Hcs. rewrite length_issues_max in Hcs.
  cbn [element array_max z_array] in Hcs.
  destruct (VISION_MAX_CANDIDATES <? List.length cs)%nat eqn:Hlen;
    [discriminate|].
  rewrite (patchVisionPayload_object props cs Hget).
  unfold VisionSchema, z_object.
  rewrite field_set_same, !field_set_other by discriminate.
  rewrite Hrid, Hiq, Herrs.
  unfold parse_array. rewrite length_issues_max, length_map, Hlen.
  cbn [element array_max z_array].
  rewrite (parse_items_patched _ _ _ Hcs). reflexivity.
Qed.

(** In live mode, when the model's reply is not JSON as a whole but wraps
    one object text in prose or a markdown fence (no ['{'] before it, no
    ['}'] after it), and that object meets the Detection Schema except for
    missing [bbox] keys, [runVision] returns the validated data,
    normalised. *)
Theorem runVision_accepts_wrapped_reply
  (VISION_MAX_CANDIDATES : nat) (client : OpenAI) (model : string)
  (JSON_parse : string -> Outcome JSON)
  (ZodError_message : list ZodIssue -> string)
  (upstream : ResponsesCreate -> Outcome Response)
  (uuid : string) (image : VisionArgs)
  (pre body post : string) (e : Exn) (payload : JSON)
  (data : VisionResult) :
  (forall call,
     upstream call
     = Returned {| output_text := pre +++ ("{" +++ body +++ "}") +++ post |}) ->
  indexOf pre "{" = (-1)%Z ->
  lastIndexOf post "}" = (-1)%Z ->
  JSON_parse (pre +++ ("{" +++ body +++ "}") +++ post) = Thrown e ->
  JSON_parse ("{" +++ body +++ "}") = Returned payload ->
  safeParse (VisionSchema_bbox_optional VISION_MAX_CANDIDATES) payload
    = success data ->
  settle upstream
    (runVision false VISION_MAX_CANDIDATES (Some client) model JSON_parse
       ZodError_message uuid image)
  = Returned (normalizeVisionResult data).
Proof.
  intros Hup Hpre Hpost Hfull Hobj Hvalid.
  unfold runVision. cbn [settle]. rewrite Hup. cbn [bind try_catch].
  unfold visionFromResponse. cbn [output_text].
  rewrite (safeParse_embedded JSON_parse pre body post e Hpre Hpost Hfull).
  rewrite Hobj. cbn [bind].
  rewrite (patched_validates _ _ _ Hvalid). reflexivity.
Qed.

(** The body of [fenced_reply], between its braces. *)
Definition fenced_body : string :=
  quoted "request_id" +++ ":" +++ quoted "r-1" +++ ","
  +++ quoted "candidates" +++ ":[{"
  +++ quoted "raw_label" +++ ":" +++ quoted "Nike Pegasus 40" +++ ","
  +++ quoted "brand" +++ ":" +++ quoted "Nike" +++ ","
  +++ quoted "model" +++ ":" +++ quoted "Pegasus 40" +++ ","
  +++ quoted "confidence" +++ ":0.8}],"
  +++ quoted "image_quality" +++ ":{"
  +++ quoted "lighting" +++ ":" +++ quoted "good" +++ ","
  +++ quoted "blur" +++ ":" +++ quoted "none" +++ ","
  +++ quoted "occlusion" +++ ":" +++ quoted "none" +++ "},"
  +++ quoted "errors" +++ ":[]".

Lemma runVision_accepts_wrapped_reply_witness :
  exists data,
    settle
      (fun _ => Returned
         {| output_text :=
              ("```json" +++ nl) +++ ("{" +++ fenced_body +++ "}")
                +++ (nl +++ "```") |})
      (runVision false 8 (Some {| apiKey := "sk-live" |}) "gpt-4o-mini"
         Json.parse (fun _ => "") "uuid-1" sample_image)
    = Returned (normalizeVisionResult data).
Proof.
  eexists.
  eapply (runVision_accepts_wrapped_reply 8 {| apiKey := "sk-live" |}
            "gpt-4o-mini" Json.parse (fun _ => "")
            (fun _ => Returned
               {| output_text :=
                    ("```json" +++ nl) +++ ("{" +++ fenced_body +++ "}")
                      +++ (nl +++ "```") |})
            "uuid-1" sample_image
            ("```json" +++ nl) fenced_body (nl +++ "```")).
  - intros call. reflexivity.
  - vm_compute. reflexivity.
  - vm_compute. reflexivity.
  - vm_compute. reflexivity.
  - vm_compute. reflexivity.
  - vm_compute. reflexivity.
Defined.

End VisionReplyProps.
